(** * Infiverse monitoring core: session registry, activity buffer,
      compliance classifier, violation response and capture pipeline.

    Shallow embedding of

    - [server/services/clientMonitoringHandler.js]
      (class [ClientMonitoringHandler]: the Socket.io handlers, the
      three-tier compliance check, the cooldown, the buffered flush and
      the screenshot ingest), and
    - the server-side [ScreenCaptureService.captureScreen].

    Conventions of the embedding.

    - A JavaScript [Map] is an insertion-ordered association list
      ([JsMap]): [handleClientDisconnect] walks [entries()] in
      insertion order and stops at the first match, so order matters.
    - A handler is a computation in the monad [M]: it threads the
      in-memory state of the singleton, appends the external effects it
      performs (database writes, socket emits, [console.warn] and
      [console.error] lines) to a chronological trace, and completes
      either normally or by throwing.  [try_catch] is the source's
      [try { } catch (error) { }].  Informational [console.log] lines
      are not part of the trace.
    - An awaited call is a sequenced call: each handler invocation runs
      to completion before the next inbound event is looked at.
    - What a collaborator answers (database, Cloudinary, OCR, AI, the
      clock) is given per call by an environment record; the builtins
      the code relies on ([RegExp], [Date] parsing, base64 decoding,
      MD5) are section variables.
    - Strings are byte strings; [toLowerCase] folds the ASCII letters. *)

From Stdlib Require Import String Ascii List ZArith Bool Lia.
Import ListNotations.

Open Scope string_scope.
Open Scope list_scope.
Open Scope Z_scope.

(* ------------------------------------------------------------------ *)
(** ** JavaScript strings and truthiness *)

Module JS.

Definition lower_ascii (c : ascii) : ascii :=
  let n := nat_of_ascii c in
  if ((65 <=? n) && (n <=? 90))%nat then ascii_of_nat (n + 32) else c.

Fixpoint toLowerCase (s : string) : string :=
  match s with
  | EmptyString => EmptyString
  | String c s' => String (lower_ascii c) (toLowerCase s')
  end.

(** [s.includes(sub)]: [sub] occurs somewhere in [s]. *)
Fixpoint includes (s sub : string) : bool :=
  String.prefix sub s ||
  match s with
  | EmptyString => false
  | String _ s' => includes s' sub
  end.

(** [arr.some(p)] *)
Definition some {A : Type} (p : A -> bool) (arr : list A) : bool :=
  existsb p arr.

(** [!!s] for a possibly absent string: [undefined], [null] and the
    empty string are falsy. *)
Definition truthy_str (o : option string) : bool :=
  match o with
  | Some s => negb (String.eqb s "")
  | None => false
  end.

(** [!!n] for a possibly absent number: [0] is falsy. *)
Definition truthy_num (o : option Z) : bool :=
  match o with
  | Some n => negb (n =? 0)%Z
  | None => false
  end.

(** [!!o] for a possibly absent object. *)
Definition truthy_obj {A : Type} (o : option A) : bool :=
  match o with
  | Some _ => true
  | None => false
  end.

(** [s || d] for a possibly absent string. *)
Definition str_or (o : option string) (d : string) : string :=
  match o with
  | Some s => if String.eqb s "" then d else s
  | None => d
  end.

(** [a || b] for possibly absent numbers. *)
Definition num_or (a b : option Z) : option Z :=
  if truthy_num a then a else b.

(** [s.replace(/\./g, '\\.')] *)
Fixpoint escape_dots (s : string) : string :=
  match s with
  | EmptyString => EmptyString
  | String c s' =>
      if Ascii.eqb c "."%char
      then String "\"%char (String "."%char (escape_dots s'))
      else String c (escape_dots s')
  end.

End JS.

(* ------------------------------------------------------------------ *)
(** ** JavaScript [Map] with string keys, in insertion order *)

Module JsMap.

Section Ops.
Context {V : Type}.

Definition t := list (string * V).

Definition empty : t := [].

Fixpoint get (k : string) (m : t) : option V :=
  match m with
  | [] => None
  | (k', v) :: m' => if String.eqb k k' then Some v else get k m'
  end.

Definition has (k : string) (m : t) : bool :=
  match get k m with
  | Some _ => true
  | None => false
  end.

(** [m.set(k, v)]: an existing key keeps its position. *)
Fixpoint set (k : string) (v : V) (m : t) : t :=
  match m with
  | [] => [(k, v)]
  | (k', v') :: m' =>
      if String.eqb k k' then (k, v) :: m' else (k', v') :: set k v m'
  end.

Fixpoint delete (k : string) (m : t) : t :=
  match m with
  | [] => []
  | (k', v') :: m' =>
      if String.eqb k k' then delete k m' else (k', v') :: delete k m'
  end.

Definition keys (m : t) : list string := map fst m.

(** The first entry, in insertion order, whose value satisfies [p]:
    a [for (const [k, v] of m.entries())] loop that [break]s on the
    first hit. *)
Fixpoint find_first (p : V -> bool) (m : t) : option (string * V) :=
  match m with
  | [] => None
  | (k, v) :: m' => if p v then Some (k, v) else find_first p m'
  end.

End Ops.

Arguments t : clear implicits.

End JsMap.

(* ------------------------------------------------------------------ *)
(** ** Handlers as computations: state, effect trace, exceptions *)

Inductive Completion (A : Type) : Type :=
| Normal (a : A)
| Throw (message : string).

Arguments Normal {A} a.
Arguments Throw {A} message.

(** [M S E A]: a computation over in-memory state [S] that records
    effects of type [E] and completes with an [A] or throws. *)
Definition M (S E A : Type) : Type := S -> Completion A * S * list E.

Section Monad.
Context {S E : Type}.

Definition ret {A} (a : A) : M S E A := fun s => (Normal a, s, []).

Definition bind {A B} (m : M S E A) (k : A -> M S E B) : M S E B :=
  fun s =>
    match m s with
    | (Normal a, s1, fx1) =>
        match k a s1 with
        | (r, s2, fx2) => (r, s2, fx1 ++ fx2)
        end
    | (Throw e, s1, fx1) => (Throw e, s1, fx1)
    end.

Definition throw {A} (e : string) : M S E A := fun s => (Throw e, s, []).

Definition tell (e : E) : M S E unit := fun s => (Normal tt, s, [e]).

Definition get_state : M S E S := fun s => (Normal s, s, []).

Definition modify (f : S -> S) : M S E unit := fun s => (Normal tt, f s, []).

(** [try { body } catch (error) { handler(error.message) }] *)
Definition try_catch {A} (body : M S E A) (handler : string -> M S E A)
  : M S E A :=
  fun s =>
    match body s with
    | (Normal a, s1, fx1) => (Normal a, s1, fx1)
    | (Throw e, s1, fx1) =>
        match handler e s1 with
        | (r, s2, fx2) => (r, s2, fx1 ++ fx2)
        end
    end.

Definition when (b : bool) (m : M S E unit) : M S E unit :=
  if b then m else ret tt.

End Monad.

Declare Scope js_scope.
Delimit Scope js_scope with js.
Notation "x <- c1 ;; c2" := (bind c1 (fun x => c2))
  (at level 100, c1 at next level, right associativity) : js_scope.
Notation "c1 ;; c2" := (bind c1 (fun _ => c2))
  (at level 100, right associativity) : js_scope.

Definition state_of {S E A} (r : Completion A * S * list E) : S := snd (fst r).
Definition trace_of {S E A} (r : Completion A * S * list E) : list E := snd r.
Definition completion_of {S E A} (r : Completion A * S * list E)
  : Completion A := fst (fst r).

(* ------------------------------------------------------------------ *)
(** ** [ClientMonitoringHandler]: data model *)

Module ClientMonitoringHandler.

(** The [activity] object of a [client-activity-update] event, as the
    client's [trackCurrentActivity] builds it.  [title] may be absent:
    the source reads it as [activity.title || '']. *)
Record Activity : Type := {
  act_url : string;
  act_title : option string;
  act_timestamp : string;
  act_isActive : bool;
  act_domain : string;
  act_path : string;
  act_userAgent : string
}.

Record Capabilities : Type := {
  screenCapture : bool;
  activityTracking : bool
}.

(** A value of [this.activeSessions]. *)
Record Session : Type := {
  employeeId : string;
  sessionId : string;
  socketId : string;
  startTime : Z;
  capabilities : Capabilities;
  lastActivity : option Activity;
  violationCount : Z;
  lastViolationTime : option Z
}.

(** The three shapes of record pushed on an activity buffer.  The
    [timestamp] is the payload the source wraps in [new Date(...)]. *)
Inductive ActivityRecord : Type :=
| browser_activity (employee session_id timestamp : string) (a : Activity)
| visibility_change (employee session_id timestamp : string) (isVisible : bool)
| focus_change (employee session_id timestamp : string) (hasFocus : bool).

Record Config : Type := {
  activityFlushInterval : Z;
  violationCooldown : Z;
  maxActivityBuffer : Z
}.

(** The configuration set by the constructor. *)
Definition default_config : Config := {|
  activityFlushInterval := 30000;
  violationCooldown := 60000;
  maxActivityBuffer := 100
|}.

(** The in-memory state of the singleton.  The third map of the
    constructor, [violationSessions], is never read or written by a
    handler and is left out. *)
Record Handler : Type := {
  activeSessions : JsMap.t Session;
  activityBuffer : JsMap.t (list ActivityRecord);
  config : Config
}.

(** The state the constructor leaves. *)
Definition new_handler : Handler := {|
  activeSessions := JsMap.empty;
  activityBuffer := JsMap.empty;
  config := default_config
|}.

Definition with_sessions (h : Handler) (m : JsMap.t Session) : Handler :=
  {| activeSessions := m;
     activityBuffer := activityBuffer h;
     config := config h |}.

Definition with_buffer (h : Handler) (m : JsMap.t (list ActivityRecord))
  : Handler :=
  {| activeSessions := activeSessions h;
     activityBuffer := m;
     config := config h |}.

(* ------------------------------------------------------------------ *)
(** ** The compliance classifier: [isExplicitViolation],
       [isWorkRelatedActivity], [getAlertConfig] *)

Definition violationDomains : list string := [
  (* Social Media *)
  "facebook.com"; "instagram.com"; "twitter.com"; "x.com"; "tiktok.com";
  "snapchat.com"; "linkedin.com"; "pinterest.com"; "reddit.com";
  "tumblr.com"; "discord.com"; "whatsapp.com"; "telegram.org";
  (* Entertainment & Video *)
  "youtube.com"; "netflix.com"; "hulu.com"; "disney.com";
  "disneyplus.com"; "amazon.com/prime"; "twitch.tv"; "vimeo.com";
  "dailymotion.com"; "tiktok.com";
  (* Gaming *)
  "steam.com"; "steamcommunity.com"; "epicgames.com"; "battle.net";
  "blizzard.com"; "roblox.com"; "minecraft.net"; "ea.com"; "ubisoft.com";
  "rockstargames.com"; "playstation.com"; "xbox.com"; "nintendo.com";
  "itch.io"; "gog.com";
  (* News & Entertainment (non-work) *)
  "buzzfeed.com"; "9gag.com"; "imgur.com"; "meme"; "funny";
  (* Shopping (personal) *)
  "amazon.com"; "ebay.com"; "etsy.com"; "alibaba.com"; "aliexpress.com";
  "walmart.com"; "target.com"; "bestbuy.com";
  (* Dating *)
  "tinder.com"; "bumble.com"; "match.com"; "okcupid.com"; "pof.com";
  (* Adult Content *)
  "pornhub.com"; "xvideos.com"; "xhamster.com"; "redtube.com";
  "youporn.com"
].

Definition violationKeywords : list string := [
  "game"; "gaming"; "play"; "casino"; "bet"; "gambling";
  "social"; "chat"; "dating"; "meme"; "funny"; "entertainment";
  "stream"; "video"; "movie"; "tv"; "series"; "anime";
  "shop"; "buy"; "sale"; "deal"; "coupon"; "fashion";
  "adult"; "xxx"; "porn"; "sex"
].

(** The URL path patterns of the second check of
    [isExplicitViolation], in source order. *)
Definition violationUrlPatterns : list string := [
  "youtube.com/watch"; "facebook.com/"; "instagram.com/"; "twitter.com/";
  "x.com/"; "tiktok.com/"; "reddit.com/r/"; "twitch.tv/";
  "netflix.com/watch"; "amazon.com/gp/video"; "steam.com/app/"
].

Definition domain_match (activity : Activity) : bool :=
  let domain := JS.toLowerCase (act_domain activity) in
  JS.some (fun vDomain => JS.includes domain vDomain) violationDomains.

Definition url_pattern_match (activity : Activity) : bool :=
  let url := JS.toLowerCase (act_url activity) in
  JS.some (fun p => JS.includes url p) violationUrlPatterns.

Definition keyword_match (activity : Activity) : bool :=
  let url := JS.toLowerCase (act_url activity) in
  let title := JS.toLowerCase (JS.str_or (act_title activity) "") in
  JS.some (fun keyword => JS.includes url keyword || JS.includes title keyword)
          violationKeywords.

Definition isExplicitViolation (activity : Activity) : bool :=
  if domain_match activity then true
  else if url_pattern_match activity then true
  else if keyword_match activity then true
  else false.

Definition workDomains : list string := [
  (* Development & Programming *)
  "github.com"; "gitlab.com"; "bitbucket.org"; "stackoverflow.com";
  "stackexchange.com"; "developer.mozilla.org"; "w3schools.com";
  "codepen.io"; "jsfiddle.net";
  (* Communication & Collaboration *)
  "slack.com"; "teams.microsoft.com"; "zoom.us"; "meet.google.com";
  "webex.com"; "gotomeeting.com"; "skype.com";
  (* Google Workspace *)
  "docs.google.com"; "sheets.google.com"; "slides.google.com";
  "drive.google.com"; "calendar.google.com"; "gmail.com";
  (* Microsoft Office *)
  "office.com"; "outlook.com"; "onedrive.com"; "sharepoint.com";
  (* Cloud Services & Tools *)
  "aws.amazon.com"; "console.aws.amazon.com"; "azure.microsoft.com";
  "cloud.google.com"; "heroku.com"; "vercel.com"; "netlify.com";
  (* Design & Creative Tools *)
  "figma.com"; "canva.com"; "adobe.com"; "sketch.com";
  (* Project Management *)
  "trello.com"; "asana.com"; "monday.com"; "notion.so"; "airtable.com";
  "jira.atlassian.com";
  (* Documentation & Learning *)
  "confluence.atlassian.com"; "wiki."; "documentation"; "docs."; "api.";
  (* Development environments *)
  "localhost"; "127.0.0.1"; "infiverse"; "workflowmanager"; "vercel.app"
].

Definition workKeywords : list string := [
  "api"; "documentation"; "docs"; "tutorial"; "guide";
  "development"; "programming"; "code"; "software";
  "project"; "task"; "meeting"; "conference"; "webinar";
  "dashboard"; "admin"; "management"; "analytics";
  "business"; "enterprise"; "corporate"; "professional"
].

Definition isWorkRelatedActivity (activity : Activity) : bool :=
  let domain := JS.toLowerCase (act_domain activity) in
  let url := JS.toLowerCase (act_url activity) in
  let title := JS.toLowerCase (JS.str_or (act_title activity) "") in
  (* the application itself; tested on the URL as received *)
  if negb (String.eqb (act_url activity) "") &&
     (JS.includes (act_url activity) "localhost" ||
      JS.includes (act_url activity) "127.0.0.1" ||
      JS.includes (act_url activity) "infiverse" ||
      JS.includes (act_url activity) "workflowmanager" ||
      JS.includes (act_url activity) "vercel.app")
  then true
  else if JS.some (fun wDomain => JS.includes domain wDomain) workDomains
  then true
  else if JS.some (fun keyword =>
                     JS.includes url keyword || JS.includes title keyword)
                  workKeywords
  then true
  else if JS.includes domain "google.com" then
    if JS.includes url "docs.google.com" ||
       JS.includes url "sheets.google.com" ||
       JS.includes url "slides.google.com" ||
       JS.includes url "drive.google.com" ||
       JS.includes url "calendar.google.com" ||
       JS.includes url "gmail.com" ||
       JS.includes url "meet.google.com" ||
       JS.includes url "cloud.google.com" ||
       JS.includes url "console.cloud.google.com"
    then true
    else if JS.includes url "google.com/search" then true
    else false
  else false.

Record AlertConfig : Type := {
  type : string;
  title : string;
  description : string;
  severity : string
}.

Definition getAlertConfig (violationType : string) (activity : Activity)
  : AlertConfig :=
  let domain := JS.toLowerCase (act_domain activity) in
  let url := JS.toLowerCase (act_url activity) in
  (* Social Media violations *)
  if JS.includes domain "facebook.com" || JS.includes domain "instagram.com" ||
     JS.includes domain "twitter.com" || JS.includes domain "x.com" ||
     JS.includes domain "tiktok.com" || JS.includes domain "snapchat.com"
  then {| type := "social_media_access";
          title := "Social Media Access Detected";
          description := "Employee accessed social media platform: "
                         ++ act_domain activity;
          severity := "high" |}
  (* Gaming violations *)
  else if JS.includes domain "steam.com" || JS.includes domain "epicgames.com" ||
          JS.includes domain "battle.net" || JS.includes domain "roblox.com" ||
          JS.includes domain "minecraft.net" || JS.includes url "game"
  then {| type := "gaming_access";
          title := "Gaming Platform Access Detected";
          description := "Employee accessed gaming platform: "
                         ++ act_domain activity;
          severity := "high" |}
  (* Entertainment violations *)
  else if JS.includes domain "youtube.com" || JS.includes domain "netflix.com" ||
          JS.includes domain "twitch.tv" || JS.includes domain "hulu.com"
  then {| type := "entertainment_access";
          title := "Entertainment Platform Access Detected";
          description := "Employee accessed entertainment platform: "
                         ++ act_domain activity;
          severity := "medium" |}
  (* Shopping violations *)
  else if JS.includes domain "amazon.com" || JS.includes domain "ebay.com" ||
          JS.includes domain "etsy.com" || JS.includes domain "walmart.com"
  then {| type := "shopping_access";
          title := "Shopping Website Access Detected";
          description := "Employee accessed shopping website: "
                         ++ act_domain activity;
          severity := "medium" |}
  (* Adult content violations *)
  else if JS.includes domain "pornhub.com" || JS.includes domain "xvideos.com" ||
          JS.includes url "adult" || JS.includes url "xxx"
  then {| type := "inappropriate_content";
          title := "Inappropriate Content Access Detected";
          description := "Employee accessed inappropriate content: "
                         ++ act_domain activity;
          severity := "critical" |}
  (* Default violation *)
  else {| type := "unauthorized_website";
          title := "Unauthorized Website Access";
          description := "Employee accessed unauthorized website: "
                         ++ act_url activity;
          severity := "medium" |}.

(* ------------------------------------------------------------------ *)
(** ** Collaborators, effects and environment *)

(** Modelled from the spec: the [WebsiteWhitelist] model is not among
    the sources; an allow-entry carries the two fields that the query
    of [checkActivityCompliance] reads. *)
Record WhitelistEntry : Type := {
  wl_url : string;
  wl_domain : string
}.

(** [data.activity_data] of an alert. *)
Record ActivityData : Type := {
  ad_url : string;
  ad_title : option string;
  ad_domain : string;
  ad_timestamp : string
}.

(** The document handed to [new MonitoringAlert({...})]. *)
Record MonitoringAlert : Type := {
  alert_employee : string;
  alert_type : string;
  alert_title : string;
  alert_description : string;
  alert_severity : string;
  alert_session_id : string;
  alert_website_url : string;
  alert_violation_type : string;
  alert_activity_data : ActivityData
}.

Inductive JsTimestamp : Type :=
| ts_absent
| ts_string (s : string)
| ts_number (n : Z).

(** [metadata] of a [client-screenshot-captured] event: the values
    the handler reads, and the object's own keys in insertion order,
    those the handler does not read included. *)
Record Metadata : Type := {
  md_url : option string;
  md_title : option string;
  md_timestamp : JsTimestamp;
  md_width : option Z;
  md_height : option Z;
  md_fileSize : option Z;
  md_keys : list string
}.

(** The payload of a [client-screenshot-captured] event; every field
    may be missing. *)
Record ScreenshotData : Type := {
  sd_employeeId : option string;
  sd_sessionId : option string;
  sd_trigger : option string;
  sd_imageData : option string;
  sd_metadata : option Metadata
}.

(** What [uploadViolationScreenshot] / [uploadRegularScreenshot]
    resolve to. *)
Record UploadResult : Type := {
  cloudinary_url : string;
  cloudinary_public_id : string;
  cloudinary_version : string;
  format : string;
  file_size : option Z;
  width : option Z;
  height : option Z
}.

(** Confidence values are the decimal fractions of the source, kept
    exact: [1 # 2] is [0.5], [4 # 5] is [0.8]. *)
Record AiResult : Type := {
  ai_confidence : positive * positive;
  ai_isViolation : bool;
  ai_violationType : string;
  ai_description : string
}.

(** [screenCapture.metadata.ai_analysis] *)
Record AiAnalysis : Type := {
  confidence : positive * positive;
  activityType : string;
  activityDescription : string;
  alertReason : string
}.

(** [screenCapture.metadata.ocr_analysis] *)
Record OcrAnalysis : Type := {
  ocr_text : string;
  ocr_confidence : positive * positive;
  extractedAt : Z
}.

(** The [ScreenCapture] document built by [handleScreenshotCaptured]. *)
Record ScreenCapture : Type := {
  sc_id : string;
  sc_employee : string;
  sc_session_id : string;
  sc_file_path : string;
  sc_file_size : Z;
  sc_file_hash : string;
  sc_capture_trigger : string;
  sc_timestamp : Z;
  sc_app_url : string;
  sc_app_title : string;
  sc_app_name : string;
  sc_width : Z;
  sc_height : Z;
  sc_metadata : Metadata;
  sc_upload : UploadResult;
  sc_ai_analysis : option AiAnalysis;
  sc_ocr_analysis : option OcrAnalysis
}.

(** An optional analysis service ([ocrAnalysisService],
    [groqAIService]): the module may be missing, may lack the method,
    and the method may throw. *)
Inductive Collaborator (R : Type) : Type :=
| missing
| unimplemented
| throws (message : string)
| returns (r : R).

Arguments missing {R}.
Arguments unimplemented {R}.
Arguments throws {R} message.
Arguments returns {R} r.

Record ErrorDetails : Type := {
  hasEmployeeId : bool;
  hasSessionId : bool;
  hasImageData : bool;
  hasMetadata : bool;
  metadataKeys : list string
}.

(** Outbound Socket.io events. *)
Inductive OutEvent : Type :=
| monitoring_started_ack (success : bool) (sessionId : string)
| monitoring_stopped_ack (success : bool) (sessionId : string)
| monitoring_error (error action : string)
| monitoring_request (action reason url domain : string)
                     (title : option string) (timestamp : Z)
| screenshot_processed (success : bool) (screenshotId cloudinaryId : string)
                       (trigger : option string)
| screenshot_error (error trigger : string) (details : ErrorDetails).

Inductive Target : Type :=
| to_socket (socketId : string)
| to_room (room : string).

Inductive LogLevel : Type := warn | error.

(** What a handler does to the outside world, in order.  A database
    write is in the trace exactly when it succeeded. *)
Inductive Effect : Type :=
| Console (level : LogLevel) (line : string)
| Emit (target : Target) (event : OutEvent)
| Join (socketId room : string)
| Leave (socketId room : string)
| InsertMany (batch : list ActivityRecord)
| SaveAlert (alert : MonitoringAlert)
| Upload (violation : bool) (employeeId imageBuffer application url : string)
| SaveCapture (capture : ScreenCapture)
| OcrCall (file_path : string)
| AiCall (imageUrl ocrText : string).

(** What the collaborators answer during one handler invocation. *)
Record Env : Type := {
  now : Z;
  whitelist : list WhitelistEntry;
  io_present : bool;
  insertMany_ok : bool;
  alert_save_ok : bool;
  upload_result : option UploadResult;
  capture_id : string;
  capture_save_ok : bool;
  ocr_service : Collaborator string;
  ai_service : Collaborator AiResult;
  analysis_save_ok : bool
}.

Definition H (A : Type) : Type := M Handler Effect A.

(** *** Reading a trace *)

(** The alerts persisted, in order. *)
Definition alerts_of (trace : list Effect) : list MonitoringAlert :=
  flat_map (fun fx => match fx with SaveAlert a => [a] | _ => [] end) trace.

(** The batches of activity records persisted, in order. *)
Definition batches_of (trace : list Effect) : list (list ActivityRecord) :=
  flat_map (fun fx => match fx with InsertMany b => [b] | _ => [] end) trace.

(** The capture documents written, in order. *)
Definition captures_of (trace : list Effect) : list ScreenCapture :=
  flat_map (fun fx => match fx with SaveCapture c => [c] | _ => [] end) trace.

(** The events sent to clients, in order. *)
Definition emitted (trace : list Effect) : list (Target * OutEvent) :=
  flat_map (fun fx => match fx with Emit t e => [(t, e)] | _ => [] end) trace.

Definition uploads_of (trace : list Effect) : list Effect :=
  filter (fun fx => match fx with Upload _ _ _ _ _ => true | _ => false end)
         trace.

Definition is_analysis_call (fx : Effect) : bool :=
  match fx with
  | OcrCall _ | AiCall _ _ => true
  | _ => false
  end.

Definition is_acknowledgment (fx : Effect) : bool :=
  match fx with
  | Emit _ (screenshot_processed _ _ _ _) => true
  | _ => false
  end.

(** The [screenshot-processed] acknowledgment is in the trace and no
    call of an analysis service comes before it. *)
Fixpoint acknowledged_before_analysis (trace : list Effect) : bool :=
  match trace with
  | [] => false
  | fx :: rest =>
      if is_acknowledgment fx then true
      else if is_analysis_call fx then false
      else acknowledged_before_analysis rest
  end.

Local Open Scope js_scope.

(* ------------------------------------------------------------------ *)
(** ** Activity buffer: [flushActivities] *)

Definition EmployeeActivity_insertMany (env : Env)
  (activities : list ActivityRecord) : H unit :=
  if insertMany_ok env then tell (InsertMany activities)
  else throw "insertMany failed".

Definition flushActivities (env : Env) (employeeId : string) : H unit :=
  try_catch
    (h <- get_state ;;
     match JsMap.get employeeId (activityBuffer h) with
     | None => ret tt
     | Some [] => ret tt
     | Some activities =>
         EmployeeActivity_insertMany env activities ;;
         modify (fun h =>
                   with_buffer h (JsMap.set employeeId [] (activityBuffer h)))
     end)
    (fun _ => tell (Console error "Error flushing activities")).

(* ------------------------------------------------------------------ *)
(** ** Violation response: [handlePotentialViolation] *)

Definition in_cooldown (cfg : Config) (session : Session) (now : Z) : bool :=
  match lastViolationTime session with
  | Some last =>
      JS.truthy_num (Some last) && (now - last <? violationCooldown cfg)
  | None => false
  end.

Definition record_violation (session : Session) (now : Z) : Session := {|
  employeeId := employeeId session;
  sessionId := sessionId session;
  socketId := socketId session;
  startTime := startTime session;
  capabilities := capabilities session;
  lastActivity := lastActivity session;
  violationCount := violationCount session + 1;
  lastViolationTime := Some now
|}.

Definition make_alert (employeeId : string) (session : Session)
  (activity : Activity) (violationType : string) : MonitoringAlert :=
  let alertConfig := getAlertConfig violationType activity in
  {| alert_employee := employeeId;
     alert_type := type alertConfig;
     alert_title := title alertConfig;
     alert_description := description alertConfig;
     alert_severity := severity alertConfig;
     alert_session_id := sessionId session;
     alert_website_url := act_url activity;
     alert_violation_type := violationType;
     alert_activity_data :=
       {| ad_url := act_url activity;
          ad_title := act_title activity;
          ad_domain := act_domain activity;
          ad_timestamp := act_timestamp activity |} |}.

Definition MonitoringAlert_save (env : Env) (alert : MonitoringAlert)
  : H unit :=
  if alert_save_ok env then tell (SaveAlert alert)
  else throw "alert validation failed".

Definition capture_request (env : Env) (activity : Activity)
  (violationType : string) : OutEvent :=
  monitoring_request "capture_violation" violationType (act_url activity)
                     (act_domain activity) (act_title activity) (now env).

Definition handlePotentialViolation (env : Env) (employeeId : string)
  (activity : Activity) (violationType : string) : H unit :=
  try_catch
    (h <- get_state ;;
     match JsMap.get employeeId (activeSessions h) with
     | None => ret tt
     | Some session =>
         (* Check violation cooldown *)
         if in_cooldown (config h) session (now env) then ret tt
         else
           (* Update violation tracking *)
           modify (fun h =>
                     with_sessions h
                       (JsMap.set employeeId
                          (record_violation session (now env))
                          (activeSessions h))) ;;
           (* Request violation screenshot from client *)
           when (io_present env)
                (tell (Emit (to_room ("employee:" ++ employeeId))
                            (capture_request env activity violationType))) ;;
           (* Create monitoring alert *)
           MonitoringAlert_save env
             (make_alert employeeId session activity violationType)
     end)
    (fun _ => tell (Console error "Error handling potential violation")).

(** What an allowed violation does to the outside world: the capture
    request, when [global.io] is there, then the alert write or the
    line logged when it fails. *)
Definition response (env : Env) (e : string) (s : Session)
  (activity : Activity) (violationType : string) : list Effect :=
  (if io_present env
   then [Emit (to_room ("employee:" ++ e))
              (capture_request env activity violationType)]
   else []) ++
  (if alert_save_ok env
   then [SaveAlert (make_alert e s activity violationType)]
   else [Console error "Error handling potential violation"]).

Section Builtins.

(** [new RegExp(pattern, 'i')]: [None] when the pattern is rejected
    with a [SyntaxError], otherwise the unanchored, case-insensitive
    match of a subject string. *)
Variable RegExp_i : string -> option (string -> bool).

(** [new Date(s).getTime()] for a string: [None] is an invalid date
    ([NaN]), otherwise milliseconds since the epoch. *)
Variable Date_parse : string -> option Z.

(** [Buffer.from(s, 'base64')] *)
Variable Buffer_from_base64 : string -> string.

(* ---------------------------------------------------------------- *)
(** *** [checkActivityCompliance] *)

Definition new_RegExp_i (pattern : string) : H (string -> bool) :=
  match RegExp_i pattern with
  | Some re => ret re
  | None => throw "Invalid regular expression"
  end.

(** The [$or] of the whitelist query, on one collection entry. *)
Definition whitelist_query (re : string -> bool) (activity : Activity)
  (entry : WhitelistEntry) : bool :=
  String.eqb (wl_url entry) (act_url activity) ||
  String.eqb (wl_domain entry) (act_domain activity) ||
  re (wl_url entry).

Definition WebsiteWhitelist_findOne (env : Env)
  (query : WhitelistEntry -> bool) : option WhitelistEntry :=
  find query (whitelist env).

Definition checkActivityCompliance (env : Env) (employeeId : string)
  (activity : Activity) : H unit :=
  try_catch
    ((* Check against whitelist first *)
     re <- new_RegExp_i (JS.escape_dots (act_domain activity)) ;;
     let whitelistEntry :=
       WebsiteWhitelist_findOne env (whitelist_query re activity) in
     let isWhitelisted := JS.truthy_obj whitelistEntry in
     if isWhitelisted then ret tt
     else
       let isExplicit := isExplicitViolation activity in
       let isWorkRelated := isWorkRelatedActivity activity in
       if isExplicit || negb isWorkRelated then
         let violationType :=
           if isExplicit then "explicit_violation" else "non_work_activity" in
         handlePotentialViolation env employeeId activity violationType
       else ret tt)
    (fun _ => tell (Console error "Error checking activity compliance")).

(** The activity matches an allow-entry: one of the three
    alternatives of the query holds for an entry of the collection. *)
Definition matches_whitelist (env : Env) (activity : Activity) : Prop :=
  exists entry,
    In entry (whitelist env) /\
    (wl_url entry = act_url activity \/
     wl_domain entry = act_domain activity \/
     exists re,
       RegExp_i (JS.escape_dots (act_domain activity)) = Some re /\
       re (wl_url entry) = true).

(* ---------------------------------------------------------------- *)
(** *** Session lifecycle and telemetry handlers *)

Definition room_of (employeeId : string) : string :=
  "employee:" ++ employeeId.

(** The payload of a [client-monitoring-started] event. *)
Record StartedData : Type := started_data {
  started_employeeId : string;
  started_sessionId : string;
  started_capabilities : Capabilities
}.

(** The payload of a [client-monitoring-stopped] event. *)
Record StoppedData : Type := stopped_data {
  stopped_employeeId : string;
  stopped_sessionId : string
}.

(** [const { employeeId, ... } = data] on an event without payload. *)
Definition cannot_destructure : string :=
  "Cannot destructure property 'employeeId' of 'data' as it is undefined.".

(** [data] is [None] for an event without payload: the destructuring
    inside the [try] throws and the [catch] answers. *)
Definition handleMonitoringStarted (env : Env) (socket : string)
  (data : option StartedData) : H unit :=
  try_catch
    (match data with
     | None => throw cannot_destructure
     | Some d =>
         let employeeId := started_employeeId d in
         let sessionId := started_sessionId d in
         let capabilities := started_capabilities d in
         (* Store session data *)
         modify (fun h =>
           with_sessions h
             (JsMap.set employeeId
                {| employeeId := employeeId;
                   sessionId := sessionId;
                   socketId := socket;
                   startTime := now env;
                   capabilities := capabilities;
                   lastActivity := None;
                   violationCount := 0;
                   lastViolationTime := None |}
                (activeSessions h))) ;;
         (* Initialize activity buffer *)
         h <- get_state ;;
         when (negb (JsMap.has employeeId (activityBuffer h)))
              (modify (fun h =>
                 with_buffer h (JsMap.set employeeId [] (activityBuffer h)))) ;;
         tell (Join socket (room_of employeeId)) ;;
         tell (Emit (to_socket socket) (monitoring_started_ack true sessionId))
     end)
    (fun e =>
       tell (Console error "Error handling monitoring started") ;;
       tell (Emit (to_socket socket) (monitoring_error e "start"))).

(** Here the [catch] only logs: an event without payload is not
    answered. *)
Definition handleMonitoringStopped (env : Env) (socket : string)
  (data : option StoppedData) : H unit :=
  try_catch
    (match data with
     | None => throw cannot_destructure
     | Some d =>
         let employeeId := stopped_employeeId d in
         let sessionId := stopped_sessionId d in
         (* Flush remaining activities *)
         flushActivities env employeeId ;;
         (* Remove session data *)
         modify (fun h =>
           with_sessions h (JsMap.delete employeeId (activeSessions h))) ;;
         modify (fun h =>
           with_buffer h (JsMap.delete employeeId (activityBuffer h))) ;;
         tell (Leave socket (room_of employeeId)) ;;
         tell (Emit (to_socket socket) (monitoring_stopped_ack true sessionId))
     end)
    (fun _ => tell (Console error "Error handling monitoring stopped")).

Definition set_lastActivity (session : Session) (activity : Activity)
  : Session := {|
  employeeId := employeeId session;
  sessionId := sessionId session;
  socketId := socketId session;
  startTime := startTime session;
  capabilities := capabilities session;
  lastActivity := Some activity;
  violationCount := violationCount session;
  lastViolationTime := lastViolationTime session
|}.

(** [this.activityBuffer.get(employeeId).push(record)]: a
    [TypeError] when the subject has no buffer. *)
Definition buffer_push (employeeId : string) (record : ActivityRecord)
  : H unit :=
  h <- get_state ;;
  match JsMap.get employeeId (activityBuffer h) with
  | None => throw "Cannot read properties of undefined (reading 'push')"
  | Some buffer =>
      modify (fun h =>
        with_buffer h
          (JsMap.set employeeId (buffer ++ [record]) (activityBuffer h)))
  end.

(** Successive enqueues of the given records, in order. *)
Fixpoint push_all (employeeId : string) (records : list ActivityRecord)
  : H unit :=
  match records with
  | [] => ret tt
  | record :: rest =>
      buffer_push employeeId record ;; push_all employeeId rest
  end.

(** [this.activityBuffer.get(employeeId).length] *)
Definition buffer_length (employeeId : string) : H Z :=
  h <- get_state ;;
  match JsMap.get employeeId (activityBuffer h) with
  | None => throw "Cannot read properties of undefined (reading 'length')"
  | Some buffer => ret (Z.of_nat (length buffer))
  end.

Definition handleActivityUpdate (env : Env) (socket : string)
  (employeeId sessionId : string) (activity : Activity) : H unit :=
  try_catch
    (h <- get_state ;;
     match JsMap.get employeeId (activeSessions h) with
     | None => tell (Console warn "No active session for employee")
     | Some session =>
         (* Update session last activity *)
         modify (fun h =>
           with_sessions h
             (JsMap.set employeeId (set_lastActivity session activity)
                        (activeSessions h))) ;;
         (* Add to activity buffer *)
         buffer_push employeeId
           (browser_activity employeeId sessionId
                             (act_timestamp activity) activity) ;;
         (* Check if activity buffer is full *)
         len <- buffer_length employeeId ;;
         when (maxActivityBuffer (config h) <=? len)
              (flushActivities env employeeId) ;;
         (* Perform compliance check *)
         checkActivityCompliance env employeeId activity
     end)
    (fun _ => tell (Console error "Error handling activity update")).

(** [this.activeSessions.get(employeeId)?.sessionId || 'unknown'] *)
Definition session_id_or_unknown (h : Handler) (employeeId : string)
  : string :=
  JS.str_or (option_map sessionId (JsMap.get employeeId (activeSessions h)))
            "unknown".

(** [if (this.activityBuffer.has(employeeId)) ....push(record)] *)
Definition push_if_buffered (employeeId : string) (record : ActivityRecord)
  : H unit :=
  h <- get_state ;;
  when (JsMap.has employeeId (activityBuffer h))
       (buffer_push employeeId record).

Definition handleVisibilityChange (socket : string) (employeeId : string)
  (isVisible : bool) (timestamp : string) : H unit :=
  h <- get_state ;;
  push_if_buffered employeeId
    (visibility_change employeeId (session_id_or_unknown h employeeId)
                       timestamp isVisible).

Definition handleFocusChange (socket : string) (employeeId : string)
  (hasFocus : bool) (timestamp : string) : H unit :=
  h <- get_state ;;
  push_if_buffered employeeId
    (focus_change employeeId (session_id_or_unknown h employeeId)
                  timestamp hasFocus).

(** The loop over [this.activeSessions.entries()] stops at the first
    session of the closed socket.  The flush is started without
    [await]; it never rejects, and it is sequenced here. *)
Definition handleClientDisconnect (env : Env) (socket : string) : H unit :=
  h <- get_state ;;
  match JsMap.find_first (fun session => String.eqb (socketId session) socket)
                         (activeSessions h) with
  | Some (employeeId, _) =>
      flushActivities env employeeId ;;
      modify (fun h =>
        with_sessions h (JsMap.delete employeeId (activeSessions h)))
  | None => ret tt
  end.

(* ---------------------------------------------------------------- *)
(** *** Capture pipeline: [handleScreenshotCaptured] and
        [analyzeViolationScreenshot] *)

Fixpoint drop_prefix (p s : string) : option string :=
  match p, s with
  | EmptyString, _ => Some s
  | String a p', String b s' =>
      if Ascii.eqb a b then drop_prefix p' s' else None
  | String _ _, EmptyString => None
  end.

(** A character of the class [\w]. *)
Definition is_word (c : ascii) : bool :=
  let n := nat_of_ascii c in
  (((48 <=? n) && (n <=? 57)) || ((65 <=? n) && (n <=? 90)) ||
   ((97 <=? n) && (n <=? 122)) || (n =? 95))%nat.

Fixpoint skip_word (s : string) : string :=
  match s with
  | EmptyString => EmptyString
  | String c s' => if is_word c then skip_word s' else s
  end.

(** [imageData.replace(/^data:image\/\w+;base64,/, '')] *)
Definition strip_data_url (imageData : string) : string :=
  match drop_prefix "data:image/" imageData with
  | Some rest =>
      let rest' := skip_word rest in
      if (String.length rest' <? String.length rest)%nat then
        match drop_prefix ";base64," rest' with
        | Some payload => payload
        | None => imageData
        end
      else imageData
  | None => imageData
  end.

Definition truthy_ts (ts : JsTimestamp) : bool :=
  match ts with
  | ts_absent => false
  | ts_string s => negb (String.eqb s "")
  | ts_number n => negb (n =? 0)
  end.

(** [new Date(ts).getTime()]; a number is a time value when it is
    within the range of ECMAScript dates. *)
Definition new_Date (ts : JsTimestamp) : option Z :=
  match ts with
  | ts_absent => None
  | ts_string s => Date_parse s
  | ts_number n => if Z.abs n <=? 8640000000000000 then Some n else None
  end.

(** The block "Ensure timestamp is valid". *)
Definition validTimestamp (env : Env) (metadata : Metadata) : Z :=
  let candidate :=
    if truthy_ts (md_timestamp metadata)
    then new_Date (md_timestamp metadata)
    else Some (now env) in
  match candidate with
  | Some t => t
  | None => now env
  end.

(** [Object.keys(metadata)] *)
Definition metadata_keys (metadata : Metadata) : list string :=
  md_keys metadata.

Definition uploadScreenshot (env : Env) (violation : bool)
  (employeeId imageBuffer application url : string) : H UploadResult :=
  match upload_result env with
  | Some r =>
      tell (Upload violation employeeId imageBuffer application url) ;;
      ret r
  | None => throw "Upload failed"
  end.

Definition ScreenCapture_save (ok : bool) (capture : ScreenCapture) : H unit :=
  if ok then tell (SaveCapture capture)
  else throw "ScreenCapture validation failed".

Definition default_aiAnalysis : AiResult := {|
  ai_confidence := (1, 2)%positive;
  ai_isViolation := true;
  ai_violationType := "unauthorized_access";
  ai_description := "Policy violation detected"
|}.

(** The inner [try] around [ocrAnalysisService.analyzeImage]. *)
Definition ocr_step (env : Env) (file_path : string) : H string :=
  try_catch
    (match ocr_service env with
     | returns text => tell (OcrCall file_path) ;; ret text
     | throws message => tell (OcrCall file_path) ;; throw message
     | missing | unimplemented => ret ""
     end)
    (fun _ => tell (Console warn "OCR analysis failed") ;; ret "").

(** The inner [try] around [groqAIService.analyzeViolationScreenshot]. *)
Definition ai_step (env : Env) (imageUrl ocrText : string) : H AiResult :=
  try_catch
    (match ai_service env with
     | returns analysis => tell (AiCall imageUrl ocrText) ;; ret analysis
     | throws message => tell (AiCall imageUrl ocrText) ;; throw message
     | missing | unimplemented => ret default_aiAnalysis
     end)
    (fun _ => tell (Console warn "AI analysis failed") ;;
              ret default_aiAnalysis).

Definition attach_analysis (env : Env) (capture : ScreenCapture)
  (aiAnalysis : AiResult) (ocrText : string) : ScreenCapture := {|
  sc_id := sc_id capture;
  sc_employee := sc_employee capture;
  sc_session_id := sc_session_id capture;
  sc_file_path := sc_file_path capture;
  sc_file_size := sc_file_size capture;
  sc_file_hash := sc_file_hash capture;
  sc_capture_trigger := sc_capture_trigger capture;
  sc_timestamp := sc_timestamp capture;
  sc_app_url := sc_app_url capture;
  sc_app_title := sc_app_title capture;
  sc_app_name := sc_app_name capture;
  sc_width := sc_width capture;
  sc_height := sc_height capture;
  sc_metadata := sc_metadata capture;
  sc_upload := sc_upload capture;
  sc_ai_analysis := Some {|
    confidence := ai_confidence aiAnalysis;
    activityType := if ai_isViolation aiAnalysis then "violation" else "normal";
    activityDescription := ai_description aiAnalysis;
    alertReason := ai_violationType aiAnalysis |};
  sc_ocr_analysis := Some {|
    ocr_text := ocrText;
    ocr_confidence := (4, 5)%positive;
    extractedAt := now env |}
|}.

(** The function mutates [screenCapture] and saves it again; what the
    caller reads afterwards, [screenCapture._id], is not touched. *)
Definition analyzeViolationScreenshot (env : Env) (employeeId : string)
  (screenCapture : ScreenCapture) (metadata : Metadata) : H unit :=
  try_catch
    (ocrText <- ocr_step env (sc_file_path screenCapture) ;;
     aiAnalysis <- ai_step env (sc_file_path screenCapture) ocrText ;;
     ScreenCapture_save (analysis_save_ok env)
       (attach_analysis env screenCapture aiAnalysis ocrText))
    (fun _ => tell (Console error "Error analyzing violation screenshot")).

(** What the analysis step yields, read off the collaborators: the
    OCR text, the AI analysis, and the effects in order. *)
Definition ocr_text_of (env : Env) : string :=
  match ocr_service env with
  | returns text => text
  | _ => ""
  end.

Definition ai_analysis_of (env : Env) : AiResult :=
  match ai_service env with
  | returns analysis => analysis
  | _ => default_aiAnalysis
  end.

Definition ocr_trace (env : Env) (file_path : string) : list Effect :=
  match ocr_service env with
  | returns _ => [OcrCall file_path]
  | throws _ => [OcrCall file_path; Console warn "OCR analysis failed"]
  | _ => []
  end.

Definition ai_trace (env : Env) (imageUrl ocrText : string) : list Effect :=
  match ai_service env with
  | returns _ => [AiCall imageUrl ocrText]
  | throws _ => [AiCall imageUrl ocrText; Console warn "AI analysis failed"]
  | _ => []
  end.

Definition analysis_trace (env : Env) (capture : ScreenCapture)
  : list Effect :=
  ocr_trace env (sc_file_path capture) ++
  ai_trace env (sc_file_path capture) (ocr_text_of env) ++
  (if analysis_save_ok env
   then [SaveCapture (attach_analysis env capture (ai_analysis_of env)
                                      (ocr_text_of env))]
   else [Console error "Error analyzing violation screenshot"]).

(** [!employeeId || !sessionId || !imageData || !metadata] *)
Definition missing_required (d : ScreenshotData) : bool :=
  negb (JS.truthy_str (sd_employeeId d)) ||
  negb (JS.truthy_str (sd_sessionId d)) ||
  negb (JS.truthy_str (sd_imageData d)) ||
  negb (JS.truthy_obj (sd_metadata d)).

Definition field {A : Type} (data : option ScreenshotData)
  (f : ScreenshotData -> option A) : option A :=
  match data with
  | Some d => f d
  | None => None
  end.

(** The [details] object of a [screenshot-error]. *)
Definition error_details (data : option ScreenshotData) : ErrorDetails := {|
  hasEmployeeId := JS.truthy_str (field data sd_employeeId);
  hasSessionId := JS.truthy_str (field data sd_sessionId);
  hasImageData := JS.truthy_str (field data sd_imageData);
  hasMetadata := JS.truthy_obj (field data sd_metadata);
  metadataKeys :=
    match field data sd_metadata with
    | Some metadata => metadata_keys metadata
    | None => []
    end
|}.

Definition is_violation (trigger : option string) : bool :=
  match trigger with
  | Some t => String.eqb t "violation"
  | None => false
  end.

Definition Z_or (a : option Z) (d : Z) : Z :=
  match JS.num_or a (Some d) with
  | Some n => n
  | None => d
  end.

Definition new_ScreenCapture (env : Env) (employeeId sessionId : string)
  (trigger : option string) (imageBuffer : string) (metadata : Metadata)
  (uploadResult : UploadResult) : ScreenCapture := {|
  sc_id := capture_id env;
  sc_employee := employeeId;
  sc_session_id := sessionId;
  sc_file_path := cloudinary_url uploadResult;
  sc_file_size :=
    Z_or (file_size uploadResult) (Z.of_nat (String.length imageBuffer));
  sc_file_hash := cloudinary_public_id uploadResult;
  sc_capture_trigger :=
    if is_violation trigger then "unauthorized_access" else "manual";
  sc_timestamp := validTimestamp env metadata;
  sc_app_url := JS.str_or (md_url metadata) "unknown";
  sc_app_title := JS.str_or (md_title metadata) "Unknown Application";
  sc_app_name := "Browser";
  sc_width := Z_or (JS.num_or (width uploadResult) (md_width metadata)) 1920;
  sc_height := Z_or (JS.num_or (height uploadResult) (md_height metadata)) 1080;
  sc_metadata := metadata;
  sc_upload := uploadResult;
  sc_ai_analysis := None;
  sc_ocr_analysis := None
|}.

Definition handleScreenshotCaptured (env : Env) (socket : string)
  (data : option ScreenshotData) : H unit :=
  try_catch
    (match data with
     | None => throw cannot_destructure
     | Some d =>
         (* Validate required data *)
         if missing_required d then throw "Missing required screenshot data"
         else
           match sd_metadata d with
           | None => throw "Missing required screenshot data"
           | Some metadata =>
               let employeeId := JS.str_or (sd_employeeId d) "" in
               let sessionId := JS.str_or (sd_sessionId d) "" in
               let imageData := JS.str_or (sd_imageData d) "" in
               let trigger := sd_trigger d in
               (* Convert base64 to buffer *)
               let imageBuffer :=
                 Buffer_from_base64 (strip_data_url imageData) in
               (* Upload to Cloudinary using appropriate function *)
               uploadResult <-
                 uploadScreenshot env (is_violation trigger) employeeId
                   imageBuffer
                   (JS.str_or (md_title metadata) "Unknown Application")
                   (JS.str_or (md_url metadata) "unknown") ;;
               (* Save to database *)
               let screenCapture :=
                 new_ScreenCapture env employeeId sessionId trigger
                                   imageBuffer metadata uploadResult in
               ScreenCapture_save (capture_save_ok env) screenCapture ;;
               (* If this is a violation screenshot, perform AI analysis *)
               when (is_violation trigger)
                    (analyzeViolationScreenshot env employeeId screenCapture
                                                metadata) ;;
               (* Send acknowledgment *)
               tell (Emit (to_socket socket)
                          (screenshot_processed true (sc_id screenCapture)
                             (cloudinary_public_id uploadResult) trigger))
           end
     end)
    (fun e =>
       tell (Console error "Error handling screenshot") ;;
       tell (Emit (to_socket socket)
                  (screenshot_error e
                     (JS.str_or (field data sd_trigger) "unknown")
                     (error_details data)))).

(* ---------------------------------------------------------------- *)
(** *** Event dispatch: [initializeSocketHandlers] *)

Inductive InEvent : Type :=
| client_monitoring_started (data : option StartedData)
| client_monitoring_stopped (data : option StoppedData)
| client_activity_update (employeeId sessionId : string) (activity : Activity)
| client_screenshot_captured (data : option ScreenshotData)
| client_visibility_change (employeeId : string) (isVisible : bool)
                           (timestamp : string)
| client_focus_change (employeeId : string) (hasFocus : bool)
                      (timestamp : string)
| disconnect.

Definition on (env : Env) (socket : string) (event : InEvent) : H unit :=
  match event with
  | client_monitoring_started d => handleMonitoringStarted env socket d
  | client_monitoring_stopped d => handleMonitoringStopped env socket d
  | client_activity_update e s a => handleActivityUpdate env socket e s a
  | client_screenshot_captured d => handleScreenshotCaptured env socket d
  | client_visibility_change e v t => handleVisibilityChange socket e v t
  | client_focus_change e f t => handleFocusChange socket e f t
  | disconnect => handleClientDisconnect env socket
  end.

(** A sequence of inbound events, each with the socket it arrives on
    and what the collaborators answer while it is handled. *)
Fixpoint run (events : list (Env * string * InEvent)) : H unit :=
  match events with
  | [] => ret tt
  | (env, socket, event) :: rest => on env socket event ;; run rest
  end.

End Builtins.

(* ------------------------------------------------------------------ *)
(** ** Periodic flush: the callback of [startActivityFlushing] *)

(** [for (const employeeId of this.activityBuffer.keys())
       await this.flushActivities(employeeId)].
    What the database answers may differ from one subject's batch to
    the next, so the environment is given per subject. *)
Fixpoint flush_each (env_of : string -> Env) (employeeIds : list string)
  : H unit :=
  match employeeIds with
  | [] => ret tt
  | employeeId :: rest =>
      flushActivities (env_of employeeId) employeeId ;;
      flush_each env_of rest
  end.

Definition flushAll (env_of : string -> Env) : H unit :=
  h <- get_state ;;
  flush_each env_of (JsMap.keys (activityBuffer h)).

End ClientMonitoringHandler.

(* ------------------------------------------------------------------ *)
(** ** [ScreenCaptureService]: the server-side capture *)

Module ScreenCaptureService.

(** The [captureConfig] object; [captureScreen] updates it in place. *)
Record CaptureConfig : Type := {
  employeeId : string;
  sessionId : string;
  lastCaptureHash : option string;
  captureCount : Z
}.

(** The [metadata] argument of [captureScreen]. *)
Record CaptureMetadata : Type := {
  active_application_name : option string;
  is_flagged : bool;
  flag_reason : option string
}.

(** [metadata = {}] *)
Definition no_metadata : CaptureMetadata := {|
  active_application_name := None;
  is_flagged := false;
  flag_reason := None
|}.

Record CloudinaryResult : Type := {
  cloudinary_url : string;
  cloudinary_public_id : string;
  cloudinary_version : string;
  file_size : Z
}.

(** The [ScreenCapture] document built by [captureScreen].  The
    compression ratio is the pair of buffer lengths whose quotient the
    source stores. *)
Record ScreenCapture : Type := {
  sc_id : string;
  sc_employee : string;
  sc_timestamp : Z;
  sc_file_path : string;
  sc_file_size : Z;
  sc_file_hash : string;
  sc_compression_ratio : nat * nat;
  sc_screen_resolution : Z * Z;
  sc_is_delta : bool;
  sc_previous_capture : option string;
  sc_active_application : option string;
  sc_session_id : string;
  sc_capture_trigger : string;
  sc_is_flagged : bool;
  sc_flag_reason : option string;
  sc_encryption_key : string;
  sc_cloudinary : CloudinaryResult;
  sc_local_backup_enabled : bool
}.

(** The two alerts [captureScreen] raises through
    [MonitoringAlert.createAlert]. *)
Inductive Alert : Type :=
| large_screenshot_file (employee session_id screenshot_id : string)
                        (file_size : Z)
| screen_capture_failed (employee session_id error_message trigger : string).

Inductive Effect : Type :=
| Console (line : string)
| Upload (employeeId compressedBuffer application : string)
| WriteFile (filePath buffer : string)
| SaveCapture (capture : ScreenCapture)
| CreateAlert (alert : Alert).

(** The uploads made and the capture documents written, in order. *)
Definition uploads_of (trace : list Effect) : list Effect :=
  filter (fun fx => match fx with Upload _ _ _ => true | _ => false end) trace.

Definition captures_of (trace : list Effect) : list ScreenCapture :=
  flat_map (fun fx => match fx with SaveCapture c => [c] | _ => [] end) trace.

(** The alerts raised, in order. *)
Definition alerts_of (trace : list Effect) : list Alert :=
  flat_map (fun fx => match fx with CreateAlert a => [a] | _ => [] end) trace.

(** What the platform and the collaborators answer during one call of
    [captureScreen]; [None] is a rejected promise or a thrown error.
    [alert_ok] answers the [createAlert] for a large file,
    [failure_alert_ok] the one of the [catch]. *)
Record Env : Type := {
  isHeadless : bool;
  screenshot : option string;
  placeholder : option string;
  compressed : option string;
  upload_result : option CloudinaryResult;
  local_backup : bool;
  backup_path : option string;
  screen_resolution : Z * Z;
  previous_capture : option (option string);
  encryption_key : string;
  now : Z;
  capture_id : string;
  save_ok : bool;
  alert_ok : bool;
  failure_alert_ok : bool
}.

Record Service : Type := {
  maxFileSize : Z
}.

(** [parseInt(process.env.MAX_SCREENSHOT_SIZE) || 5 * 1024 * 1024] with
    the variable unset. *)
Definition default_service : Service := {| maxFileSize := 5 * 1024 * 1024 |}.

Definition C (A : Type) : Type := M CaptureConfig Effect A.

Local Open Scope js_scope.

Definition of_option {A : Type} (o : option A) (message : string) : C A :=
  match o with
  | Some a => ret a
  | None => throw message
  end.

Definition createPlaceholderScreenshot (env : Env) : C string :=
  of_option (placeholder env) "sharp failed".

(** The inner [try] that takes the screenshot or falls back to the
    placeholder; the result carries [isPlaceholder]. *)
Definition take_screenshot (env : Env) : C (string * bool) :=
  try_catch
    (if isHeadless env then
       buffer <- createPlaceholderScreenshot env ;; ret (buffer, true)
     else
       buffer <- of_option (screenshot env) "screenshot failed" ;;
       ret (buffer, false))
    (fun _ =>
       tell (Console "Screenshot failed, creating placeholder") ;;
       buffer <- createPlaceholderScreenshot env ;; ret (buffer, true)).

Definition MonitoringAlert_createAlert (ok : bool) (alert : Alert) : C unit :=
  if ok then tell (CreateAlert alert)
  else throw "createAlert failed".

Definition after_capture (currentHash : string) (c : CaptureConfig)
  : CaptureConfig := {|
  employeeId := employeeId c;
  sessionId := sessionId c;
  lastCaptureHash := Some currentHash;
  captureCount := captureCount c + 1
|}.

Section Crypto.

(** [crypto.createHash('md5').update(buffer).digest('hex')] *)
Variable md5_hex : string -> string.

(** [lastCaptureHash === currentHash && trigger === 'scheduled'] *)
Definition no_screen_change (captureConfig : CaptureConfig)
  (currentHash trigger : string) : bool :=
  match lastCaptureHash captureConfig with
  | Some last => String.eqb last currentHash
  | None => false
  end && String.eqb trigger "scheduled".

Definition captureScreen (svc : Service) (env : Env) (trigger : string)
  (metadata : CaptureMetadata) : C (option ScreenCapture) :=
  try_catch
    (captureConfig <- get_state ;;
     shot <- take_screenshot env ;;
     let screenshotBuffer := fst shot in
     (* Calculate hash for delta detection *)
     let currentHash := md5_hex screenshotBuffer in
     (* Check if screen content has changed *)
     if no_screen_change captureConfig currentHash trigger then ret None
     else
       (* Compress image first *)
       compressedBuffer <- of_option (compressed env) "sharp failed" ;;
       let compressionRatio :=
         (String.length screenshotBuffer, String.length compressedBuffer) in
       (* Upload to Cloudinary *)
       cloudinaryResult <-
         of_option (upload_result env) "Upload failed" ;;
       tell (Upload (employeeId captureConfig) compressedBuffer
                    (JS.str_or (active_application_name metadata) "unknown")) ;;
       (* Also save locally as backup *)
       filePath <-
         (if local_backup env then
            p <- of_option (backup_path env) "writeFile failed" ;;
            tell (WriteFile p compressedBuffer) ;;
            ret (Some p)
          else ret None) ;;
       (* Find previous capture for delta reference *)
       previousCapture <-
         of_option (previous_capture env) "findOne failed" ;;
       let screenCapture := {|
         sc_id := capture_id env;
         sc_employee := employeeId captureConfig;
         sc_timestamp := now env;
         sc_file_path :=
           match filePath with
           | Some p => if String.eqb p "" then cloudinary_url cloudinaryResult
                       else p
           | None => cloudinary_url cloudinaryResult
           end;
         sc_file_size := file_size cloudinaryResult;
         sc_file_hash := currentHash;
         sc_compression_ratio := compressionRatio;
         sc_screen_resolution := screen_resolution env;
         sc_is_delta := JS.truthy_obj previousCapture;
         sc_previous_capture := previousCapture;
         sc_active_application := active_application_name metadata;
         sc_session_id := sessionId captureConfig;
         sc_capture_trigger := trigger;
         sc_is_flagged :=
           String.eqb trigger "unauthorized_site" || is_flagged metadata;
         sc_flag_reason := flag_reason metadata;
         sc_encryption_key := encryption_key env;
         sc_cloudinary := cloudinaryResult;
         sc_local_backup_enabled := local_backup env |} in
       (if save_ok env then tell (SaveCapture screenCapture)
        else throw "ScreenCapture validation failed") ;;
       (* Update capture config *)
       modify (after_capture currentHash) ;;
       (* Check file size and create alert if too large *)
       when (maxFileSize svc <? file_size cloudinaryResult)
            (MonitoringAlert_createAlert (alert_ok env)
               (large_screenshot_file (employeeId captureConfig)
                  (sessionId captureConfig) (sc_id screenCapture)
                  (file_size cloudinaryResult))) ;;
       ret (Some screenCapture))
    (fun e =>
       tell (Console "Screen capture error") ;;
       c <- get_state ;;
       MonitoringAlert_createAlert (failure_alert_ok env)
         (screen_capture_failed (employeeId c) (sessionId c) e trigger) ;;
       throw e).

(** [triggerCapture]: a fresh [captureConfig] for every call. *)
Definition triggerCapture (svc : Service) (env : Env)
  (employeeId sessionId trigger : string) (metadata : CaptureMetadata)
  : Completion (option ScreenCapture) * CaptureConfig * list Effect :=
  captureScreen svc env trigger metadata
    {| employeeId := employeeId;
       sessionId := sessionId;
       lastCaptureHash := None;
       captureCount := 0 |}.

End Crypto.

(* ------------------------------------------------------------------ *)
(** ** The registry of capture sessions: [startCapture],
       [stopCapture], [stopAllCaptures] *)

(** A value of [this.activeCaptureSessions], as [startCapture] builds
    it. *)
Record CaptureSession : Type := {
  cs_employeeId : string;
  cs_sessionId : string;
  cs_intervalId : option Z;
  cs_lastCaptureHash : option string;
  cs_captureCount : Z;
  cs_disabled : bool
}.

Definition startCapture (employeeId sessionId : string)
  (activeCaptureSessions : JsMap.t CaptureSession) : JsMap.t CaptureSession :=
  if JsMap.has employeeId activeCaptureSessions then activeCaptureSessions
  else
    JsMap.set employeeId
      {| cs_employeeId := employeeId;
         cs_sessionId := sessionId;
         cs_intervalId := None;
         cs_lastCaptureHash := None;
         cs_captureCount := 0;
         cs_disabled := true |}
      activeCaptureSessions.

Definition stopCapture (employeeId : string)
  (activeCaptureSessions : JsMap.t CaptureSession) : JsMap.t CaptureSession :=
  match JsMap.get employeeId activeCaptureSessions with
  | Some _ => JsMap.delete employeeId activeCaptureSessions
  | None => activeCaptureSessions
  end.

Definition stopAllCaptures (activeCaptureSessions : JsMap.t CaptureSession)
  : JsMap.t CaptureSession :=
  JsMap.empty.

End ScreenCaptureService.

(* ------------------------------------------------------------------ *)
(** ** [EnvironmentConfig]: what the host can do *)

Module EnvironmentConfig.

(** [process.env]: a variable is unset or holds a string. *)
Definition ProcessEnv : Type := string -> option string.

(** [process.env.NAME] read as a condition. *)
Definition given (env : ProcessEnv) (name : string) : bool :=
  JS.truthy_str (env name).

(** [process.env.NAME === value] *)
Definition equals (env : ProcessEnv) (name value : string) : bool :=
  match env name with
  | Some v => String.eqb v value
  | None => false
  end.

Definition detectHeadlessEnvironment (env : ProcessEnv) : bool :=
  let headlessIndicators := [
    (* No display server *)
    negb (given env "DISPLAY") && negb (given env "WAYLAND_DISPLAY");
    (* Production without local flag *)
    equals env "NODE_ENV" "production" && negb (given env "LOCAL_DEVELOPMENT");
    (* Cloud platforms *)
    given env "RENDER" || given env "HEROKU" || given env "VERCEL";
    (* CI/CD environments *)
    equals env "CI" "true";
    (* Docker containers *)
    equals env "DOCKER_CONTAINER" "true"
  ] in
  JS.some (fun indicator => indicator) headlessIndicators.

Record Capabilities : Type := {
  canTakeScreenshots : bool;
  canDetectBrowsers : bool;
  canAccessDisplay : bool;
  hasX11Tools : bool;
  simulationMode : bool
}.

Definition detectCapabilities (env : ProcessEnv) (platform : string)
  (isHeadless : bool) : Capabilities :=
  if isHeadless then
    {| canTakeScreenshots := false;
       canDetectBrowsers := false;
       canAccessDisplay := false;
       hasX11Tools := false;
       simulationMode := true |}
  else if String.eqb platform "linux" then
    {| canTakeScreenshots := true;
       canDetectBrowsers := true;
       canAccessDisplay := given env "DISPLAY" || given env "WAYLAND_DISPLAY";
       hasX11Tools := false;
       simulationMode := false |}
  else if String.eqb platform "win32" then
    {| canTakeScreenshots := true;
       canDetectBrowsers := true;
       canAccessDisplay := true;
       hasX11Tools := false;
       simulationMode := false |}
  else if String.eqb platform "darwin" then
    {| canTakeScreenshots := true;
       canDetectBrowsers := true;
       canAccessDisplay := true;
       hasX11Tools := false;
       simulationMode := false |}
  else
    {| canTakeScreenshots := false;
       canDetectBrowsers := false;
       canAccessDisplay := false;
       hasX11Tools := false;
       simulationMode := false |}.

(** The object the constructor builds. *)
Record EnvironmentConfig : Type := {
  platform : string;
  isHeadless : bool;
  capabilities : Capabilities
}.

Definition new_EnvironmentConfig (env : ProcessEnv) (platform : string)
  : EnvironmentConfig :=
  let isHeadless := detectHeadlessEnvironment env in
  {| platform := platform;
     isHeadless := isHeadless;
     capabilities := detectCapabilities env platform isHeadless |}.

Definition getBrowserDetectionMethod (this : EnvironmentConfig) : string :=
  if simulationMode (capabilities this) then "simulation"
  else if String.eqb (platform this) "win32" then "tasklist"
  else if String.eqb (platform this) "linux" then
    (if hasX11Tools (capabilities this) then "x11" else "process")
  else if String.eqb (platform this) "darwin" then "applescript"
  else "simulation".

Record MonitoringConfig : Type := {
  browserCheckInterval : Z;
  websiteMonitoringInterval : Z;
  activityFlushInterval : Z;
  screenshotEnabled : bool;
  intelligentCaptureEnabled : bool;
  mc_simulationMode : bool;
  browserDetectionMethod : string;
  violationDetectionEnabled : bool;
  alertsEnabled : bool
}.

(** [featureMap[feature] || false], for the five names of the map and
    for names that are not inherited object properties. *)
Definition isFeatureAvailable (this : EnvironmentConfig) (feature : string)
  : bool :=
  let c := capabilities this in
  if String.eqb feature "screenshots"
  then canTakeScreenshots c || simulationMode c
  else if String.eqb feature "browser-detection"
  then canDetectBrowsers c || simulationMode c
  else if String.eqb feature "display-access" then canAccessDisplay c
  else if String.eqb feature "x11-tools" then hasX11Tools c
  else if String.eqb feature "simulation" then simulationMode c
  else false.

Definition getCloudPlatform (env : ProcessEnv) : string :=
  if given env "RENDER" then "render"
  else if given env "HEROKU" then "heroku"
  else if given env "VERCEL" then "vercel"
  else if given env "NETLIFY" then "netlify"
  else if given env "AWS_LAMBDA_FUNCTION_NAME" then "aws-lambda"
  else if given env "GOOGLE_CLOUD_PROJECT" then "google-cloud"
  else if given env "DOCKER_CONTAINER" then "docker"
  else "unknown".

(** The test [captureScreen] and [getScreenResolution] make on their
    own before they touch the display:
    [!process.env.DISPLAY && !process.env.WAYLAND_DISPLAY &&
     process.platform === 'linux']. *)
Definition capture_isHeadless (env : ProcessEnv) (platform : string) : bool :=
  negb (given env "DISPLAY") && negb (given env "WAYLAND_DISPLAY") &&
  String.eqb platform "linux".

Section ParseInt.

(** [parseInt(s)]: [None] is [NaN]. *)
Variable parseInt : string -> option Z.

(** [parseInt(process.env.NAME) || fallback] *)
Definition int_or (value : option string) (fallback : Z) : Z :=
  match value with
  | Some s =>
      match parseInt s with
      | Some n => if n =? 0 then fallback else n
      | None => fallback
      end
  | None => fallback
  end.

Definition getMonitoringConfig (env : ProcessEnv) (this : EnvironmentConfig)
  : MonitoringConfig :=
  let base_browserCheckInterval :=
    int_or (env "BROWSER_CHECK_INTERVAL") 7000 in
  let base_websiteMonitoringInterval :=
    int_or (env "WEBSITE_MONITORING_INTERVAL") 10000 in
  let base_activityFlushInterval :=
    int_or (env "ACTIVITY_FLUSH_INTERVAL") 45000 in
  let base_screenshotEnabled := negb (equals env "SCREENSHOT_ENABLED" "false") in
  let base_intelligentCaptureEnabled :=
    negb (equals env "INTELLIGENT_CAPTURE_ENABLED" "false") in
  if isHeadless this || simulationMode (capabilities this) then
    {| browserCheckInterval := Z.max base_browserCheckInterval 10000;
       websiteMonitoringInterval :=
         Z.max base_websiteMonitoringInterval 15000;
       activityFlushInterval := base_activityFlushInterval;
       screenshotEnabled := true;
       intelligentCaptureEnabled := base_intelligentCaptureEnabled;
       mc_simulationMode := true;
       browserDetectionMethod := "simulation";
       violationDetectionEnabled := true;
       alertsEnabled := true |}
  else
    {| browserCheckInterval := base_browserCheckInterval;
       websiteMonitoringInterval := base_websiteMonitoringInterval;
       activityFlushInterval := base_activityFlushInterval;
       screenshotEnabled := base_screenshotEnabled;
       intelligentCaptureEnabled := base_intelligentCaptureEnabled;
       mc_simulationMode := false;
       browserDetectionMethod := getBrowserDetectionMethod this;
       violationDetectionEnabled := true;
       alertsEnabled := true |}.

End ParseInt.

End EnvironmentConfig.

(* ------------------------------------------------------------------ *)
(** ** [ClientMonitoringService]: the agent in the browser

    The service sends the events the handler above receives; an event
    sent is an [InEvent].  What the page shows when a method runs is
    given by a [Browser] record. *)

Module ClientMonitoringService.
Import ClientMonitoringHandler.

(** [window.location], [document] and [navigator] at one instant,
    with [new Date().toISOString()]. *)
Record Browser : Type := {
  href : string;
  document_title : string;
  hidden : bool;
  hostname : string;
  pathname : string;
  userAgent : string;
  toISOString : string
}.

(** [this.lastActivity]: the object of the constructor, or the last
    activity sent. *)
Inductive LastActivity : Type :=
| initial
| tracked (activity : Activity).

Record Service : Type := {
  isActive : bool;
  connected : bool;
  employeeId : string;
  sessionId : string;
  activityInterval : bool;
  screenshotInterval : bool;
  mediaStream : bool;
  lastActivity : LastActivity
}.

(** One frame drawn from the media stream: the data URL of the PNG,
    the canvas size and the blob size. *)
Record Frame : Type := {
  base64 : string;
  frame_width : Z;
  frame_height : Z;
  blob_size : Z
}.

Inductive Effect : Type :=
| Send (event : InEvent)
| Warn (line : string)
| Error (line : string)
| StopTracks
| SetTimeout (delay : Z).

Definition sent (trace : list Effect) : list InEvent :=
  flat_map (fun fx => match fx with Send e => [e] | _ => [] end) trace.

Definition violationScreenshotDelay : Z := 2000.

Definition S (A : Type) : Type := M Service Effect A.

Local Open Scope js_scope.

(** [this.socket?.emit(...)] *)
Definition emit (event : InEvent) : S unit :=
  s <- get_state ;;
  when (connected s) (tell (Send event)).

Definition currentActivity (b : Browser) : Activity := {|
  act_url := href b;
  act_title := Some (document_title b);
  act_timestamp := toISOString b;
  act_isActive := negb (hidden b);
  act_domain := hostname b;
  act_path := pathname b;
  act_userAgent := userAgent b
|}.

(** The test "activity changed" of [trackCurrentActivity]. *)
Definition hasChanged (b : Browser) (last : LastActivity) : bool :=
  match last with
  | initial =>
      negb (String.eqb (href b) "") ||
      negb (String.eqb (document_title b) "") ||
      negb (Bool.eqb (negb (hidden b)) true)
  | tracked a =>
      negb (String.eqb (href b) (act_url a)) ||
      match act_title a with
      | Some t => negb (String.eqb (document_title b) t)
      | None => true
      end ||
      negb (Bool.eqb (negb (hidden b)) (act_isActive a))
  end.

Definition set_lastActivity (a : Activity) (s : Service) : Service := {|
  isActive := isActive s;
  connected := connected s;
  employeeId := employeeId s;
  sessionId := sessionId s;
  activityInterval := activityInterval s;
  screenshotInterval := screenshotInterval s;
  mediaStream := mediaStream s;
  lastActivity := tracked a
|}.

Definition trackCurrentActivity (b : Browser) : S unit :=
  s <- get_state ;;
  if hasChanged b (lastActivity s) then
    emit (client_activity_update (employeeId s) (sessionId s)
                                 (currentActivity b)) ;;
    modify (set_lastActivity (currentActivity b))
  else ret tt.

Definition set_isActive (v : bool) (s : Service) : Service := {|
  isActive := v;
  connected := connected s;
  employeeId := employeeId s;
  sessionId := sessionId s;
  activityInterval := activityInterval s;
  screenshotInterval := screenshotInterval s;
  mediaStream := mediaStream s;
  lastActivity := lastActivity s
|}.

Definition set_activityInterval (v : bool) (s : Service) : Service := {|
  isActive := isActive s;
  connected := connected s;
  employeeId := employeeId s;
  sessionId := sessionId s;
  activityInterval := v;
  screenshotInterval := screenshotInterval s;
  mediaStream := mediaStream s;
  lastActivity := lastActivity s
|}.

Definition set_screenshotInterval (v : bool) (s : Service) : Service := {|
  isActive := isActive s;
  connected := connected s;
  employeeId := employeeId s;
  sessionId := sessionId s;
  activityInterval := activityInterval s;
  screenshotInterval := v;
  mediaStream := mediaStream s;
  lastActivity := lastActivity s
|}.

Definition set_mediaStream (v : bool) (s : Service) : Service := {|
  isActive := isActive s;
  connected := connected s;
  employeeId := employeeId s;
  sessionId := sessionId s;
  activityInterval := activityInterval s;
  screenshotInterval := screenshotInterval s;
  mediaStream := v;
  lastActivity := lastActivity s
|}.

Definition startActivityTracking (b : Browser) : S unit :=
  modify (set_activityInterval true) ;;
  (* Initial activity check *)
  trackCurrentActivity b.

Definition startScreenshotCapture : S unit :=
  s <- get_state ;;
  if negb (mediaStream s)
  then tell (Warn "No media stream available for screenshots")
  else modify (set_screenshotInterval true).

Definition startMonitoring (b : Browser) : S unit :=
  s <- get_state ;;
  if isActive s then ret tt
  else
    try_catch
      (modify (set_isActive true) ;;
       startActivityTracking b ;;
       s1 <- get_state ;;
       when (mediaStream s1) startScreenshotCapture ;;
       (* Notify server that client monitoring started *)
       emit (client_monitoring_started
               (Some (started_data (employeeId s1) (sessionId s1)
                        {| screenCapture := mediaStream s1;
                           activityTracking := true |}))))
      (fun _ =>
         tell (Error "Failed to start monitoring") ;;
         modify (set_isActive false)).

Definition stopMonitoring : S unit :=
  s <- get_state ;;
  if negb (isActive s) then ret tt
  else
    modify (set_isActive false) ;;
    (* Clear intervals *)
    modify (set_activityInterval false) ;;
    modify (set_screenshotInterval false) ;;
    (* Stop media stream *)
    when (mediaStream s) (tell StopTracks ;; modify (set_mediaStream false)) ;;
    (* Notify server *)
    emit (client_monitoring_stopped
            (Some (stopped_data (employeeId s) (sessionId s)))).

(** The [metadata] argument of [captureScreenshot]: its keys in
    insertion order and, of its values, the one the handler can see,
    [timestamp].  The other fields the handler reads ([url], [title],
    [width], [height]) are set after the spread and replace the
    caller's. *)
Record CallerMetadata : Type := {
  cm_keys : list string;
  cm_timestamp : JsTimestamp
}.

(** The keys of [{ ...metadata, url, title, width, height, fileSize }]:
    the caller's keys keep their places, the five follow when the
    caller has not set them. *)
Definition spread_keys (caller : list string) : list string :=
  caller ++
  filter (fun k => negb (existsb (String.eqb k) caller))
         ["url"; "title"; "width"; "height"; "fileSize"].

(** The payload of [captureScreenshot]. *)
Definition screenshotData (s : Service) (b : Browser) (f : Frame)
  (trigger : string) (metadata : CallerMetadata) : ScreenshotData := {|
  sd_employeeId := Some (employeeId s);
  sd_sessionId := Some (sessionId s);
  sd_trigger := Some trigger;
  sd_imageData := Some (base64 f);
  sd_metadata := Some {|
    md_url := Some (href b);
    md_title := Some (document_title b);
    md_timestamp := cm_timestamp metadata;
    md_width := Some (frame_width f);
    md_height := Some (frame_height f);
    md_fileSize := Some (blob_size f);
    md_keys := spread_keys (cm_keys metadata) |}
|}.

(** [frame] is what drawing the stream on a canvas gives, [None] when
    a step of it throws. *)
Definition captureScreenshot (frame : option Frame) (b : Browser)
  (trigger : string) (metadata : CallerMetadata)
  : S (option ScreenshotData) :=
  try_catch
    (s <- get_state ;;
     if negb (mediaStream s) then
       tell (Warn "Cannot capture screenshot - no media stream") ;;
       ret None
     else
       match frame with
       | None => throw "drawImage failed"
       | Some f =>
           let data := screenshotData s b f trigger metadata in
           emit (client_screenshot_captured (Some data)) ;;
           ret (Some data)
       end)
    (fun _ => tell (Error "Screenshot capture failed") ;; ret None).

Definition handleVisibilityChange (b : Browser) : S unit :=
  s <- get_state ;;
  emit (client_visibility_change (employeeId s) (negb (hidden b))
                                 (toISOString b)) ;;
  (* Track activity change *)
  trackCurrentActivity b.

Definition handleFocusChange (b : Browser) (focus : bool) : S unit :=
  s <- get_state ;;
  emit (client_focus_change (employeeId s) focus (toISOString b)).

(** The timer callback of [handleUrlChange]. *)
Definition url_change_timeout (frame : option Frame) (b : Browser) : S unit :=
  s <- get_state ;;
  if isActive s then
    _ <- captureScreenshot frame b "url_change"
           {| cm_keys := ["previousUrl"; "newUrl"];
              cm_timestamp := ts_absent |} ;;
    ret tt
  else ret tt.

Definition handleUrlChange (b : Browser) : S unit :=
  (* Track activity change immediately *)
  trackCurrentActivity b ;;
  (* Capture screenshot after URL change (with delay) *)
  tell (SetTimeout violationScreenshotDelay).

(** The tick of the interval set by [startScreenshotCapture]. *)
Definition scheduled_screenshot (frame : option Frame) (b : Browser)
  : S (option ScreenshotData) :=
  captureScreenshot frame b "scheduled"
    {| cm_keys := []; cm_timestamp := ts_absent |}.

Definition triggerViolationScreenshot (frame : option Frame) (b : Browser)
  : S (option ScreenshotData) :=
  captureScreenshot frame b "violation"
    {| cm_keys := ["reason"; "violationTime"]; cm_timestamp := ts_absent |}.

(** The service after [initialize] on a connected socket, with the
    screen capture permission granted or not. *)
Definition initialized (employeeId sessionId : string) (granted : bool)
  : Service := {|
  isActive := false;
  connected := true;
  employeeId := employeeId;
  sessionId := sessionId;
  activityInterval := false;
  screenshotInterval := false;
  mediaStream := granted;
  lastActivity := initial
|}.

End ClientMonitoringService.

(* ------------------------------------------------------------------ *)
(** ** Reference builtins

    Executable instances of the builtins the handlers are parametric
    in, used to run the handlers on concrete events. *)

Module Builtins.

Definition digit (c : ascii) : option Z :=
  let n := nat_of_ascii c in
  if ((48 <=? n) && (n <=? 57))%nat then Some (Z.of_nat (n - 48)) else None.

(** Exactly [n] decimal digits. *)
Fixpoint number (n : nat) (acc : Z) (s : string) : option (Z * string) :=
  match n with
  | O => Some (acc, s)
  | S n' =>
      match s with
      | String c s' =>
          match digit c with
          | Some d => number n' (acc * 10 + d) s'
          | None => None
          end
      | EmptyString => None
      end
  end.

Definition expect (c : ascii) (s : string) : option string :=
  match s with
  | String c' s' => if Ascii.eqb c c' then Some s' else None
  | EmptyString => None
  end.

Definition is_leap (y : Z) : bool :=
  ((y mod 4 =? 0) && negb (y mod 100 =? 0)) || (y mod 400 =? 0).

Definition days_in_month (y m : Z) : Z :=
  if m =? 2 then (if is_leap y then 29 else 28)
  else if (m =? 4) || (m =? 6) || (m =? 9) || (m =? 11) then 30
  else 31.

(** Days from 1970-01-01 to the given day of the proleptic Gregorian
    calendar. *)
Definition days_from_civil (y m d : Z) : Z :=
  let y' := if m <=? 2 then y - 1 else y in
  let era := y' / 400 in
  let yoe := y' - era * 400 in
  let mp := (m + 9) mod 12 in
  let doy := (153 * mp + 2) / 5 + d - 1 in
  let doe := yoe * 365 + yoe / 4 - yoe / 100 + doy in
  era * 146097 + doe - 719468.

(** [Date.parse] on the format [toISOString] produces,
    [YYYY-MM-DDTHH:mm:ss.sssZ]; any other string is an invalid date. *)
Definition Date_parse (s : string) : option Z :=
  match number 4 0 s with
  | Some (y, s) =>
  match expect "-" s with
  | Some s =>
  match number 2 0 s with
  | Some (mo, s) =>
  match expect "-" s with
  | Some s =>
  match number 2 0 s with
  | Some (d, s) =>
  match expect "T" s with
  | Some s =>
  match number 2 0 s with
  | Some (hh, s) =>
  match expect ":" s with
  | Some s =>
  match number 2 0 s with
  | Some (mi, s) =>
  match expect ":" s with
  | Some s =>
  match number 2 0 s with
  | Some (ss, s) =>
  match expect "." s with
  | Some s =>
  match number 3 0 s with
  | Some (ms, s) =>
      if String.eqb s "Z" &&
         (1 <=? mo) && (mo <=? 12) && (1 <=? d) && (d <=? days_in_month y mo) &&
         (hh <=? 23) && (mi <=? 59) && (ss <=? 59)
      then Some ((((days_from_civil y mo d * 24 + hh) * 60 + mi) * 60 + ss)
                 * 1000 + ms)
      else None
  | None => None end
  | None => None end
  | None => None end
  | None => None end
  | None => None end
  | None => None end
  | None => None end
  | None => None end
  | None => None end
  | None => None end
  | None => None end
  | None => None end
  | None => None end.

Definition is_host_char (c : ascii) : bool :=
  let n := nat_of_ascii c in
  (((48 <=? n) && (n <=? 57)) || ((65 <=? n) && (n <=? 90)) ||
   ((97 <=? n) && (n <=? 122)) || (n =? 45))%nat.

(** The literal a pattern stands for when it is made of host-name
    characters and escaped dots. *)
Fixpoint literal_of (pattern : string) : option string :=
  match pattern with
  | EmptyString => Some EmptyString
  | String c rest =>
      if Ascii.eqb c "\"%char then
        match rest with
        | String d rest' =>
            if Ascii.eqb d "."%char
            then option_map (String ".") (literal_of rest')
            else None
        | EmptyString => None
        end
      else if is_host_char c then option_map (String c) (literal_of rest)
      else None
  end.

(** [new RegExp(pattern, 'i')] for the patterns that an escaped host
    name gives; other patterns are not supported by this instance. *)
Definition RegExp_i (pattern : string) : option (string -> bool) :=
  match literal_of pattern with
  | Some literal =>
      Some (fun subject =>
              JS.includes (JS.toLowerCase subject) (JS.toLowerCase literal))
  | None => None
  end.

(** Stand-ins for the byte-level builtins, which no property below
    looks into: the decoded buffer and the digest are the input. *)
Definition Buffer_from_base64 (s : string) : string := s.
Definition md5_hex (s : string) : string := s.

(** [parseInt(s)] without a radix: blanks, a sign, then the longest
    run of decimal digits, or of hexadecimal digits after [0x]; [None]
    is [NaN].  Exact for the integers a double holds exactly. *)
Definition is_blank (c : ascii) : bool :=
  let n := nat_of_ascii c in
  ((n =? 32) || ((9 <=? n) && (n <=? 13)))%nat.

Fixpoint skip_blanks (s : string) : string :=
  match s with
  | String c s' => if is_blank c then skip_blanks s' else s
  | EmptyString => EmptyString
  end.

Definition hex_digit (c : ascii) : option Z :=
  let n := nat_of_ascii c in
  match digit c with
  | Some d => Some d
  | None =>
      if ((97 <=? n) && (n <=? 102))%nat then Some (Z.of_nat (n - 87))
      else if ((65 <=? n) && (n <=? 70))%nat then Some (Z.of_nat (n - 55))
      else None
  end.

Fixpoint digits (value : ascii -> option Z) (radix : Z) (acc : option Z)
  (s : string) : option Z :=
  match s with
  | String c s' =>
      match value c with
      | Some d =>
          digits value radix
                 (Some match acc with
                       | Some a => a * radix + d
                       | None => d
                       end) s'
      | None => acc
      end
  | EmptyString => acc
  end.

Definition is_x (c : ascii) : bool :=
  Ascii.eqb c "x"%char || Ascii.eqb c "X"%char.

Definition parseInt (s : string) : option Z :=
  let s := skip_blanks s in
  let signed :=
    match s with
    | String c s' =>
        if Ascii.eqb c "-"%char then (true, s')
        else if Ascii.eqb c "+"%char then (false, s')
        else (false, s)
    | EmptyString => (false, s)
    end in
  let magnitude :=
    match snd signed with
    | String z (String x s') =>
        if Ascii.eqb z "0"%char && is_x x then digits hex_digit 16 None s'
        else digits digit 10 None (snd signed)
    | rest => digits digit 10 None rest
    end in
  option_map (fun n => if fst signed then - n else n) magnitude.

End Builtins.

(* ------------------------------------------------------------------ *)
(** ** Concrete events and environments *)

Module Examples.
Import ClientMonitoringHandler.

Definition visit (url domain : string) (title : string) : Activity := {|
  act_url := url;
  act_title := Some title;
  act_timestamp := "2025-07-29T10:30:45.123Z";
  act_isActive := true;
  act_domain := domain;
  act_path := "/";
  act_userAgent := "Mozilla/5.0"
|}.

(** The scenario of an unlisted shop with a sale in the page title. *)
Definition flash_sale : Activity :=
  visit "https://example-shop.com/" "example-shop.com" "Flash Sale".

Definition facebook_feed : Activity :=
  visit "https://www.facebook.com/feed" "www.facebook.com" "Facebook".

Definition intranet_page : Activity :=
  visit "https://portal.example.org/home" "portal.example.org" "Home".

(** Collaborators that all succeed, at 2025-07-29T10:30:45.123Z. *)
Definition calm : Env := {|
  now := 1753785045123;
  whitelist := [];
  io_present := true;
  insertMany_ok := true;
  alert_save_ok := true;
  upload_result := Some {|
    cloudinary_url := "https://res.cloudinary.com/demo/shot.png";
    cloudinary_public_id := "violations/emp1/shot";
    cloudinary_version := "1";
    format := "png";
    file_size := Some 2048;
    width := Some 1280;
    height := Some 720 |};
  capture_id := "capture-1";
  capture_save_ok := true;
  ocr_service := returns "Flash Sale";
  ai_service := returns {|
    ai_confidence := (9, 10)%positive;
    ai_isViolation := true;
    ai_violationType := "shopping";
    ai_description := "Shopping page" |};
  analysis_save_ok := true
|}.

Definition at_time (t : Z) (env : Env) : Env := {|
  now := t;
  whitelist := whitelist env;
  io_present := io_present env;
  insertMany_ok := insertMany_ok env;
  alert_save_ok := alert_save_ok env;
  upload_result := upload_result env;
  capture_id := capture_id env;
  capture_save_ok := capture_save_ok env;
  ocr_service := ocr_service env;
  ai_service := ai_service env;
  analysis_save_ok := analysis_save_ok env
|}.

Definition with_whitelist (entries : list WhitelistEntry) (env : Env) : Env := {|
  now := now env;
  whitelist := entries;
  io_present := io_present env;
  insertMany_ok := insertMany_ok env;
  alert_save_ok := alert_save_ok env;
  upload_result := upload_result env;
  capture_id := capture_id env;
  capture_save_ok := capture_save_ok env;
  ocr_service := ocr_service env;
  ai_service := ai_service env;
  analysis_save_ok := analysis_save_ok env
|}.

(** The database refuses every batch insert. *)
Definition database_down (env : Env) : Env := {|
  now := now env;
  whitelist := whitelist env;
  io_present := io_present env;
  insertMany_ok := false;
  alert_save_ok := alert_save_ok env;
  upload_result := upload_result env;
  capture_id := capture_id env;
  capture_save_ok := capture_save_ok env;
  ocr_service := ocr_service env;
  ai_service := ai_service env;
  analysis_save_ok := analysis_save_ok env
|}.

(** The write of the alert fails. *)
Definition alert_write_fails (env : Env) : Env := {|
  now := now env;
  whitelist := whitelist env;
  io_present := io_present env;
  insertMany_ok := insertMany_ok env;
  alert_save_ok := false;
  upload_result := upload_result env;
  capture_id := capture_id env;
  capture_save_ok := capture_save_ok env;
  ocr_service := ocr_service env;
  ai_service := ai_service env;
  analysis_save_ok := analysis_save_ok env
|}.

Definition both : Capabilities :=
  {| screenCapture := true; activityTracking := true |}.

(** The handler after [client-monitoring-started] for employee
    ["emp1"] on socket ["sock1"]. *)
Definition started : Handler :=
  state_of (handleMonitoringStarted calm "sock1"
              (Some (started_data "emp1" "sess1" both)) new_handler).

(** The session that [started] holds for ["emp1"]. *)
Definition session1 : Session := {|
  employeeId := "emp1";
  sessionId := "sess1";
  socketId := "sock1";
  startTime := 1753785045123;
  capabilities := both;
  lastActivity := None;
  violationCount := 0;
  lastViolationTime := None
|}.

(** An allow-list with one entry, for Facebook. *)
Definition allow_facebook : Env :=
  with_whitelist
    [{| wl_url := "https://www.facebook.com"; wl_domain := "facebook.com" |}]
    calm.

(** The AI service module is not there. *)
Definition without_ai (env : Env) : Env := {|
  now := now env;
  whitelist := whitelist env;
  io_present := io_present env;
  insertMany_ok := insertMany_ok env;
  alert_save_ok := alert_save_ok env;
  upload_result := upload_result env;
  capture_id := capture_id env;
  capture_save_ok := capture_save_ok env;
  ocr_service := ocr_service env;
  ai_service := missing;
  analysis_save_ok := analysis_save_ok env
|}.

Definition shot_metadata (timestamp : JsTimestamp) : Metadata := {|
  md_url := Some "https://example-shop.com/";
  md_title := Some "Flash Sale";
  md_timestamp := timestamp;
  md_width := Some 1280;
  md_height := Some 720;
  md_fileSize := Some 2048;
  md_keys :=
    match timestamp with
    | ts_absent => []
    | _ => ["timestamp"]
    end ++ ["url"; "title"; "width"; "height"; "fileSize"]
|}.

(** A [client-screenshot-captured] payload of employee ["emp1"]. *)
Definition shot (trigger : string) (imageData : option string)
  (timestamp : JsTimestamp) : ScreenshotData := {|
  sd_employeeId := Some "emp1";
  sd_sessionId := Some "sess1";
  sd_trigger := Some trigger;
  sd_imageData := imageData;
  sd_metadata := Some (shot_metadata timestamp)
|}.

Definition png : option string := Some "data:image/png;base64,iVBORw0KGgo=".

Definition violation_shot : ScreenshotData := shot "violation" png ts_absent.

Definition shot_without_image : ScreenshotData :=
  shot "violation" None ts_absent.

Definition shot_with_bad_date : ScreenshotData :=
  shot "manual" png (ts_string "not-a-date").

Definition shot_from_the_future : ScreenshotData :=
  shot "manual" png (ts_string "2999-01-01T00:00:00.000Z").

Definition hidden : Env * string * InEvent :=
  (calm, "sock1",
   client_visibility_change "emp1" false "2025-07-29T10:31:00.000Z").

Definition update_while_database_down : Env * string * InEvent :=
  (database_down calm, "sock1",
   client_activity_update "emp1" "sess1" intranet_page).

(** A session of ["emp1"] on socket ["sock1"] with one activity. *)
Definition one_visit : list (Env * string * InEvent) :=
  [(calm, "sock1",
    client_monitoring_started (Some (started_data "emp1" "sess1" both)));
   (calm, "sock1", client_activity_update "emp1" "sess1" intranet_page)].

(** Two subjects announced on the same socket. *)
Definition shared_socket : list (Env * string * InEvent) :=
  [(calm, "sock1",
    client_monitoring_started (Some (started_data "emp1" "sess1" both)));
   (calm, "sock1",
    client_monitoring_started (Some (started_data "emp2" "sess2" both)))].

Definition ingest_ :=
  handleScreenshotCaptured Builtins.Date_parse Builtins.Buffer_from_base64.

Definition on_ := on Builtins.RegExp_i Builtins.Date_parse
                     Builtins.Buffer_from_base64.

Definition run_ := run Builtins.RegExp_i Builtins.Date_parse
                       Builtins.Buffer_from_base64.

(** The handler of [started] after 99 visibility changes: the buffer
    of ["emp1"] is one record short of the maximum. *)
Definition almost_full : Handler := state_of (run_ (repeat hidden 99) started).

End Examples.

Module CaptureExamples.
Import ScreenCaptureService.

(** A desktop with a display where every collaborator succeeds. *)
Definition desktop : Env := {|
  isHeadless := false;
  screenshot := Some "PNG-bytes-of-the-screen";
  placeholder := Some "PNG-bytes-of-the-placeholder";
  compressed := Some "JPEG-bytes";
  upload_result := Some {|
    cloudinary_url := "https://res.cloudinary.com/demo/screen.jpg";
    cloudinary_public_id := "screens/emp1/screen";
    cloudinary_version := "1";
    file_size := 4096 |};
  local_backup := false;
  backup_path := None;
  screen_resolution := (1920, 1080);
  previous_capture := Some None;
  encryption_key := "00ff";
  now := 1753785045123;
  capture_id := "capture-7";
  save_ok := true;
  alert_ok := true;
  failure_alert_ok := true
|}.

(** A capture session whose last capture was the same screen. *)
Definition unchanged : CaptureConfig := {|
  employeeId := "emp1";
  sessionId := "sess1";
  lastCaptureHash := Some (Builtins.md5_hex "PNG-bytes-of-the-screen");
  captureCount := 3
|}.

End CaptureExamples.

(** More events and environments. *)

Module MoreExamples.
Import ClientMonitoringHandler Examples.




(** The write of the capture document fails. *)
Definition capture_write_fails (env : Env) : Env := {|
  now := now env;
  whitelist := whitelist env;
  io_present := io_present env;
  insertMany_ok := insertMany_ok env;
  alert_save_ok := alert_save_ok env;
  upload_result := upload_result env;
  capture_id := capture_id env;
  capture_save_ok := false;
  ocr_service := ocr_service env;
  ai_service := ai_service env;
  analysis_save_ok := analysis_save_ok env
|}.

(** The handler after the session of ["emp1"] with one activity. *)
Definition visited : Handler := state_of (run_ one_visit new_handler).

Definition scheduled_shot : ScreenshotData := shot "scheduled" png ts_absent.

(** What the upload of [calm] answers. *)
Definition uploaded : UploadResult := {|
  cloudinary_url := "https://res.cloudinary.com/demo/shot.png";
  cloudinary_public_id := "violations/emp1/shot";
  cloudinary_version := "1";
  format := "png";
  file_size := Some 2048;
  width := Some 1280;
  height := Some 720
|}.


(** The database refuses the batches of ["emp1"] only. *)
Definition down_for_emp1 (employeeId : string) : Env :=
  if String.eqb employeeId "emp1" then database_down calm else calm.

(** The handler with the sessions of ["emp1"] and ["emp2"], one
    activity buffered for each. *)
Definition two_subjects : Handler :=
  state_of
    (run_
       [(calm, "sock1",
         client_monitoring_started (Some (started_data "emp1" "sess1" both)));
        (calm, "sock1", client_activity_update "emp1" "sess1" intranet_page);
        (calm, "sock2",
         client_monitoring_started (Some (started_data "emp2" "sess2" both)));
        (calm, "sock2", client_activity_update "emp2" "sess2" intranet_page)]
       new_handler).

End MoreExamples.

Module MoreCaptureExamples.
Import ScreenCaptureService CaptureExamples.

(** A capture session before its first capture. *)
Definition fresh : CaptureConfig := {|
  employeeId := "emp1";
  sessionId := "sess1";
  lastCaptureHash := None;
  captureCount := 0
|}.




(** The document of the first capture of the desktop on demand. *)
Definition first_document : ScreenCapture := {|
  sc_id := "capture-7";
  sc_employee := "emp1";
  sc_timestamp := 1753785045123;
  sc_file_path := "https://res.cloudinary.com/demo/screen.jpg";
  sc_file_size := 4096;
  sc_file_hash := Builtins.md5_hex "PNG-bytes-of-the-screen";
  sc_compression_ratio := (23%nat, 10%nat);
  sc_screen_resolution := (1920, 1080);
  sc_is_delta := false;
  sc_previous_capture := None;
  sc_active_application := None;
  sc_session_id := "sess1";
  sc_capture_trigger := "manual";
  sc_is_flagged := false;
  sc_flag_reason := None;
  sc_encryption_key := "00ff";
  sc_cloudinary := {|
    cloudinary_url := "https://res.cloudinary.com/demo/screen.jpg";
    cloudinary_public_id := "screens/emp1/screen";
    cloudinary_version := "1";
    file_size := 4096 |};
  sc_local_backup_enabled := false
|}.

End MoreCaptureExamples.

Module HostExamples.
Import EnvironmentConfig.

(** [process.env] with the given variables set. *)
Definition process_env (variables : list (string * string)) : ProcessEnv :=
  fun name =>
    option_map snd (find (fun kv => String.eqb (fst kv) name) variables).

(** A workstation with an X display and its own intervals. *)
Definition workstation : ProcessEnv :=
  process_env [("DISPLAY", ":0"); ("BROWSER_CHECK_INTERVAL", "5000");
               ("SCREENSHOT_ENABLED", "false")].

(** A container on Render: no display. *)
Definition render : ProcessEnv :=
  process_env [("RENDER", "true"); ("NODE_ENV", "production");
               ("BROWSER_CHECK_INTERVAL", "5000");
               ("SCREENSHOT_ENABLED", "false")].

(** A machine where no variable is set. *)
Definition bare : ProcessEnv := process_env [].

End HostExamples.

Module ClientExamples.
Import ClientMonitoringService.

Definition shop_tab : Browser := {|
  href := "https://example-shop.com/";
  document_title := "Flash Sale";
  hidden := false;
  hostname := "example-shop.com";
  pathname := "/";
  userAgent := "Mozilla/5.0";
  toISOString := "2025-07-29T10:30:45.123Z"
|}.

(** The same tab five seconds later. *)
Definition shop_tab_later : Browser := {|
  href := "https://example-shop.com/";
  document_title := "Flash Sale";
  hidden := false;
  hostname := "example-shop.com";
  pathname := "/";
  userAgent := "Mozilla/5.0";
  toISOString := "2025-07-29T10:30:50.123Z"
|}.

Definition frame1 : Frame := {|
  base64 := "data:image/png;base64,iVBORw0KGgo=";
  frame_width := 1280;
  frame_height := 720;
  blob_size := 2048
|}.

(** The agent of ["emp1"] after [initialize] with the screen capture
    granted, and after [startMonitoring] on the shop tab. *)
Definition agent : Service := initialized "emp1" "client_session_emp1_1" true.

Definition running : Service := state_of (startMonitoring shop_tab agent).

(** The scheduled screenshot of the running agent, and the document
    the handler writes for it when every collaborator succeeds. *)
Definition scheduled_data : ClientMonitoringHandler.ScreenshotData :=
  screenshotData running shop_tab frame1 "scheduled"
    {| cm_keys := []; cm_timestamp := ClientMonitoringHandler.ts_absent |}.

Definition stored_data : ClientMonitoringHandler.ScreenCapture :=
  ClientMonitoringHandler.new_ScreenCapture Builtins.Date_parse Examples.calm
    "emp1" "client_session_emp1_1" (Some "scheduled")
    (Builtins.Buffer_from_base64 "iVBORw0KGgo=")
    {| ClientMonitoringHandler.md_url := Some "https://example-shop.com/";
       ClientMonitoringHandler.md_title := Some "Flash Sale";
       ClientMonitoringHandler.md_timestamp :=
         ClientMonitoringHandler.ts_absent;
       ClientMonitoringHandler.md_width := Some 1280;
       ClientMonitoringHandler.md_height := Some 720;
       ClientMonitoringHandler.md_fileSize := Some 2048;
       ClientMonitoringHandler.md_keys :=
         ["url"; "title"; "width"; "height"; "fileSize"] |}
    MoreExamples.uploaded.

End ClientExamples.
(* ------------------------------------------------------------------ *)
(** * Properties *)

(** ** Reading the result of a computation *)

Lemma state_of_is {S E A} (c : Completion A) (s : S) (t : list E) :
  state_of (c, s, t) = s.
Proof. reflexivity. Qed.

Lemma trace_of_is {S E A} (c : Completion A) (s : S) (t : list E) :
  trace_of (c, s, t) = t.
Proof. reflexivity. Qed.

Lemma completion_of_is {S E A} (c : Completion A) (s : S) (t : list E) :
  completion_of (c, s, t) = c.
Proof. reflexivity. Qed.

(** ** The [Map] operations *)

Module JsMapFacts.

Section Facts.
Context {V : Type}.
Implicit Types (m : JsMap.t V) (k : string) (v : V).

Lemma get_set_eq m k v : JsMap.get k (JsMap.set k v m) = Some v.
Proof.
  induction m as [|[k' v'] m IH]; simpl.
  - now rewrite String.eqb_refl.
  - destruct (String.eqb k k') eqn:E; simpl; rewrite ?E; auto.
    now rewrite String.eqb_refl.
Qed.

Lemma get_set_ne m k k' v :
  k' <> k -> JsMap.get k' (JsMap.set k v m) = JsMap.get k' m.
Proof.
  intros N. induction m as [|[k0 v0] m IH]; simpl.
  - apply String.eqb_neq in N. now rewrite N.
  - destruct (String.eqb k k0) eqn:E; simpl.
    + apply String.eqb_eq in E. subst k0.
      apply String.eqb_neq in N. now rewrite N.
    + now rewrite IH.
Qed.

Lemma get_delete_eq m k : JsMap.get k (JsMap.delete k m) = None.
Proof.
  induction m as [|[k' v'] m IH]; simpl; auto.
  destruct (String.eqb k k') eqn:E; simpl; rewrite ?E; auto.
Qed.

Lemma get_delete_ne m k k' :
  k' <> k -> JsMap.get k' (JsMap.delete k m) = JsMap.get k' m.
Proof.
  intros N. induction m as [|[k0 v0] m IH]; simpl; auto.
  destruct (String.eqb k k0) eqn:E; simpl.
  - apply String.eqb_eq in E. subst k0.
    apply String.eqb_neq in N. now rewrite N.
  - now rewrite IH.
Qed.

Lemma has_get m k : JsMap.has k m = true <-> JsMap.get k m <> None.
Proof.
  unfold JsMap.has. destruct (JsMap.get k m); split; congruence.
Qed.

Lemma get_set m k k' v :
  JsMap.get k' (JsMap.set k v m) =
  if String.eqb k' k then Some v else JsMap.get k' m.
Proof.
  destruct (String.eqb k' k) eqn:E.
  - apply String.eqb_eq in E. subst. apply get_set_eq.
  - apply String.eqb_neq in E. now apply get_set_ne.
Qed.

End Facts.

End JsMapFacts.

(** ** The classifier *)

Module ClassifierFacts.
Import ClientMonitoringHandler.

Lemma some_false_In {A : Type} (p : A -> bool) (l : list A) (x : A) :
  JS.some p l = false -> In x l -> p x = false.
Proof.
  unfold JS.some. intros F I.
  destruct (p x) eqn:E; auto.
  assert (existsb p l = true) by (apply existsb_exists; eauto).
  congruence.
Qed.

Lemma some_true_In {A : Type} (p : A -> bool) (l : list A) (x : A) :
  In x l -> p x = true -> JS.some p l = true.
Proof.
  unfold JS.some. intros I T. apply existsb_exists. eauto.
Qed.

(** A domain outside [violationDomains] contains none of them. *)
Lemma unlisted_domain activity d :
  domain_match activity = false ->
  In d violationDomains ->
  JS.includes (JS.toLowerCase (act_domain activity)) d = false.
Proof.
  intros F I. unfold domain_match in F.
  exact (some_false_In _ _ d F I).
Qed.

Ltac listed := unfold violationDomains; simpl; tauto.

(** A keyword of the list in the lower-cased title makes the activity
    an explicit violation, whatever its domain and URL. *)
Lemma keyword_in_title activity keyword :
  In keyword violationKeywords ->
  JS.includes (JS.toLowerCase (JS.str_or (act_title activity) "")) keyword
    = true ->
  isExplicitViolation activity = true.
Proof.
  intros I T. unfold isExplicitViolation.
  destruct (domain_match activity); auto.
  destruct (url_pattern_match activity); auto.
  assert (K : keyword_match activity = true).
  { unfold keyword_match.
    apply some_true_In with (x := keyword); auto.
    rewrite T. apply orb_true_r. }
  now rewrite K.
Qed.

(** C2, as stated, fails: the shop with "Flash Sale" in its title is an
    explicit violation through the keyword check, its domain and URL
    match neither the domain list nor the URL patterns, and the alert
    it gets is not in the shopping category. *)
Lemma flash_sale_alert_is_not_shopping :
  domain_match Examples.flash_sale = false /\
  url_pattern_match Examples.flash_sale = false /\
  isExplicitViolation Examples.flash_sale = true /\
  ~ (type (getAlertConfig "explicit_violation" Examples.flash_sale)
       = "shopping_access" /\
     severity (getAlertConfig "explicit_violation" Examples.flash_sale)
       = "medium").
Proof.
  repeat split; try reflexivity.
  intros [T _]. vm_compute in T. discriminate T.
Qed.

(** C2, amended: an activity on an unlisted domain (its domain and URL
    match neither the domain list nor the URL patterns) whose title
    contains the keyword "sale" is an explicit violation through the
    keyword check, and its alert is never in the shopping category:
    it is [gaming_access], high, when the URL contains "game",
    [inappropriate_content], critical, when the URL contains "adult"
    or "xxx" and not "game", and otherwise the generic
    [unauthorized_website] with severity medium. *)
Theorem unlisted_sale_is_not_shopping (activity : Activity) :
  domain_match activity = false ->
  url_pattern_match activity = false ->
  JS.includes (JS.toLowerCase (JS.str_or (act_title activity) "")) "sale"
    = true ->
  let url := JS.toLowerCase (act_url activity) in
  let alert := getAlertConfig "explicit_violation" activity in
  isExplicitViolation activity = true /\
  keyword_match activity = true /\
  type alert <> "shopping_access" /\
  (type alert, severity alert) =
    if JS.includes url "game" then ("gaming_access", "high")
    else if JS.includes url "adult" || JS.includes url "xxx"
    then ("inappropriate_content", "critical")
    else ("unauthorized_website", "medium").
Proof.
  intros D U T url alert.
  assert (K : keyword_match activity = true).
  { unfold keyword_match.
    apply some_true_In with (x := "sale").
    - unfold violationKeywords. simpl. tauto.
    - rewrite T. apply orb_true_r. }
  split; [ eapply keyword_in_title; eauto; unfold violationKeywords; simpl; tauto | ].
  split; [ exact K | ].
  subst alert url. unfold getAlertConfig.
  rewrite !(unlisted_domain activity _ D) by listed.
  cbn [orb].
  destruct (JS.includes (JS.toLowerCase (act_url activity)) "game");
    [split; [discriminate|reflexivity]|].
  destruct (JS.includes (JS.toLowerCase (act_url activity)) "adult");
    [split; [discriminate|reflexivity]|].
  destruct (JS.includes (JS.toLowerCase (act_url activity)) "xxx");
    split; (discriminate || reflexivity).
Qed.

Lemma unlisted_sale_is_not_shopping_witness :
  let alert := getAlertConfig "explicit_violation" Examples.flash_sale in
  isExplicitViolation Examples.flash_sale = true /\
  keyword_match Examples.flash_sale = true /\
  type alert <> "shopping_access" /\
  (type alert, severity alert) = ("unauthorized_website", "medium").
Proof.
  apply (unlisted_sale_is_not_shopping Examples.flash_sale); reflexivity.
Defined.

End ClassifierFacts.

(** ** The handlers *)

Module HandlerFacts.
Import ClientMonitoringHandler.

Ltac step_monad :=
  unfold try_catch, bind, ret, tell, throw, modify, get_state, when,
         state_of, trace_of, completion_of;
  simpl.

(** *** [flushActivities] *)

Lemma flush_absent env e h :
  JsMap.get e (activityBuffer h) = None ->
  flushActivities env e h = (Normal tt, h, []).
Proof. intros G. unfold flushActivities. step_monad. now rewrite G. Qed.

Lemma flush_empty env e h :
  JsMap.get e (activityBuffer h) = Some [] ->
  flushActivities env e h = (Normal tt, h, []).
Proof. intros G. unfold flushActivities. step_monad. now rewrite G. Qed.

Lemma flush_success env e h records :
  JsMap.get e (activityBuffer h) = Some records ->
  records <> [] ->
  insertMany_ok env = true ->
  flushActivities env e h =
    (Normal tt,
     with_buffer h (JsMap.set e [] (activityBuffer h)),
     [InsertMany records]).
Proof.
  intros G N O. unfold flushActivities, EmployeeActivity_insertMany.
  step_monad. rewrite G, O. destruct records; [congruence|reflexivity].
Qed.

Lemma flush_failure env e h records :
  JsMap.get e (activityBuffer h) = Some records ->
  records <> [] ->
  insertMany_ok env = false ->
  flushActivities env e h =
    (Normal tt, h, [Console error "Error flushing activities"]).
Proof.
  intros G N O. unfold flushActivities, EmployeeActivity_insertMany.
  step_monad. rewrite G, O. destruct records; [congruence|reflexivity].
Qed.

(** A flush never throws and never touches the sessions or the
    configuration. *)
Lemma flush_frame env e h :
  completion_of (flushActivities env e h) = Normal tt /\
  activeSessions (state_of (flushActivities env e h)) = activeSessions h /\
  config (state_of (flushActivities env e h)) = config h.
Proof.
  destruct (JsMap.get e (activityBuffer h)) as [[|r rs]|] eqn:G.
  - rewrite (flush_empty env e h G). auto.
  - destruct (insertMany_ok env) eqn:O.
    + rewrite (flush_success env e h (r :: rs) G) by (congruence || assumption).
      auto.
    + rewrite (flush_failure env e h (r :: rs) G) by (congruence || assumption).
      auto.
  - rewrite (flush_absent env e h G). auto.
Qed.

(** *** [handlePotentialViolation] *)

Lemma violation_no_session env e activity v h :
  JsMap.get e (activeSessions h) = None ->
  handlePotentialViolation env e activity v h = (Normal tt, h, []).
Proof.
  intros G. unfold handlePotentialViolation. step_monad. now rewrite G.
Qed.

Lemma violation_in_cooldown env e activity v h s :
  JsMap.get e (activeSessions h) = Some s ->
  in_cooldown (config h) s (now env) = true ->
  handlePotentialViolation env e activity v h = (Normal tt, h, []).
Proof.
  intros G C. unfold handlePotentialViolation. step_monad.
  now rewrite G, C.
Qed.

Lemma violation_allowed env e activity v h s :
  JsMap.get e (activeSessions h) = Some s ->
  in_cooldown (config h) s (now env) = false ->
  handlePotentialViolation env e activity v h =
    (Normal tt,
     with_sessions h
       (JsMap.set e (record_violation s (now env)) (activeSessions h)),
     response env e s activity v).
Proof.
  intros G C. unfold handlePotentialViolation, MonitoringAlert_save, response.
  step_monad. rewrite G, C.
  destruct (io_present env), (alert_save_ok env); reflexivity.
Qed.

(** The violation response leaves the activity buffers alone and
    writes no activity batch. *)
Lemma violation_frame env e activity v h :
  completion_of (handlePotentialViolation env e activity v h) = Normal tt /\
  activityBuffer (state_of (handlePotentialViolation env e activity v h))
    = activityBuffer h /\
  config (state_of (handlePotentialViolation env e activity v h)) = config h /\
  batches_of (trace_of (handlePotentialViolation env e activity v h)) = [].
Proof.
  destruct (JsMap.get e (activeSessions h)) as [s|] eqn:G.
  - destruct (in_cooldown (config h) s (now env)) eqn:C.
    + rewrite (violation_in_cooldown env e activity v h s G C). auto.
    + rewrite (violation_allowed env e activity v h s G C).
      unfold response.
      destruct (io_present env), (alert_save_ok env); auto.
  - rewrite (violation_no_session env e activity v h G). auto.
Qed.

Section WithBuiltins.

Variable RegExp_i : string -> option (string -> bool).
Variable Date_parse : string -> option Z.
Variable Buffer_from_base64 : string -> string.

(** *** [checkActivityCompliance] *)

Lemma find_matching {A : Type} (p : A -> bool) (l : list A) (x : A) :
  In x l -> p x = true -> exists y, find p l = Some y.
Proof.
  induction l as [|a l IH]; simpl; [tauto|].
  intros [->|I] T.
  - rewrite T. eauto.
  - destruct (p a); eauto.
Qed.

(** C1. When the activity matches an allow-entry (equal URL, equal
    domain, or the entry's URL matched by the domain pattern), the
    compliance check returns without a violation response: the
    handler state is unchanged, no alert is saved and nothing is
    emitted, whatever the violation lists say about the activity. *)
Theorem whitelist_takes_precedence
  (env : Env) (employeeId : string) (activity : Activity) (h : Handler) :
  matches_whitelist RegExp_i env activity ->
  let r := checkActivityCompliance RegExp_i env employeeId activity h in
  completion_of r = Normal tt /\
  state_of r = h /\
  alerts_of (trace_of r) = [] /\
  emitted (trace_of r) = [] /\
  (RegExp_i (JS.escape_dots (act_domain activity)) <> None ->
   trace_of r = []).
Proof.
  intros [entry [I Q]] r. subst r.
  unfold checkActivityCompliance, new_RegExp_i, WebsiteWhitelist_findOne.
  step_monad.
  destruct (RegExp_i (JS.escape_dots (act_domain activity))) as [re|] eqn:R;
    simpl.
  - assert (T : whitelist_query re activity entry = true).
    { unfold whitelist_query.
      destruct Q as [Q|[Q|[re' [R' Q]]]].
      + rewrite Q, String.eqb_refl. reflexivity.
      + rewrite Q, String.eqb_refl. apply orb_true_iff. left.
        apply orb_true_r.
      + assert (re' = re) by congruence. subst re'.
        rewrite Q. apply orb_true_r. }
    destruct (find_matching _ _ _ I T) as [y F].
    rewrite F. simpl. repeat split; auto.
  - repeat split; auto. congruence.
Qed.

(** *** Cooldown *)




(** *** Flush *)

Lemma push_all_appends e records :
  forall pre h,
    JsMap.get e (activityBuffer h) = Some pre ->
    exists h',
      push_all e records h = (Normal tt, h', []) /\
      JsMap.get e (activityBuffer h') = Some (pre ++ records) /\
      activeSessions h' = activeSessions h /\
      config h' = config h.
Proof.
  induction records as [|r rs IH]; intros pre h G; simpl.
  - exists h. rewrite app_nil_r. auto.
  - unfold buffer_push. step_monad. rewrite G. simpl.
    set (h1 := with_buffer h (JsMap.set e (pre ++ [r]) (activityBuffer h))).
    destruct (IH (pre ++ [r]) h1) as [h' [P [B [A K]]]].
    { apply JsMapFacts.get_set_eq. }
    fold h1. rewrite P. simpl.
    exists h'. rewrite <- app_assoc in B. simpl in B. auto.
Qed.

(** C4. After N records were enqueued for a subject, a flush whose
    batch insert succeeds persists exactly those records, in enqueue
    order, as one batch, and leaves the buffer empty; a flush whose
    insert fails leaves the whole handler state as it was, persists
    nothing, logs the error and completes normally, so that the next
    successful flush persists each record once. *)
Theorem flush_persists_batch_or_retains
  (env : Env) (e : string) (h0 : Handler) (records : list ActivityRecord) :
  JsMap.get e (activityBuffer h0) = Some [] ->
  let h := state_of (push_all e records h0) in
  let r := flushActivities env e h in
  JsMap.get e (activityBuffer h) = Some records /\
  completion_of r = Normal tt /\
  (insertMany_ok env = true ->
     concat (batches_of (trace_of r)) = records /\
     (records <> [] -> batches_of (trace_of r) = [records]) /\
     JsMap.get e (activityBuffer (state_of r)) = Some []) /\
  (insertMany_ok env = false ->
     state_of r = h /\
     batches_of (trace_of r) = [] /\
     (records <> [] ->
        trace_of r = [Console error "Error flushing activities"]) /\
     forall env',
       insertMany_ok env' = true ->
       concat (batches_of
                 (trace_of r ++
                  trace_of (flushActivities env' e (state_of r))))
         = records).
Proof.
  intros G0 h r.
  destruct (push_all_appends e records [] h0 G0) as [h' [P [B _]]].
  assert (Hh : h = h') by (unfold h; rewrite P; reflexivity).
  simpl in B. rewrite <- Hh in B. clearbody h. clear P Hh h'.
  split; [exact B|].
  split; [apply flush_frame|].
  destruct records as [|x xs].
  - assert (E : r = (Normal tt, h, [])) by (apply flush_empty; exact B).
    rewrite E. unfold state_of, trace_of. simpl.
    split; intros O.
    + repeat split; auto. congruence.
    + repeat split; auto; try congruence.
      intros env' O'. rewrite (flush_empty env' e h B). reflexivity.
  - split; intros O.
    + assert (E : r = (Normal tt,
                       with_buffer h (JsMap.set e [] (activityBuffer h)),
                       [InsertMany (x :: xs)]))
        by (eapply flush_success; (eassumption || congruence)).
      rewrite E. unfold state_of, trace_of. simpl.
      rewrite app_nil_r. repeat split; auto.
      apply JsMapFacts.get_set_eq.
    + assert (E : r = (Normal tt, h,
                       [Console error "Error flushing activities"]))
        by (eapply flush_failure; (eassumption || congruence)).
      rewrite E. unfold state_of, trace_of. simpl.
      repeat split; auto.
      intros env' O'.
      rewrite (flush_success env' e h (x :: xs) B) by (congruence || assumption).
      simpl.
      now rewrite app_nil_r.
Qed.

(** *** Size-triggered flush *)

(** The compliance check, case by case.  The violation response
    never throws, so the enclosing [try] passes its result on. *)
Lemma compliance_unfold env e activity h :
  checkActivityCompliance RegExp_i env e activity h =
  match RegExp_i (JS.escape_dots (act_domain activity)) with
  | None =>
      (Normal tt, h, [Console error "Error checking activity compliance"])
  | Some re =>
      if JS.truthy_obj (find (whitelist_query re activity) (whitelist env))
      then (Normal tt, h, [])
      else if isExplicitViolation activity
              || negb (isWorkRelatedActivity activity)
      then handlePotentialViolation env e activity
             (if isExplicitViolation activity
              then "explicit_violation" else "non_work_activity") h
      else (Normal tt, h, [])
  end.
Proof.
  unfold checkActivityCompliance, new_RegExp_i, WebsiteWhitelist_findOne.
  unfold try_catch at 1. unfold bind at 1.
  destruct (RegExp_i (JS.escape_dots (act_domain activity))) as [re|];
    [|reflexivity].
  unfold ret at 1.
  destruct (JS.truthy_obj
              (find (whitelist_query re activity) (whitelist env)));
    [reflexivity|].
  destruct (isExplicitViolation activity
            || negb (isWorkRelatedActivity activity));
    [|reflexivity].
  match goal with
  | |- context [handlePotentialViolation ?a ?b ?c ?d ?h] =>
      pose proof (violation_frame a b c d h) as F;
      destruct (handlePotentialViolation a b c d h) as [[cpl st] fx]
  end.
  unfold completion_of in F. simpl in F.
  destruct F as [F _]. subst cpl. reflexivity.
Qed.

(** The compliance check never throws, leaves the activity buffers
    and the configuration alone and writes no activity batch. *)
Lemma compliance_frame env e activity h :
  completion_of (checkActivityCompliance RegExp_i env e activity h)
    = Normal tt /\
  activityBuffer
    (state_of (checkActivityCompliance RegExp_i env e activity h))
    = activityBuffer h /\
  batches_of (trace_of (checkActivityCompliance RegExp_i env e activity h))
    = [].
Proof.
  rewrite compliance_unfold.
  destruct (RegExp_i (JS.escape_dots (act_domain activity))) as [re|];
    [|auto].
  destruct (JS.truthy_obj
              (find (whitelist_query re activity) (whitelist env)));
    [auto|].
  destruct (isExplicitViolation activity
            || negb (isWorkRelatedActivity activity));
    [|auto].
  match goal with
  | |- context [handlePotentialViolation ?a ?b ?c ?d ?h] =>
      destruct (violation_frame a b c d h) as [F1 [F2 [_ F4]]]
  end.
  auto.
Qed.

Lemma activity_update_unfold env socket e sid activity h s buf :
  JsMap.get e (activeSessions h) = Some s ->
  JsMap.get e (activityBuffer h) = Some buf ->
  let record := browser_activity e sid (act_timestamp activity) activity in
  let h1 :=
    with_buffer
      (with_sessions h
         (JsMap.set e (set_lastActivity s activity) (activeSessions h)))
      (JsMap.set e (buf ++ [record]) (activityBuffer h)) in
  let rf :=
    if maxActivityBuffer (config h) <=? Z.of_nat (length (buf ++ [record]))
    then flushActivities env e h1
    else (Normal tt, h1, []) in
  let rc := checkActivityCompliance RegExp_i env e activity (state_of rf) in
  handleActivityUpdate RegExp_i env socket e sid activity h =
    (Normal tt, state_of rc, trace_of rf ++ trace_of rc).
Proof.
  intros G B record h1 rf rc.
  unfold handleActivityUpdate, buffer_push, buffer_length.
  unfold try_catch, bind, get_state, modify, when, ret, tell, throw.
  rewrite G. cbn beta iota. cbn [activityBuffer with_sessions with_buffer fst snd].
  rewrite B. cbn beta iota zeta. cbn [activityBuffer with_sessions with_buffer app].
  rewrite JsMapFacts.get_set_eq. cbn beta iota zeta. cbn [app].
  fold record. fold h1.
  subst rc. subst rf.
  destruct (maxActivityBuffer (config h) <=? Z.of_nat (Datatypes.length (buf ++ [record]))).
  - destruct (flush_frame env e h1) as [F _].
    destruct (flushActivities env e h1) as [[c1 s1] fx1].
    unfold completion_of in F. simpl in F. subst c1.
    unfold state_of, trace_of. cbn [fst snd].
    destruct (compliance_frame env e activity s1) as [K _].
    destruct (checkActivityCompliance RegExp_i env e activity s1)
      as [[c2 s2] fx2].
    unfold completion_of in K. simpl in K. subst c2.
    reflexivity.
  - unfold state_of, trace_of. cbn [fst snd].
    destruct (compliance_frame env e activity h1) as [K _].
    destruct (checkActivityCompliance RegExp_i env e activity h1)
      as [[c2 s2] fx2].
    unfold completion_of in K. simpl in K. subst c2.
    reflexivity.
Qed.


Lemma batches_of_app t1 t2 :
  batches_of (t1 ++ t2) = batches_of t1 ++ batches_of t2.
Proof. unfold batches_of. apply flat_map_app. Qed.

(** C5, amended.  An activity update for a subject with a session
    and a buffer appends one record to that subject's buffer and
    touches no other subject's buffer.  While the buffer stays below
    the configured maximum nothing is flushed.  When it reaches the
    maximum, that subject's buffer, and only it, is flushed at once:
    if the batch insert succeeds the whole buffer is persisted as one
    batch and the buffer is left empty, so the enqueue leaves it
    empty or shorter than the maximum; if the insert fails the
    records stay in the buffer. *)
Theorem activity_update_flushes_at_capacity
  (env : Env) (socket e sid : string) (activity : Activity)
  (h : Handler) (s : Session) (buf : list ActivityRecord) :
  JsMap.get e (activeSessions h) = Some s ->
  JsMap.get e (activityBuffer h) = Some buf ->
  let record := browser_activity e sid (act_timestamp activity) activity in
  let r := handleActivityUpdate RegExp_i env socket e sid activity h in
  let after := JsMap.get e (activityBuffer (state_of r)) in
  (forall e', e' <> e ->
     JsMap.get e' (activityBuffer (state_of r))
     = JsMap.get e' (activityBuffer h)) /\
  (Z.of_nat (length (buf ++ [record])) < maxActivityBuffer (config h) ->
     batches_of (trace_of r) = [] /\ after = Some (buf ++ [record])) /\
  (maxActivityBuffer (config h) <= Z.of_nat (length (buf ++ [record])) ->
     (insertMany_ok env = true ->
        batches_of (trace_of r) = [buf ++ [record]] /\ after = Some []) /\
     (insertMany_ok env = false ->
        batches_of (trace_of r) = [] /\ after = Some (buf ++ [record]))) /\
  (insertMany_ok env = true ->
     exists left,
       after = Some left /\
       (left = [] \/
        Z.of_nat (length left) < maxActivityBuffer (config h))).
Proof.
  intros G B record r after. subst after r.
  rewrite (activity_update_unfold env socket e sid activity h s buf G B).
  fold record.
  set (h1 := with_buffer
               (with_sessions h
                  (JsMap.set e (set_lastActivity s activity)
                             (activeSessions h)))
               (JsMap.set e (buf ++ [record]) (activityBuffer h))).
  assert (B1 : JsMap.get e (activityBuffer h1) = Some (buf ++ [record]))
    by apply JsMapFacts.get_set_eq.
  assert (N1 : buf ++ [record] <> [])
    by (intros E; symmetry in E; revert E; apply app_cons_not_nil).
  assert (O1 : forall e', e' <> e ->
                 JsMap.get e' (activityBuffer h1)
                 = JsMap.get e' (activityBuffer h))
    by (intros e' N; simpl; now apply JsMapFacts.get_set_ne).
  rewrite !state_of_is, !trace_of_is.
  destruct (maxActivityBuffer (config h)
            <=? Z.of_nat (length (buf ++ [record]))) eqn:Full.
  - apply Z.leb_le in Full.
    destruct (insertMany_ok env) eqn:O.
    + rewrite (flush_success env e h1 _ B1 N1 O).
      rewrite !state_of_is, !trace_of_is.
      set (h2 := with_buffer h1 (JsMap.set e [] (activityBuffer h1))).
      destruct (compliance_frame env e activity h2) as [_ [KB KT]].
      rewrite KB. rewrite !batches_of_app, KT. simpl.
      rewrite JsMapFacts.get_set_eq.
      repeat split; try (intros; lia); try congruence; auto.
      * intros e' N. rewrite JsMapFacts.get_set_ne by assumption. auto.
      * exists []. auto.
    + rewrite (flush_failure env e h1 _ B1 N1 O).
      rewrite !state_of_is, !trace_of_is.
      destruct (compliance_frame env e activity h1) as [_ [KB KT]].
      rewrite KB. rewrite !batches_of_app, KT. simpl.
      repeat split; try (intros; lia); try congruence; auto.
  - apply Z.leb_gt in Full.
    rewrite !state_of_is, !trace_of_is.
    destruct (compliance_frame env e activity h1) as [_ [KB KT]].
    rewrite KB. rewrite !batches_of_app, KT. simpl.
    repeat split; try (intros; lia); auto.
    intros _. exists (buf ++ [record]). auto.
Qed.

(** *** Capture pipeline *)

Lemma analysis_unfold env e capture md h :
  analyzeViolationScreenshot env e capture md h =
    (Normal tt, h, analysis_trace env capture).
Proof.
  unfold analyzeViolationScreenshot, analysis_trace, ocr_step, ai_step,
         ScreenCapture_save, ocr_trace, ai_trace, ocr_text_of,
         ai_analysis_of.
  step_monad.
  destruct (ocr_service env), (ai_service env), (analysis_save_ok env);
    reflexivity.
Qed.

Local Abbreviation ingest :=
  (handleScreenshotCaptured Date_parse Buffer_from_base64).

Lemma ingest_rejected env socket d h :
  missing_required d = true ->
  ingest env socket (Some d) h =
    (Normal tt, h,
     [Console error "Error handling screenshot";
      Emit (to_socket socket)
           (screenshot_error "Missing required screenshot data"
              (JS.str_or (sd_trigger d) "unknown")
              (error_details (Some d)))]).
Proof.
  intros V. unfold handleScreenshotCaptured. step_monad.
  rewrite V. reflexivity.
Qed.

Lemma ingest_accepted env socket d md h :
  missing_required d = false ->
  sd_metadata d = Some md ->
  ingest env socket (Some d) h =
    let employeeId := JS.str_or (sd_employeeId d) "" in
    let imageBuffer :=
      Buffer_from_base64 (strip_data_url (JS.str_or (sd_imageData d) "")) in
    let upload :=
      Upload (is_violation (sd_trigger d)) employeeId imageBuffer
             (JS.str_or (md_title md) "Unknown Application")
             (JS.str_or (md_url md) "unknown") in
    let failed message :=
      [Console error "Error handling screenshot";
       Emit (to_socket socket)
            (screenshot_error message (JS.str_or (sd_trigger d) "unknown")
                              (error_details (Some d)))] in
    match upload_result env with
    | None => (Normal tt, h, failed "Upload failed")
    | Some u =>
        let capture :=
          new_ScreenCapture Date_parse env employeeId
            (JS.str_or (sd_sessionId d) "") (sd_trigger d) imageBuffer md u in
        if capture_save_ok env then
          (Normal tt, h,
           [upload; SaveCapture capture] ++
           (if is_violation (sd_trigger d)
            then analysis_trace env capture else []) ++
           [Emit (to_socket socket)
                 (screenshot_processed true (sc_id capture)
                    (cloudinary_public_id u) (sd_trigger d))])
        else
          (Normal tt, h, upload :: failed "ScreenCapture validation failed")
    end.
Proof.
  intros V Md. unfold handleScreenshotCaptured, uploadScreenshot,
                      ScreenCapture_save.
  unfold try_catch, bind, when, ret, tell, throw.
  rewrite V, Md. cbv zeta.
  destruct (upload_result env) as [u|]; [|reflexivity].
  destruct (capture_save_ok env); [|reflexivity].
  destruct (is_violation (sd_trigger d)); [|reflexivity].
  rewrite analysis_unfold. reflexivity.
Qed.

(** C6. An ingest call in which the employee id, the session id, the
    image data or the metadata is missing (or empty) is rejected
    before any upload or write: the handler state is unchanged, the
    trace holds only the logged error and one [screenshot-error] sent
    to the caller, no capture document is created, and the error
    carries one boolean flag per required field, each telling whether
    that field was there; without image data, [hasImageData] is
    false. *)
Theorem ingest_rejects_missing_fields
  (env : Env) (socket : string) (d : ScreenshotData) (h : Handler) :
  JS.truthy_str (sd_employeeId d) = false \/
  JS.truthy_str (sd_sessionId d) = false \/
  JS.truthy_str (sd_imageData d) = false \/
  sd_metadata d = None ->
  let r := ingest env socket (Some d) h in
  let details := {|
    hasEmployeeId := JS.truthy_str (sd_employeeId d);
    hasSessionId := JS.truthy_str (sd_sessionId d);
    hasImageData := JS.truthy_str (sd_imageData d);
    hasMetadata := JS.truthy_obj (sd_metadata d);
    metadataKeys :=
      match sd_metadata d with
      | Some metadata => metadata_keys metadata
      | None => []
      end |} in
  completion_of r = Normal tt /\
  state_of r = h /\
  trace_of r =
    [Console error "Error handling screenshot";
     Emit (to_socket socket)
          (screenshot_error "Missing required screenshot data"
             (JS.str_or (sd_trigger d) "unknown") details)] /\
  uploads_of (trace_of r) = [] /\
  captures_of (trace_of r) = [] /\
  (JS.truthy_str (sd_imageData d) = false -> hasImageData details = false).
Proof.
  intros Missing r details.
  assert (V : missing_required d = true).
  { unfold missing_required.
    destruct Missing as [E|[E|[E|E]]]; rewrite E; simpl;
      rewrite ?orb_true_r; reflexivity. }
  subst r. rewrite (ingest_rejected env socket d h V).
  repeat split; auto.
Qed.

Lemma captures_of_app t1 t2 :
  captures_of (t1 ++ t2) = captures_of t1 ++ captures_of t2.
Proof. unfold captures_of. apply flat_map_app. Qed.

(** The captures written by the analysis step carry the timestamp of
    the document they update. *)
Lemma analysis_captures env capture c :
  In c (captures_of (analysis_trace env capture)) ->
  sc_timestamp c = sc_timestamp capture.
Proof.
  unfold analysis_trace, ocr_trace, ai_trace.
  rewrite !captures_of_app.
  destruct (ocr_service env), (ai_service env), (analysis_save_ok env);
    simpl; intros I; try contradiction;
    (destruct I as [<-|[]]; reflexivity).
Qed.

(** C7, amended.  Every capture document written by an ingest call
    carries a valid timestamp, the one computed by the normalisation
    block: the ingestion time when [metadata.timestamp] is absent,
    empty or does not parse, and otherwise the time the client gave,
    as it is (no comparison with the current time is made).  A call
    that passes validation and whose upload and save succeed does
    write a document. *)
Theorem capture_timestamp_normalized
  (env : Env) (socket : string) (d : ScreenshotData) (md : Metadata)
  (h : Handler) :
  sd_metadata d = Some md ->
  let r := ingest env socket (Some d) h in
  (forall c, In c (captures_of (trace_of r)) ->
             sc_timestamp c = validTimestamp Date_parse env md) /\
  (truthy_ts (md_timestamp md) = false \/
   new_Date Date_parse (md_timestamp md) = None ->
   validTimestamp Date_parse env md = now env) /\
  (forall t, truthy_ts (md_timestamp md) = true ->
             new_Date Date_parse (md_timestamp md) = Some t ->
             validTimestamp Date_parse env md = t) /\
  (missing_required d = false ->
   upload_result env <> None ->
   capture_save_ok env = true ->
   captures_of (trace_of r) <> []).
Proof using Date_parse Buffer_from_base64.
  intros Md r. subst r.
  split; [|split; [|split]].
  - intros c.
    destruct (missing_required d) eqn:V.
    + rewrite (ingest_rejected env socket d h V). simpl. intros [].
    + rewrite (ingest_accepted env socket d md h V Md). cbv zeta.
      destruct (upload_result env) as [u|]; [|simpl; intros []].
      destruct (capture_save_ok env); [|simpl; intros []].
      rewrite trace_of_is. rewrite !captures_of_app.
      simpl captures_of at 1. intros I.
      apply in_app_or in I. destruct I as [[<-|[]]|I]; [reflexivity|].
      apply in_app_or in I. destruct I as [I|I]; [|destruct I].
      destruct (is_violation (sd_trigger d)); [|destruct I].
      apply analysis_captures in I. exact I.
  - unfold validTimestamp. intros [F|N].
    + now rewrite F.
    + rewrite N. now destruct (truthy_ts (md_timestamp md)).
  - unfold validTimestamp. intros t T P. now rewrite T, P.
  - intros V U Sv.
    rewrite (ingest_accepted env socket d md h V Md). cbv zeta.
    destruct (upload_result env) as [u|]; [|exfalso; apply U; reflexivity].
    rewrite Sv. rewrite trace_of_is. simpl. discriminate.
Qed.

(** C8, amended.  For an ingest of a violation screenshot that passes
    validation, upload and save, the handler awaits the analysis step
    before it acknowledges: the trace is the upload, the write of the
    document, the effects of the analysis step, and the
    [screenshot-processed] acknowledgment last.  The acknowledgment is
    sent whatever the analysis collaborators do (missing, without the
    method, throwing, or the second write failing).  When the AI
    collaborator is missing, lacks the method or throws, the analysis
    saved with the document is the default one: confidence 0.5,
    activity type "violation". *)
Theorem acknowledgment_follows_analysis
  (env : Env) (socket : string) (d : ScreenshotData) (md : Metadata)
  (u : UploadResult) (h : Handler) :
  missing_required d = false ->
  sd_metadata d = Some md ->
  is_violation (sd_trigger d) = true ->
  upload_result env = Some u ->
  capture_save_ok env = true ->
  let employeeId := JS.str_or (sd_employeeId d) "" in
  let imageBuffer :=
    Buffer_from_base64 (strip_data_url (JS.str_or (sd_imageData d) "")) in
  let capture :=
    new_ScreenCapture Date_parse env employeeId
      (JS.str_or (sd_sessionId d) "") (sd_trigger d) imageBuffer md u in
  let r := ingest env socket (Some d) h in
  completion_of r = Normal tt /\
  trace_of r =
    [Upload true employeeId imageBuffer
            (JS.str_or (md_title md) "Unknown Application")
            (JS.str_or (md_url md) "unknown");
     SaveCapture capture] ++
    analysis_trace env capture ++
    [Emit (to_socket socket)
          (screenshot_processed true (sc_id capture)
             (cloudinary_public_id u) (sd_trigger d))] /\
  ((forall a, ai_service env <> returns a) ->
   analysis_save_ok env = true ->
   exists updated,
     In (SaveCapture updated) (analysis_trace env capture) /\
     sc_id updated = sc_id capture /\
     sc_ai_analysis updated =
       Some {| confidence := (1, 2)%positive;
               activityType := "violation";
               activityDescription := "Policy violation detected";
               alertReason := "unauthorized_access" |}).
Proof.
  intros V Md Vi U Sv employeeId imageBuffer capture r. subst r.
  rewrite (ingest_accepted env socket d md h V Md). cbv zeta.
  rewrite U, Sv, Vi.
  fold employeeId. fold imageBuffer. fold capture.
  split; [reflexivity|]. split; [reflexivity|].
  intros NoAi Sa.
  exists (attach_analysis env capture default_aiAnalysis (ocr_text_of env)).
  split; [|split; reflexivity].
  unfold analysis_trace. rewrite Sa.
  assert (A : ai_analysis_of env = default_aiAnalysis).
  { unfold ai_analysis_of. destruct (ai_service env) as [| | |a]; auto.
    exfalso. apply (NoAi a). reflexivity. }
  rewrite A.
  apply in_or_app. right. apply in_or_app. right. simpl. auto.
Qed.

(** *** Disconnect *)

Lemma has_set_same {V : Type} (m : JsMap.t V) k k' v :
  JsMap.has k m = true ->
  JsMap.has k' (JsMap.set k v m) = JsMap.has k' m.
Proof.
  unfold JsMap.has. intros Hk. rewrite JsMapFacts.get_set.
  destruct (String.eqb k' k) eqn:E; auto.
  apply String.eqb_eq in E. subst k'.
  destruct (JsMap.get k m); congruence.
Qed.

(** A flush never adds or removes a buffer entry. *)
Lemma flush_keeps_entries env e h k :
  JsMap.has k (activityBuffer (state_of (flushActivities env e h)))
  = JsMap.has k (activityBuffer h).
Proof.
  destruct (JsMap.get e (activityBuffer h)) as [[|x xs]|] eqn:G.
  - now rewrite (flush_empty env e h G).
  - destruct (insertMany_ok env) eqn:O.
    + rewrite (flush_success env e h (x :: xs) G) by (congruence || assumption).
      rewrite state_of_is. simpl. apply has_set_same.
      unfold JsMap.has. now rewrite G.
    + now rewrite (flush_failure env e h (x :: xs) G)
        by (congruence || assumption).
  - now rewrite (flush_absent env e h G).
Qed.

(** The disconnect handler never removes a buffer entry. *)
Lemma disconnect_keeps_buffer_entries env socket h k :
  JsMap.has k (activityBuffer (state_of (handleClientDisconnect env socket h)))
  = JsMap.has k (activityBuffer h).
Proof.
  unfold handleClientDisconnect.
  unfold bind at 1. unfold get_state.
  destruct (JsMap.find_first
              (fun session => String.eqb (socketId session) socket)
              (activeSessions h)) as [[e s]|]; [|reflexivity].
  unfold bind, modify.
  pose proof (flush_keeps_entries env e h k) as K.
  destruct (flush_frame env e h) as [F _].
  destruct (flushActivities env e h) as [[c st] fx].
  rewrite completion_of_is in F. subst c.
  rewrite state_of_is in *. simpl. exact K.
Qed.

End WithBuiltins.

End HandlerFacts.

(** ** The server-side capture *)

Module CaptureFacts.
Import ScreenCaptureService.

Section WithDigest.

Variable md5_hex : string -> string.

(** Taking the screenshot leaves [captureConfig] alone and neither
    uploads nor writes. *)
Lemma take_screenshot_frame env cfg :
  state_of (take_screenshot env cfg) = cfg /\
  uploads_of (trace_of (take_screenshot env cfg)) = [] /\
  captures_of (trace_of (take_screenshot env cfg)) = [].
Proof.
  unfold take_screenshot, createPlaceholderScreenshot, of_option.
  unfold try_catch, bind, ret, throw, tell.
  destruct (isHeadless env), (screenshot env), (placeholder env);
    simpl; auto.
Qed.

(** C10. When taking the screenshot yields bytes whose MD5 digest is
    the [lastCaptureHash] of the capture session, a capture with
    trigger 'scheduled' returns [null]: nothing is uploaded, no
    capture document is written and [captureConfig] is unchanged.
    With any other trigger the skip does not apply: when the
    collaborators succeed the capture is compressed, uploaded and
    written, with that trigger and that same digest. *)
Theorem unchanged_scheduled_capture_is_skipped
  (svc : Service) (env : Env) (metadata : CaptureMetadata)
  (cfg : CaptureConfig) (buffer : string) (isPlaceholder : bool) :
  completion_of (take_screenshot env cfg) = Normal (buffer, isPlaceholder) ->
  lastCaptureHash cfg = Some (md5_hex buffer) ->
  let skipped := captureScreen md5_hex svc env "scheduled" metadata cfg in
  completion_of skipped = Normal None /\
  state_of skipped = cfg /\
  uploads_of (trace_of skipped) = [] /\
  captures_of (trace_of skipped) = [] /\
  forall trigger compressedBuffer u previous,
    trigger <> "scheduled" ->
    compressed env = Some compressedBuffer ->
    upload_result env = Some u ->
    (local_backup env = true -> backup_path env <> None) ->
    previous_capture env = Some previous ->
    save_ok env = true ->
    alert_ok env = true ->
    let r := captureScreen md5_hex svc env trigger metadata cfg in
    exists doc,
      completion_of r = Normal (Some doc) /\
      sc_file_hash doc = md5_hex buffer /\
      sc_capture_trigger doc = trigger /\
      In (Upload (employeeId cfg) compressedBuffer
                 (JS.str_or (active_application_name metadata) "unknown"))
         (trace_of r) /\
      captures_of (trace_of r) = [doc] /\
      lastCaptureHash (state_of r) = Some (md5_hex buffer) /\
      captureCount (state_of r) = captureCount cfg + 1.
Proof.
  intros T L skipped.
  destruct (take_screenshot_frame env cfg) as [S0 [U0 C0]].
  destruct (take_screenshot env cfg) as [[c0 s0] fx0] eqn:E.
  rewrite completion_of_is in T. rewrite state_of_is in S0.
  rewrite trace_of_is in U0, C0. subst c0 s0.
  split; [|split; [|split; [|split]]].
  - subst skipped. unfold captureScreen.
    unfold try_catch, bind at 1 2, get_state. rewrite E.
    unfold no_screen_change. cbn [fst]. rewrite L, !String.eqb_refl.
    reflexivity.
  - subst skipped. unfold captureScreen.
    unfold try_catch, bind at 1 2, get_state. rewrite E.
    unfold no_screen_change. cbn [fst]. rewrite L, !String.eqb_refl.
    reflexivity.
  - subst skipped. unfold captureScreen.
    unfold try_catch, bind at 1 2, get_state. rewrite E.
    unfold no_screen_change. cbn [fst]. rewrite L, !String.eqb_refl.
    simpl. rewrite app_nil_r. exact U0.
  - subst skipped. unfold captureScreen.
    unfold try_catch, bind at 1 2, get_state. rewrite E.
    unfold no_screen_change. cbn [fst]. rewrite L, !String.eqb_refl.
    simpl. rewrite app_nil_r. exact C0.
  - intros trigger cb u previous NS Cp Up Bk Pv Sv Al r. subst r.
    apply String.eqb_neq in NS.
    unfold captureScreen, of_option, MonitoringAlert_createAlert.
    unfold try_catch, bind, get_state, modify, when, ret, tell, throw.
    rewrite E. unfold no_screen_change. cbn [fst].
    rewrite NS, andb_false_r. rewrite Cp, Up, Pv, Sv, Al.
    destruct (local_backup env) eqn:Lb.
    + destruct (backup_path env) as [bp|] eqn:Bp;
        [|exfalso; now apply Bk].
      destruct (maxFileSize svc <? file_size u);
        (eexists; unfold completion_of, state_of, trace_of; cbn [fst snd];
         repeat split;
         [ simpl; apply in_or_app; right; simpl; auto
         | simpl; unfold captures_of; rewrite flat_map_app;
           fold (captures_of fx0); rewrite C0; reflexivity ]).
    + destruct (maxFileSize svc <? file_size u);
        (eexists; unfold completion_of, state_of, trace_of; cbn [fst snd];
         repeat split;
         [ simpl; apply in_or_app; right; simpl; auto
         | simpl; unfold captures_of; rewrite flat_map_app;
           fold (captures_of fx0); rewrite C0; reflexivity ]).
Qed.

End WithDigest.

End CaptureFacts.

(** ** The properties on concrete events *)

Module Scenarios.
Import ClientMonitoringHandler Examples.

Lemma whitelist_takes_precedence_witness :
  isExplicitViolation facebook_feed = true /\
  let r := checkActivityCompliance Builtins.RegExp_i allow_facebook "emp1"
                                   facebook_feed started in
  completion_of r = Normal tt /\
  state_of r = started /\
  alerts_of (trace_of r) = [] /\
  emitted (trace_of r) = [] /\
  (Builtins.RegExp_i (JS.escape_dots (act_domain facebook_feed)) <> None ->
   trace_of r = []).
Proof.
  split; [reflexivity|].
  apply (HandlerFacts.whitelist_takes_precedence
           Builtins.RegExp_i allow_facebook "emp1" facebook_feed started).
  exists {| wl_url := "https://www.facebook.com"; wl_domain := "facebook.com" |}.
  split; [left; reflexivity|].
  right; right. eexists. split; reflexivity.
Defined.



Lemma flush_persists_batch_or_retains_witness :
  let records :=
    [visibility_change "emp1" "sess1" "2025-07-29T10:31:00.000Z" false;
     focus_change "emp1" "sess1" "2025-07-29T10:31:05.000Z" true] in
  let env := database_down calm in
  let h := state_of (push_all "emp1" records started) in
  let r := flushActivities env "emp1" h in
  JsMap.get "emp1" (activityBuffer h) = Some records /\
  completion_of r = Normal tt /\
  (insertMany_ok env = true ->
     concat (batches_of (trace_of r)) = records /\
     (records <> [] -> batches_of (trace_of r) = [records]) /\
     JsMap.get "emp1" (activityBuffer (state_of r)) = Some []) /\
  (insertMany_ok env = false ->
     state_of r = h /\
     batches_of (trace_of r) = [] /\
     (records <> [] ->
        trace_of r = [Console error "Error flushing activities"]) /\
     forall env',
       insertMany_ok env' = true ->
       concat (batches_of
                 (trace_of r ++
                  trace_of (flushActivities env' "emp1" (state_of r))))
         = records).
Proof.
  apply (HandlerFacts.flush_persists_batch_or_retains
           (database_down calm) "emp1" started
           [visibility_change "emp1" "sess1" "2025-07-29T10:31:00.000Z" false;
            focus_change "emp1" "sess1" "2025-07-29T10:31:05.000Z" true]).
  reflexivity.
Defined.

(** C5, as stated, fails.  After 101 visibility changes the buffer of
    the subject holds 101 records, more than the maximum of 100, and
    nothing was flushed; and 101 activity updates while the database
    refuses the batch leave 101 records as well. *)
Lemma enqueue_can_exceed_maximum :
  let r := run_ (repeat hidden 101) started in
  let r' := run_ (repeat update_while_database_down 101) started in
  (exists buffer,
     JsMap.get "emp1" (activityBuffer (state_of r)) = Some buffer /\
     maxActivityBuffer (config (state_of r)) < Z.of_nat (length buffer) /\
     batches_of (trace_of r) = []) /\
  (exists buffer,
     JsMap.get "emp1" (activityBuffer (state_of r')) = Some buffer /\
     maxActivityBuffer (config (state_of r')) < Z.of_nat (length buffer) /\
     batches_of (trace_of r') = []).
Proof.
  split.
  - eexists. split; [vm_compute; reflexivity|].
    split; vm_compute; reflexivity.
  - eexists. split; [vm_compute; reflexivity|].
    split; vm_compute; reflexivity.
Qed.

Lemma activity_update_flushes_at_capacity_witness :
  let buffered :=
    repeat (visibility_change "emp1" "sess1" "2025-07-29T10:31:00.000Z" false)
           99 in
  let record :=
    browser_activity "emp1" "sess1" (act_timestamp intranet_page)
                     intranet_page in
  let r := handleActivityUpdate Builtins.RegExp_i calm "sock1" "emp1" "sess1"
                                intranet_page almost_full in
  let r' := handleActivityUpdate Builtins.RegExp_i (database_down calm)
                                 "sock1" "emp1" "sess1" intranet_page
                                 almost_full in
  JsMap.get "emp1" (activityBuffer almost_full) = Some buffered /\
  maxActivityBuffer (config almost_full)
    = Z.of_nat (length (buffered ++ [record])) /\
  (batches_of (trace_of r) = [buffered ++ [record]] /\
   JsMap.get "emp1" (activityBuffer (state_of r)) = Some []) /\
  (batches_of (trace_of r') = [] /\
   JsMap.get "emp1" (activityBuffer (state_of r'))
     = Some (buffered ++ [record])).
Proof.
  cbv zeta.
  assert (G : JsMap.get "emp1" (activeSessions almost_full) = Some session1)
    by (vm_compute; reflexivity).
  assert (B : JsMap.get "emp1" (activityBuffer almost_full)
              = Some (repeat (visibility_change "emp1" "sess1"
                                "2025-07-29T10:31:00.000Z" false) 99))
    by (vm_compute; reflexivity).
  split; [exact B|]. split; [vm_compute; reflexivity|].
  split.
  - destruct (HandlerFacts.activity_update_flushes_at_capacity
                Builtins.RegExp_i calm "sock1" "emp1" "sess1" intranet_page
                almost_full session1 _ G B) as [_ [_ [Full _]]].
    apply Full; [vm_compute; discriminate|reflexivity].
  - destruct (HandlerFacts.activity_update_flushes_at_capacity
                Builtins.RegExp_i (database_down calm) "sock1" "emp1" "sess1"
                intranet_page almost_full session1 _ G B) as [_ [_ [Full _]]].
    apply Full; [vm_compute; discriminate|reflexivity].
Defined.

Lemma ingest_rejects_missing_fields_witness :
  let r := ingest_ calm "sock1" (Some shot_without_image) started in
  let details := {|
    hasEmployeeId := true;
    hasSessionId := true;
    hasImageData := false;
    hasMetadata := true;
    metadataKeys := ["url"; "title"; "width"; "height"; "fileSize"] |} in
  completion_of r = Normal tt /\
  state_of r = started /\
  trace_of r =
    [Console error "Error handling screenshot";
     Emit (to_socket "sock1")
          (screenshot_error "Missing required screenshot data" "violation"
                            details)] /\
  uploads_of (trace_of r) = [] /\
  captures_of (trace_of r) = [] /\
  (JS.truthy_str (sd_imageData shot_without_image) = false ->
   hasImageData details = false).
Proof.
  apply (HandlerFacts.ingest_rejects_missing_fields
           Builtins.Date_parse Builtins.Buffer_from_base64
           calm "sock1" shot_without_image started).
  right; right; left. reflexivity.
Defined.

(** C7, as stated, fails.  A client timestamp in the year 2999 parses,
    and the capture document is stored with it, long after the
    ingestion time. *)
Lemma future_client_timestamp_is_stored :
  let r := ingest_ calm "sock1" (Some shot_from_the_future) started in
  map sc_timestamp (captures_of (trace_of r)) = [32472144000000] /\
  ~ (forall c, In c (captures_of (trace_of r)) -> sc_timestamp c <= now calm).
Proof.
  split; [vm_compute; reflexivity|].
  intros F.
  assert (L : 32472144000000 <= now calm).
  { eapply (F (new_ScreenCapture Builtins.Date_parse calm "emp1" "sess1"
                 (Some "manual") "iVBORw0KGgo="
                 (shot_metadata (ts_string "2999-01-01T00:00:00.000Z"))
                 {| cloudinary_url := "https://res.cloudinary.com/demo/shot.png";
                    cloudinary_public_id := "violations/emp1/shot";
                    cloudinary_version := "1";
                    format := "png";
                    file_size := Some 2048;
                    width := Some 1280;
                    height := Some 720 |})).
    vm_compute. left. reflexivity. }
  vm_compute in L. apply L. reflexivity.
Qed.

Lemma capture_timestamp_normalized_witness :
  let md := shot_metadata (ts_string "not-a-date") in
  let r := ingest_ calm "sock1" (Some shot_with_bad_date) started in
  (forall c, In c (captures_of (trace_of r)) ->
             sc_timestamp c = validTimestamp Builtins.Date_parse calm md) /\
  (truthy_ts (md_timestamp md) = false \/
   new_Date Builtins.Date_parse (md_timestamp md) = None ->
   validTimestamp Builtins.Date_parse calm md = now calm) /\
  (forall t, truthy_ts (md_timestamp md) = true ->
             new_Date Builtins.Date_parse (md_timestamp md) = Some t ->
             validTimestamp Builtins.Date_parse calm md = t) /\
  (missing_required shot_with_bad_date = false ->
   upload_result calm <> None ->
   capture_save_ok calm = true ->
   captures_of (trace_of r) <> []).
Proof.
  apply (HandlerFacts.capture_timestamp_normalized
           Builtins.Date_parse Builtins.Buffer_from_base64
           calm "sock1" shot_with_bad_date
           (shot_metadata (ts_string "not-a-date")) started).
  reflexivity.
Defined.

(** The unparseable timestamp of the scenario ends up as the
    ingestion time. *)
Example not_a_date_becomes_ingestion_time :
  map sc_timestamp
      (captures_of
         (trace_of (ingest_ calm "sock1" (Some shot_with_bad_date) started)))
  = [now calm].
Proof. vm_compute. reflexivity. Qed.

(** C8, as stated, fails.  For a violation screenshot the
    acknowledgment is in the trace, and the calls of the OCR and AI
    services come before it: the handler awaits the analysis. *)
Lemma acknowledgment_waits_for_analysis :
  let r := ingest_ calm "sock1" (Some violation_shot) started in
  existsb is_acknowledgment (trace_of r) = true /\
  acknowledged_before_analysis (trace_of r) = false /\
  map is_analysis_call (trace_of r)
    = [false; false; true; true; false; false] /\
  map is_acknowledgment (trace_of r)
    = [false; false; false; false; false; true].
Proof. repeat split; vm_compute; reflexivity. Qed.

Lemma acknowledgment_follows_analysis_witness :
  let env := without_ai calm in
  let d := violation_shot in
  let md := shot_metadata ts_absent in
  let employeeId := "emp1" in
  let imageBuffer := "iVBORw0KGgo=" in
  let capture :=
    new_ScreenCapture Builtins.Date_parse env employeeId "sess1"
                      (sd_trigger d) imageBuffer md
                      {| cloudinary_url := "https://res.cloudinary.com/demo/shot.png";
                         cloudinary_public_id := "violations/emp1/shot";
                         cloudinary_version := "1";
                         format := "png";
                         file_size := Some 2048;
                         width := Some 1280;
                         height := Some 720 |} in
  let r := ingest_ env "sock1" (Some d) started in
  completion_of r = Normal tt /\
  trace_of r =
    [Upload true employeeId imageBuffer "Flash Sale" "https://example-shop.com/";
     SaveCapture capture] ++
    analysis_trace env capture ++
    [Emit (to_socket "sock1")
          (screenshot_processed true "capture-1" "violations/emp1/shot"
                                (Some "violation"))] /\
  ((forall a, ai_service env <> returns a) ->
   analysis_save_ok env = true ->
   exists updated,
     In (SaveCapture updated) (analysis_trace env capture) /\
     sc_id updated = sc_id capture /\
     sc_ai_analysis updated =
       Some {| confidence := (1, 2)%positive;
               activityType := "violation";
               activityDescription := "Policy violation detected";
               alertReason := "unauthorized_access" |}).
Proof.
  apply (HandlerFacts.acknowledgment_follows_analysis
           Builtins.Date_parse Builtins.Buffer_from_base64
           (without_ai calm) "sock1" violation_shot (shot_metadata ts_absent)
           {| cloudinary_url := "https://res.cloudinary.com/demo/shot.png";
              cloudinary_public_id := "violations/emp1/shot";
              cloudinary_version := "1";
              format := "png";
              file_size := Some 2048;
              width := Some 1280;
              height := Some 720 |} started); reflexivity.
Defined.

(** C9 on a concrete session.  After one activity, stopping the
    session and losing the connection flush the same batch and both
    remove the session; the stop removes the subject's buffer entry,
    the disconnect leaves it in the map, so the two end states
    differ. *)
Theorem disconnect_leaves_buffer_entry :
  let stopped :=
    run_ (one_visit ++
          [(calm, "sock1",
            client_monitoring_stopped (Some (stopped_data "emp1" "sess1")))])
         new_handler in
  let dropped := run_ (one_visit ++ [(calm, "sock1", disconnect)]) new_handler in
  batches_of (trace_of stopped) = batches_of (trace_of dropped) /\
  length (batches_of (trace_of dropped)) = 1%nat /\
  activeSessions (state_of stopped) = [] /\
  activeSessions (state_of dropped) = [] /\
  activityBuffer (state_of stopped) = [] /\
  activityBuffer (state_of dropped) = [("emp1", [])] /\
  state_of dropped <> state_of stopped.
Proof.
  repeat split; try (vm_compute; reflexivity).
  intros E. apply (f_equal activityBuffer) in E. vm_compute in E.
  discriminate E.
Qed.

(** The loop of the disconnect handler stops at the first session of
    the socket: a second subject announced on it keeps its session. *)
Example disconnect_cleans_first_session_only :
  JsMap.keys
    (activeSessions
       (state_of (run_ (shared_socket ++ [(calm, "sock1", disconnect)])
                       new_handler)))
  = ["emp2"].
Proof. vm_compute. reflexivity. Qed.

(** The shop scenario through the whole handler: one alert, raised as
    an explicit violation, of the generic type. *)
Example flash_sale_alert_through_the_handler :
  map (fun a => (alert_violation_type a, alert_type a, alert_severity a))
      (alerts_of
         (trace_of
            (on_ calm "sock1" (client_activity_update "emp1" "sess1" flash_sale)
                 started)))
  = [("explicit_violation", "unauthorized_website", "medium")].
Proof. vm_compute. reflexivity. Qed.

End Scenarios.

Module CaptureScenarios.
Import ScreenCaptureService CaptureExamples.

Lemma unchanged_scheduled_capture_is_skipped_witness :
  let skipped :=
    captureScreen Builtins.md5_hex default_service desktop "scheduled"
                  no_metadata unchanged in
  completion_of skipped = Normal None /\
  state_of skipped = unchanged /\
  uploads_of (trace_of skipped) = [] /\
  captures_of (trace_of skipped) = [] /\
  forall trigger compressedBuffer u previous,
    trigger <> "scheduled" ->
    compressed desktop = Some compressedBuffer ->
    upload_result desktop = Some u ->
    (local_backup desktop = true -> backup_path desktop <> None) ->
    previous_capture desktop = Some previous ->
    save_ok desktop = true ->
    alert_ok desktop = true ->
    let r := captureScreen Builtins.md5_hex default_service desktop trigger
                           no_metadata unchanged in
    exists doc,
      completion_of r = Normal (Some doc) /\
      sc_file_hash doc = Builtins.md5_hex "PNG-bytes-of-the-screen" /\
      sc_capture_trigger doc = trigger /\
      In (Upload (employeeId unchanged) compressedBuffer
                 (JS.str_or (active_application_name no_metadata) "unknown"))
         (trace_of r) /\
      captures_of (trace_of r) = [doc] /\
      lastCaptureHash (state_of r)
        = Some (Builtins.md5_hex "PNG-bytes-of-the-screen") /\
      captureCount (state_of r) = captureCount unchanged + 1.
Proof.
  apply (CaptureFacts.unchanged_scheduled_capture_is_skipped
           Builtins.md5_hex default_service desktop no_metadata unchanged
           "PNG-bytes-of-the-screen" false); reflexivity.
Defined.

(** The same unchanged screen, captured on demand, is uploaded and
    written. *)
Example manual_capture_of_unchanged_screen_proceeds :
  let r := captureScreen Builtins.md5_hex default_service desktop "manual"
                         no_metadata unchanged in
  map sc_capture_trigger (captures_of (trace_of r)) = ["manual"] /\
  length (uploads_of (trace_of r)) = 1%nat.
Proof. split; vm_compute; reflexivity. Qed.

End CaptureScenarios.

(* ------------------------------------------------------------------ *)
(** * Further properties of the code *)

(** ** Classification and violation response *)

Module ComplianceFacts.
Import ClientMonitoringHandler.

(** An activity that is not an explicit violation contains none of the
    violation keywords in its URL. *)
Lemma no_keyword_in_url activity keyword :
  isExplicitViolation activity = false ->
  In keyword violationKeywords ->
  JS.includes (JS.toLowerCase (act_url activity)) keyword = false.
Proof.
  unfold isExplicitViolation. intros E I.
  destruct (domain_match activity); [discriminate|].
  destruct (url_pattern_match activity); [discriminate|].
  destruct (keyword_match activity) eqn:K; [discriminate|].
  unfold keyword_match in K.
  pose proof (ClassifierFacts.some_false_In _ _ keyword K I) as F.
  simpl in F. apply orb_false_iff in F. exact (proj1 F).
Qed.

Lemma not_explicit_domain activity :
  isExplicitViolation activity = false -> domain_match activity = false.
Proof.
  unfold isExplicitViolation. destruct (domain_match activity); auto.
Qed.

(** X1. Every alert for an activity that is not an explicit violation is
    the generic one: the categories of [getAlertConfig] are reachable
    through explicit violations only. *)
Theorem non_explicit_alert_is_generic (violationType : string)
  (activity : Activity) :
  isExplicitViolation activity = false ->
  getAlertConfig violationType activity =
    {| type := "unauthorized_website";
       title := "Unauthorized Website Access";
       description := "Employee accessed unauthorized website: "
                      ++ act_url activity;
       severity := "medium" |}.
Proof.
  intros E. unfold getAlertConfig.
  pose proof (not_explicit_domain activity E) as D.
  rewrite !(ClassifierFacts.unlisted_domain activity _ D)
    by (unfold violationDomains; simpl; tauto).
  rewrite !(no_keyword_in_url activity _ E)
    by (unfold violationKeywords; simpl; tauto).
  reflexivity.
Qed.

(** The severity of an alert is never "low", and its type is one of
    six. *)
Theorem alert_config_range (violationType : string) (activity : Activity) :
  let c := getAlertConfig violationType activity in
  In (type c, severity c)
     [("social_media_access", "high"); ("gaming_access", "high");
      ("entertainment_access", "medium"); ("shopping_access", "medium");
      ("inappropriate_content", "critical");
      ("unauthorized_website", "medium")].
Proof.
  unfold getAlertConfig.
  repeat match goal with
         | |- context [if ?b then _ else _] => destruct b
         end; simpl; tauto.
Qed.


(** X2. A failed alert write still uses up the cooldown: the counter is
    incremented, the timestamp is set and the capture request is sent
    before the write, so a violation that follows within the window
    raises no alert either. *)
Theorem failed_alert_write_consumes_cooldown
  (h : Handler) (e : string) (s : Session) (env1 env2 : Env)
  (a1 a2 : Activity) (v1 v2 : string) :
  JsMap.get e (activeSessions h) = Some s ->
  in_cooldown (config h) s (now env1) = false ->
  now env1 <> 0 ->
  now env2 - now env1 < violationCooldown (config h) ->
  alert_save_ok env1 = false ->
  io_present env1 = true ->
  let r1 := handlePotentialViolation env1 e a1 v1 h in
  let r2 := handlePotentialViolation env2 e a2 v2 (state_of r1) in
  completion_of r1 = Normal tt /\
  alerts_of (trace_of r1 ++ trace_of r2) = [] /\
  emitted (trace_of r1 ++ trace_of r2)
    = [(to_room ("employee:" ++ e), capture_request env1 a1 v1)] /\
  JsMap.get e (activeSessions (state_of r2))
    = Some {| employeeId := employeeId s;
              sessionId := sessionId s;
              socketId := socketId s;
              startTime := startTime s;
              capabilities := capabilities s;
              lastActivity := lastActivity s;
              violationCount := violationCount s + 1;
              lastViolationTime := Some (now env1) |}.
Proof.
  intros G C NZ W F Io r1 r2.
  assert (E1 : r1 = (Normal tt,
                     with_sessions h
                       (JsMap.set e (record_violation s (now env1))
                                  (activeSessions h)),
                     response env1 e s a1 v1))
    by (apply HandlerFacts.violation_allowed; assumption).
  set (h1 := with_sessions h
               (JsMap.set e (record_violation s (now env1))
                          (activeSessions h))) in *.
  assert (G1 : JsMap.get e (activeSessions h1)
               = Some (record_violation s (now env1)))
    by apply JsMapFacts.get_set_eq.
  assert (C2 : in_cooldown (config h1) (record_violation s (now env1))
                           (now env2) = true).
  { unfold in_cooldown. simpl. apply andb_true_iff. split.
    - apply negb_true_iff. apply Z.eqb_neq. exact NZ.
    - apply Z.ltb_lt. exact W. }
  assert (E2 : r2 = (Normal tt, h1, [])).
  { subst r2. rewrite E1, state_of_is.
    eapply HandlerFacts.violation_in_cooldown; eauto. }
  rewrite E2, E1. rewrite !state_of_is, !trace_of_is, completion_of_is.
  unfold response. rewrite F, Io.
  split; [reflexivity|]. split; [reflexivity|]. split; [reflexivity|].
  exact G1.
Qed.

End ComplianceFacts.

(** ** Session lifecycle, buffers and ingest *)

Module LifecycleFacts.
Import ClientMonitoringHandler.

(** *** Start and stop *)

(** X3. [monitoring-started] with a payload always succeeds and
    acknowledges.  The subject's session is replaced by a fresh one (no
    violation counted, no cooldown running) on the announcing socket;
    records already buffered for the subject are kept; no other
    subject is touched.  An event without payload changes nothing and
    is answered with [monitoring-error]. *)
Theorem start_replaces_session_keeps_buffer
  (env : Env) (socket e sid : string) (caps : Capabilities) (h : Handler) :
  let r := handleMonitoringStarted env socket
             (Some (started_data e sid caps)) h in
  let r0 := handleMonitoringStarted env socket None h in
  completion_of r = Normal tt /\
  JsMap.get e (activeSessions (state_of r)) =
    Some {| employeeId := e;
            sessionId := sid;
            socketId := socket;
            startTime := now env;
            capabilities := caps;
            lastActivity := None;
            violationCount := 0;
            lastViolationTime := None |} /\
  JsMap.get e (activityBuffer (state_of r)) =
    Some match JsMap.get e (activityBuffer h) with
         | Some buffered => buffered
         | None => []
         end /\
  (forall e', e' <> e ->
     JsMap.get e' (activeSessions (state_of r))
       = JsMap.get e' (activeSessions h) /\
     JsMap.get e' (activityBuffer (state_of r))
       = JsMap.get e' (activityBuffer h)) /\
  trace_of r =
    [Join socket ("employee:" ++ e);
     Emit (to_socket socket) (monitoring_started_ack true sid)] /\
  completion_of r0 = Normal tt /\
  state_of r0 = h /\
  exists message,
    trace_of r0 =
      [Console error "Error handling monitoring started";
       Emit (to_socket socket) (monitoring_error message "start")].
Proof.
  intros r r0. subst r r0. unfold handleMonitoringStarted, room_of.
  unfold try_catch, bind, modify, get_state, when, ret, tell, throw.
  cbn [started_employeeId started_sessionId started_capabilities
       activityBuffer with_sessions].
  unfold JsMap.has.
  destruct (JsMap.get e (activityBuffer h)) as [buffered|] eqn:B;
    cbn [negb]; rewrite ?completion_of_is, ?state_of_is, ?trace_of_is;
    cbn [activeSessions activityBuffer with_sessions with_buffer].
  - split; [reflexivity|].
    split; [apply JsMapFacts.get_set_eq|].
    split; [exact B|].
    split; [intros e' N; split;
            [now apply JsMapFacts.get_set_ne|reflexivity]|].
    split; [reflexivity|]. split; [reflexivity|]. split; [reflexivity|].
    eexists. reflexivity.
  - split; [reflexivity|].
    split; [apply JsMapFacts.get_set_eq|].
    split; [apply JsMapFacts.get_set_eq|].
    split; [intros e' N; split; now apply JsMapFacts.get_set_ne|].
    split; [reflexivity|]. split; [reflexivity|]. split; [reflexivity|].
    eexists. reflexivity.
Qed.

Lemma stop_unfold env socket e sid h :
  handleMonitoringStopped env socket (Some (stopped_data e sid)) h =
    (Normal tt,
     with_buffer
       (with_sessions (state_of (flushActivities env e h))
          (JsMap.delete e
             (activeSessions (state_of (flushActivities env e h)))))
       (JsMap.delete e
          (activityBuffer (state_of (flushActivities env e h)))),
     trace_of (flushActivities env e h) ++
     [Leave socket ("employee:" ++ e);
      Emit (to_socket socket) (monitoring_stopped_ack true sid)]).
Proof.
  unfold handleMonitoringStopped, room_of.
  cbn [stopped_employeeId stopped_sessionId].
  unfold try_catch, bind, modify, tell.
  destruct (HandlerFacts.flush_frame env e h) as [F _].
  destruct (flushActivities env e h) as [[c st] fx].
  rewrite completion_of_is in F. subst c.
  rewrite state_of_is, trace_of_is. reflexivity.
Qed.

(** X4. [monitoring-stopped] with a payload always acknowledges and
    leaves neither a session nor a buffer entry for the subject; the
    sessions and buffers of the other subjects are as before.  An
    event without payload is only logged: nothing is removed and
    nothing is emitted. *)
Theorem stop_removes_session_and_buffer
  (env : Env) (socket e sid : string) (h : Handler) :
  let r := handleMonitoringStopped env socket (Some (stopped_data e sid)) h in
  let r0 := handleMonitoringStopped env socket None h in
  completion_of r = Normal tt /\
  JsMap.get e (activeSessions (state_of r)) = None /\
  JsMap.get e (activityBuffer (state_of r)) = None /\
  (forall e', e' <> e ->
     JsMap.get e' (activeSessions (state_of r))
       = JsMap.get e' (activeSessions h) /\
     JsMap.get e' (activityBuffer (state_of r))
       = JsMap.get e' (activityBuffer h)) /\
  emitted (trace_of r)
    = [(to_socket socket, monitoring_stopped_ack true sid)] /\
  r0 = (Normal tt, h, [Console error "Error handling monitoring stopped"]).
Proof.
  intros r r0. subst r r0. rewrite stop_unfold.
  rewrite completion_of_is, state_of_is, trace_of_is.
  cbn [activeSessions activityBuffer with_sessions with_buffer].
  split; [reflexivity|].
  split; [apply JsMapFacts.get_delete_eq|].
  split; [apply JsMapFacts.get_delete_eq|].
  destruct (JsMap.get e (activityBuffer h)) as [[|x xs]|] eqn:G.
  - rewrite (HandlerFacts.flush_empty env e h G).
    rewrite state_of_is, trace_of_is.
    split; [|split; reflexivity].
    intros e' N. split; now apply JsMapFacts.get_delete_ne.
  - destruct (insertMany_ok env) eqn:O.
    + rewrite (HandlerFacts.flush_success env e h (x :: xs) G)
        by (discriminate || assumption).
      rewrite state_of_is, trace_of_is.
      split; [|split; reflexivity].
      intros e' N. cbn [activeSessions activityBuffer with_buffer].
      split; [now apply JsMapFacts.get_delete_ne|].
      rewrite JsMapFacts.get_delete_ne by assumption.
      now apply JsMapFacts.get_set_ne.
    + rewrite (HandlerFacts.flush_failure env e h (x :: xs) G)
        by (discriminate || assumption).
      rewrite state_of_is, trace_of_is.
      split; [|split; reflexivity].
      intros e' N. split; now apply JsMapFacts.get_delete_ne.
  - rewrite (HandlerFacts.flush_absent env e h G).
    rewrite state_of_is, trace_of_is.
    split; [|split; reflexivity].
    intros e' N. split; now apply JsMapFacts.get_delete_ne.
Qed.

(** X5. When the final flush of [monitoring-stopped] fails, the buffered
    records are lost: nothing is persisted, the buffer entry is
    removed all the same, and the stop is acknowledged as a
    success. *)
Theorem failed_final_flush_loses_records
  (env : Env) (socket e sid : string) (h : Handler)
  (records : list ActivityRecord) :
  JsMap.get e (activityBuffer h) = Some records ->
  records <> [] ->
  insertMany_ok env = false ->
  let r := handleMonitoringStopped env socket (Some (stopped_data e sid)) h in
  batches_of (trace_of r) = [] /\
  JsMap.get e (activityBuffer (state_of r)) = None /\
  trace_of r =
    [Console error "Error flushing activities";
     Leave socket ("employee:" ++ e);
     Emit (to_socket socket) (monitoring_stopped_ack true sid)].
Proof.
  intros G N O r. subst r. rewrite stop_unfold.
  rewrite (HandlerFacts.flush_failure env e h records G N O).
  rewrite !state_of_is, !trace_of_is.
  cbn [activityBuffer with_buffer].
  split; [reflexivity|]. split; [apply JsMapFacts.get_delete_eq|reflexivity].
Qed.

(** *** Visibility and focus events *)

Lemma push_if_buffered_unfold e record h :
  push_if_buffered e record h =
    (Normal tt,
     match JsMap.get e (activityBuffer h) with
     | Some buffered =>
         with_buffer h (JsMap.set e (buffered ++ [record]) (activityBuffer h))
     | None => h
     end,
     []).
Proof.
  unfold push_if_buffered, buffer_push, JsMap.has.
  unfold bind, get_state, when, modify, ret, throw.
  destruct (JsMap.get e (activityBuffer h)) as [buffered|] eqn:B.
  - rewrite B. reflexivity.
  - reflexivity.
Qed.

Lemma visibility_unfold socket e flag timestamp h :
  handleVisibilityChange socket e flag timestamp h =
    (Normal tt,
     match JsMap.get e (activityBuffer h) with
     | Some buffered =>
         with_buffer h
           (JsMap.set e
              (buffered ++
               [visibility_change e (session_id_or_unknown h e) timestamp flag])
              (activityBuffer h))
     | None => h
     end,
     []).
Proof.
  unfold handleVisibilityChange, bind, get_state.
  rewrite push_if_buffered_unfold. reflexivity.
Qed.

Lemma focus_unfold socket e flag timestamp h :
  handleFocusChange socket e flag timestamp h =
    (Normal tt,
     match JsMap.get e (activityBuffer h) with
     | Some buffered =>
         with_buffer h
           (JsMap.set e
              (buffered ++
               [focus_change e (session_id_or_unknown h e) timestamp flag])
              (activityBuffer h))
     | None => h
     end,
     []).
Proof.
  unfold handleFocusChange, bind, get_state.
  rewrite push_if_buffered_unfold. reflexivity.
Qed.

(** X6. A visibility or focus event is appended to the subject's buffer
    when there is one and is dropped otherwise; it is never checked
    against a session, never flushed and never answered.  Without a
    session the record carries the session id "unknown". *)
Theorem visibility_and_focus_only_enqueue
  (socket e timestamp : string) (flag : bool) (h : Handler) :
  let rv := handleVisibilityChange socket e flag timestamp h in
  let rf := handleFocusChange socket e flag timestamp h in
  let sid := session_id_or_unknown h e in
  trace_of rv = [] /\
  trace_of rf = [] /\
  activeSessions (state_of rv) = activeSessions h /\
  activeSessions (state_of rf) = activeSessions h /\
  (JsMap.get e (activityBuffer h) = None ->
     state_of rv = h /\ state_of rf = h) /\
  (forall buffered,
     JsMap.get e (activityBuffer h) = Some buffered ->
     JsMap.get e (activityBuffer (state_of rv))
       = Some (buffered ++ [visibility_change e sid timestamp flag]) /\
     JsMap.get e (activityBuffer (state_of rf))
       = Some (buffered ++ [focus_change e sid timestamp flag])) /\
  (JsMap.get e (activeSessions h) = None -> sid = "unknown").
Proof.
  intros rv rf sid. subst rv rf sid.
  rewrite visibility_unfold, focus_unfold.
  rewrite !trace_of_is, !state_of_is.
  split; [reflexivity|]. split; [reflexivity|].
  assert (U : JsMap.get e (activeSessions h) = None ->
              session_id_or_unknown h e = "unknown")
    by (intros G; unfold session_id_or_unknown; now rewrite G).
  destruct (JsMap.get e (activityBuffer h)) as [buffered|] eqn:B.
  - split; [reflexivity|]. split; [reflexivity|].
    split; [intros E; discriminate E|].
    split; [|exact U].
    intros b' E. injection E as <-.
    cbn [activityBuffer with_buffer].
    split; apply JsMapFacts.get_set_eq.
  - split; [reflexivity|]. split; [reflexivity|].
    split; [intros _; split; reflexivity|].
    split; [|exact U].
    intros b' E. discriminate E.
Qed.

End LifecycleFacts.

(** ** The periodic flush *)

Module FlushAllFacts.
Import ClientMonitoringHandler.

Lemma keys_get {V : Type} (m : JsMap.t V) k v :
  JsMap.get k m = Some v -> In k (JsMap.keys m).
Proof.
  induction m as [|[k' v'] m IH]; simpl; [discriminate|].
  destruct (String.eqb k k') eqn:E.
  - apply String.eqb_eq in E. auto.
  - auto.
Qed.

(** One flush, seen from any key of the buffer map. *)
Lemma flush_get env e h k :
  JsMap.get k (activityBuffer (state_of (flushActivities env e h))) =
    if String.eqb k e && insertMany_ok env
    then match JsMap.get k (activityBuffer h) with
         | Some _ => Some []
         | None => None
         end
    else JsMap.get k (activityBuffer h).
Proof.
  destruct (JsMap.get e (activityBuffer h)) as [[|x xs]|] eqn:G.
  - rewrite (HandlerFacts.flush_empty env e h G), state_of_is.
    destruct (String.eqb k e) eqn:K; [|reflexivity].
    apply String.eqb_eq in K. subst k. rewrite G.
    now destruct (insertMany_ok env).
  - destruct (insertMany_ok env) eqn:O.
    + rewrite (HandlerFacts.flush_success env e h (x :: xs) G)
        by (discriminate || assumption).
      rewrite state_of_is. cbn [activityBuffer with_buffer].
      rewrite JsMapFacts.get_set.
      destruct (String.eqb k e) eqn:K; [|reflexivity].
      apply String.eqb_eq in K. subst k. now rewrite G.
    + rewrite (HandlerFacts.flush_failure env e h (x :: xs) G)
        by (discriminate || assumption).
      rewrite state_of_is. now rewrite andb_false_r.
  - rewrite (HandlerFacts.flush_absent env e h G), state_of_is.
    destruct (String.eqb k e) eqn:K; [|reflexivity].
    apply String.eqb_eq in K. subst k. rewrite G.
    now destruct (insertMany_ok env).
Qed.

(** What one flush writes. *)
Lemma flush_batches env e h :
  batches_of (trace_of (flushActivities env e h)) =
    match JsMap.get e (activityBuffer h) with
    | Some (x :: xs) => if insertMany_ok env then [x :: xs] else []
    | _ => []
    end.
Proof.
  destruct (JsMap.get e (activityBuffer h)) as [[|x xs]|] eqn:G.
  - now rewrite (HandlerFacts.flush_empty env e h G).
  - destruct (insertMany_ok env) eqn:O.
    + now rewrite (HandlerFacts.flush_success env e h (x :: xs) G)
        by (discriminate || assumption).
    + now rewrite (HandlerFacts.flush_failure env e h (x :: xs) G)
        by (discriminate || assumption).
  - now rewrite (HandlerFacts.flush_absent env e h G).
Qed.

Lemma flush_each_cons env_of k ks h :
  flush_each env_of (k :: ks) h =
    (completion_of
       (flush_each env_of ks (state_of (flushActivities (env_of k) k h))),
     state_of
       (flush_each env_of ks (state_of (flushActivities (env_of k) k h))),
     trace_of (flushActivities (env_of k) k h) ++
     trace_of
       (flush_each env_of ks (state_of (flushActivities (env_of k) k h)))).
Proof.
  simpl. unfold bind.
  destruct (HandlerFacts.flush_frame (env_of k) k h) as [F _].
  destruct (flushActivities (env_of k) k h) as [[c st] fx].
  rewrite completion_of_is in F. subst c.
  rewrite state_of_is, trace_of_is.
  destruct (flush_each env_of ks st) as [[c' st'] fx']. reflexivity.
Qed.

Lemma flush_each_frame env_of ks :
  forall h,
    completion_of (flush_each env_of ks h) = Normal tt /\
    activeSessions (state_of (flush_each env_of ks h)) = activeSessions h.
Proof.
  induction ks as [|k ks IH]; intros h.
  - split; reflexivity.
  - rewrite flush_each_cons. rewrite completion_of_is, state_of_is.
    destruct (IH (state_of (flushActivities (env_of k) k h))) as [C A].
    destruct (HandlerFacts.flush_frame (env_of k) k h) as [_ [A0 _]].
    split; [exact C|]. now rewrite A, A0.
Qed.

(** The buffer of a subject whose insert fails is left as it is. *)
Lemma flush_each_retains env_of ks k :
  insertMany_ok (env_of k) = false ->
  forall h,
    JsMap.get k (activityBuffer (state_of (flush_each env_of ks h)))
    = JsMap.get k (activityBuffer h).
Proof.
  intros O. induction ks as [|k0 ks IH]; intros h.
  - reflexivity.
  - rewrite flush_each_cons, state_of_is. rewrite IH, flush_get.
    destruct (String.eqb k k0) eqn:K; [|reflexivity].
    apply String.eqb_eq in K. subst k0. now rewrite O.
Qed.

(** An empty buffer stays empty. *)
Lemma flush_each_empty env_of ks k :
  forall h,
    JsMap.get k (activityBuffer h) = Some [] ->
    JsMap.get k (activityBuffer (state_of (flush_each env_of ks h)))
    = Some [].
Proof.
  induction ks as [|k0 ks IH]; intros h G.
  - exact G.
  - rewrite flush_each_cons, state_of_is. apply IH.
    rewrite flush_get, G.
    now destruct (String.eqb k k0 && insertMany_ok (env_of k0)).
Qed.

(** The buffer of a visited subject whose insert succeeds is emptied. *)
Lemma flush_each_empties env_of ks k :
  insertMany_ok (env_of k) = true ->
  In k ks ->
  forall h records,
    JsMap.get k (activityBuffer h) = Some records ->
    JsMap.get k (activityBuffer (state_of (flush_each env_of ks h)))
    = Some [].
Proof.
  intros O. induction ks as [|k0 ks IH]; intros I h records G.
  - destruct I.
  - rewrite flush_each_cons, state_of_is.
    destruct (String.eqb k k0) eqn:K.
    + apply String.eqb_eq in K. subst k0.
      apply flush_each_empty.
      rewrite flush_get, String.eqb_refl, O, G. reflexivity.
    + destruct I as [E|I];
        [subst k0; rewrite String.eqb_refl in K; discriminate K|].
      apply (IH I _ records).
      rewrite flush_get, K. exact G.
Qed.

(** ... and its records are written as one batch. *)
Lemma flush_each_persists env_of ks k :
  insertMany_ok (env_of k) = true ->
  In k ks ->
  forall h records,
    JsMap.get k (activityBuffer h) = Some records ->
    records <> [] ->
    In records (batches_of (trace_of (flush_each env_of ks h))).
Proof.
  intros O. induction ks as [|k0 ks IH]; intros I h records G N.
  - destruct I.
  - rewrite flush_each_cons, trace_of_is, HandlerFacts.batches_of_app.
    apply in_or_app.
    destruct (String.eqb k k0) eqn:K.
    + apply String.eqb_eq in K. subst k0. left.
      rewrite flush_batches, G, O.
      destruct records; [now elim N|]. simpl. auto.
    + destruct I as [E|I];
        [subst k0; rewrite String.eqb_refl in K; discriminate K|].
      right. apply (IH I _ records); [|exact N].
      rewrite flush_get, K. exact G.
Qed.

(** Every batch written is the whole, non-empty buffer of a visited
    subject whose insert succeeded. *)
Lemma flush_each_batches env_of ks :
  forall h batch,
    In batch (batches_of (trace_of (flush_each env_of ks h))) ->
    batch <> [] /\
    exists k,
      In k ks /\ insertMany_ok (env_of k) = true /\
      JsMap.get k (activityBuffer h) = Some batch.
Proof.
  induction ks as [|k0 ks IH]; intros h batch I.
  - destruct I.
  - rewrite flush_each_cons, trace_of_is, HandlerFacts.batches_of_app in I.
    apply in_app_or in I. destruct I as [I|I].
    + rewrite flush_batches in I.
      destruct (JsMap.get k0 (activityBuffer h)) as [[|x xs]|] eqn:G;
        try destruct I.
      destruct (insertMany_ok (env_of k0)) eqn:O; [|destruct I].
      destruct I as [<-|[]].
      split; [discriminate|]. exists k0. simpl. auto.
    + destruct (IH _ _ I) as [N [k [Ik [O G]]]].
      split; [exact N|]. exists k. split; [simpl; auto|]. split; [exact O|].
      rewrite flush_get in G.
      destruct (String.eqb k k0 && insertMany_ok (env_of k0)); [|exact G].
      destruct (JsMap.get k (activityBuffer h)); [|discriminate G].
      injection G as <-. now elim N.
Qed.

(** X7. The periodic flush treats each subject on its own.  It never
    throws and leaves the sessions alone.  A subject whose batch
    insert succeeds has its whole buffer written and emptied; a
    subject whose insert fails keeps its buffer, and that failure
    changes nothing for the others.  Nothing but whole buffers of
    succeeding subjects is written. *)
Theorem periodic_flush_isolates_subjects
  (env_of : string -> Env) (h : Handler) :
  let r := flushAll env_of h in
  completion_of r = Normal tt /\
  activeSessions (state_of r) = activeSessions h /\
  (forall k records,
     JsMap.get k (activityBuffer h) = Some records ->
     (insertMany_ok (env_of k) = true ->
        JsMap.get k (activityBuffer (state_of r)) = Some [] /\
        (records <> [] -> In records (batches_of (trace_of r)))) /\
     (insertMany_ok (env_of k) = false ->
        JsMap.get k (activityBuffer (state_of r)) = Some records)) /\
  (forall batch,
     In batch (batches_of (trace_of r)) ->
     batch <> [] /\
     exists k,
       insertMany_ok (env_of k) = true /\
       JsMap.get k (activityBuffer h) = Some batch).
Proof.
  intros r.
  assert (E : r = flush_each env_of (JsMap.keys (activityBuffer h)) h).
  { subst r. unfold flushAll, bind, get_state.
    destruct (flush_each env_of (JsMap.keys (activityBuffer h)) h)
      as [[c st] fx]. reflexivity. }
  rewrite E. clear E r.
  destruct (flush_each_frame env_of (JsMap.keys (activityBuffer h)) h)
    as [C A].
  split; [exact C|]. split; [exact A|]. split.
  - intros k records G. pose proof (keys_get _ _ _ G) as I. split.
    + intros O. split.
      * eapply flush_each_empties; eauto.
      * intros N. eapply flush_each_persists; eauto.
    + intros O. rewrite flush_each_retains by exact O. exact G.
  - intros batch I.
    destruct (flush_each_batches _ _ _ _ I) as [N [k [_ [O G]]]].
    split; [exact N|]. exists k. auto.
Qed.

End FlushAllFacts.

(** ** The compliance check and the ingest, case by case *)

Module IngestFacts.
Import ClientMonitoringHandler.


Section WithBuiltins.

Variable RegExp_i : string -> option (string -> bool).
Variable Date_parse : string -> option Z.
Variable Buffer_from_base64 : string -> string.

Local Abbreviation check := (checkActivityCompliance RegExp_i).
Local Abbreviation ingest :=
  (handleScreenshotCaptured Date_parse Buffer_from_base64).



(** An activity update for a subject without a session is dropped with
    a warning: nothing is buffered and nothing is checked. *)
Lemma activity_without_session env socket e sid activity h :
  JsMap.get e (activeSessions h) = None ->
  handleActivityUpdate RegExp_i env socket e sid activity h =
    (Normal tt, h, [Console warn "No active session for employee"]).
Proof using RegExp_i.
  intros G. unfold handleActivityUpdate.
  unfold try_catch, bind, get_state, tell. now rewrite G.
Qed.

Lemma ingest_without_payload env socket h :
  ingest env socket None h =
    (Normal tt, h,
     [Console error "Error handling screenshot";
      Emit (to_socket socket)
           (screenshot_error cannot_destructure "unknown"
              (error_details None))]).
Proof using Date_parse Buffer_from_base64. reflexivity. Qed.

Lemma emitted_app t1 t2 : emitted (t1 ++ t2) = emitted t1 ++ emitted t2.
Proof using. unfold emitted. apply flat_map_app. Qed.

Lemma analysis_emits_nothing env capture :
  emitted (analysis_trace env capture) = [].
Proof using.
  unfold analysis_trace, ocr_trace, ai_trace.
  destruct (ocr_service env), (ai_service env), (analysis_save_ok env);
    reflexivity.
Qed.

(** X11. Every ingest call is answered exactly once, on the caller's
    socket, and leaves the handler state as it was: with
    [screenshot-processed] when a capture document was written, with
    [screenshot-error] when none was. *)
Theorem ingest_answers_exactly_once
  (env : Env) (socket : string) (data : option ScreenshotData) (h : Handler) :
  let r := ingest env socket data h in
  completion_of r = Normal tt /\
  state_of r = h /\
  exists answer,
    emitted (trace_of r) = [(to_socket socket, answer)] /\
    ((exists id uploadId trigger,
        answer = screenshot_processed true id uploadId trigger /\
        captures_of (trace_of r) <> []) \/
     (exists message trigger details,
        answer = screenshot_error message trigger details /\
        captures_of (trace_of r) = [])).
Proof using Date_parse Buffer_from_base64.
  intros r. subst r.
  destruct data as [d|].
  - destruct (missing_required d) eqn:V.
    + rewrite (HandlerFacts.ingest_rejected Date_parse Buffer_from_base64
                 env socket d h V).
      split; [reflexivity|]. split; [reflexivity|].
      eexists. split; [reflexivity|]. right. eauto.
    + destruct (sd_metadata d) as [md|] eqn:Md.
      * rewrite (HandlerFacts.ingest_accepted Date_parse Buffer_from_base64
                   env socket d md h V Md). cbv zeta.
        destruct (upload_result env) as [u|].
        -- destruct (capture_save_ok env).
           ++ split; [reflexivity|]. split; [reflexivity|].
              rewrite trace_of_is.
              eexists. split.
              ** rewrite !emitted_app.
                 destruct (is_violation (sd_trigger d));
                   [rewrite analysis_emits_nothing|]; reflexivity.
              ** left. eexists. eexists. eexists.
                 split; [reflexivity|]. simpl. discriminate.
           ++ split; [reflexivity|]. split; [reflexivity|].
              eexists. split; [reflexivity|]. right. eauto.
        -- split; [reflexivity|]. split; [reflexivity|].
           eexists. split; [reflexivity|]. right. eauto.
      * exfalso. unfold missing_required in V. rewrite Md in V.
        simpl in V. rewrite !orb_true_r in V. discriminate V.
  - rewrite ingest_without_payload.
    split; [reflexivity|]. split; [reflexivity|].
    eexists. split; [reflexivity|]. right. eauto.
Qed.

(** X12. A screenshot whose trigger is not 'violation' is uploaded with the
    regular variant, written once with the capture trigger "manual"
    whatever trigger the client named, and acknowledged; no analysis
    service is called and no analysis is attached. *)
Theorem regular_screenshot_is_stored_as_manual
  (env : Env) (socket : string) (d : ScreenshotData) (md : Metadata)
  (u : UploadResult) (h : Handler) :
  missing_required d = false ->
  sd_metadata d = Some md ->
  is_violation (sd_trigger d) = false ->
  upload_result env = Some u ->
  capture_save_ok env = true ->
  let employeeId := JS.str_or (sd_employeeId d) "" in
  let imageBuffer :=
    Buffer_from_base64 (strip_data_url (JS.str_or (sd_imageData d) "")) in
  let capture :=
    new_ScreenCapture Date_parse env employeeId
      (JS.str_or (sd_sessionId d) "") (sd_trigger d) imageBuffer md u in
  trace_of (ingest env socket (Some d) h) =
    [Upload false employeeId imageBuffer
            (JS.str_or (md_title md) "Unknown Application")
            (JS.str_or (md_url md) "unknown");
     SaveCapture capture;
     Emit (to_socket socket)
          (screenshot_processed true (sc_id capture)
             (cloudinary_public_id u) (sd_trigger d))] /\
  sc_capture_trigger capture = "manual" /\
  sc_ai_analysis capture = None /\
  sc_ocr_analysis capture = None.
Proof using Date_parse Buffer_from_base64.
  intros V Md NV U Sv employeeId imageBuffer capture.
  rewrite (HandlerFacts.ingest_accepted Date_parse Buffer_from_base64
             env socket d md h V Md). cbv zeta.
  rewrite U, Sv, NV. rewrite trace_of_is.
  subst capture. unfold new_ScreenCapture. rewrite NV. simpl. auto.
Qed.

(** X13. When the write of the capture document fails after the upload
    succeeded, the upload is not undone: the image stays uploaded, no
    document exists for it, and the caller gets a [screenshot-error]
    with the message of the failed write. *)
Theorem failed_write_leaves_upload
  (env : Env) (socket : string) (d : ScreenshotData) (md : Metadata)
  (u : UploadResult) (h : Handler) :
  missing_required d = false ->
  sd_metadata d = Some md ->
  upload_result env = Some u ->
  capture_save_ok env = false ->
  let r := ingest env socket (Some d) h in
  length (uploads_of (trace_of r)) = 1%nat /\
  captures_of (trace_of r) = [] /\
  emitted (trace_of r) =
    [(to_socket socket,
      screenshot_error "ScreenCapture validation failed"
        (JS.str_or (sd_trigger d) "unknown") (error_details (Some d)))].
Proof using Date_parse Buffer_from_base64.
  intros V Md U Sv r. subst r.
  rewrite (HandlerFacts.ingest_accepted Date_parse Buffer_from_base64
             env socket d md h V Md). cbv zeta.
  rewrite U, Sv. rewrite trace_of_is. simpl. auto.
Qed.

(** The timestamp of every capture document an ingest writes is the
    normalised one. *)
Lemma ingest_capture_timestamps env socket d md h c :
  sd_metadata d = Some md ->
  In c (captures_of (trace_of (ingest env socket (Some d) h))) ->
  sc_timestamp c = validTimestamp Date_parse env md.
Proof using Date_parse Buffer_from_base64.
  intros Md.
  destruct (missing_required d) eqn:V.
  - rewrite (HandlerFacts.ingest_rejected Date_parse Buffer_from_base64
               env socket d h V). simpl. intros [].
  - rewrite (HandlerFacts.ingest_accepted Date_parse Buffer_from_base64
               env socket d md h V Md). cbv zeta.
    destruct (upload_result env) as [u|]; [|simpl; intros []].
    destruct (capture_save_ok env); [|simpl; intros []].
    rewrite trace_of_is. rewrite !HandlerFacts.captures_of_app.
    simpl captures_of at 1. intros I.
    apply in_app_or in I. destruct I as [[<-|[]]|I]; [reflexivity|].
    apply in_app_or in I. destruct I as [I|I]; [|destruct I].
    destruct (is_violation (sd_trigger d)); [|destruct I].
    apply HandlerFacts.analysis_captures in I. exact I.
Qed.

End WithBuiltins.

End IngestFacts.

(** ** More on the server-side capture *)

Module CaptureMoreFacts.
Import ScreenCaptureService.

Ltac open_capture :=
  unfold triggerCapture, captureScreen, take_screenshot,
         createPlaceholderScreenshot, of_option, MonitoringAlert_createAlert,
         no_screen_change;
  unfold try_catch, bind, get_state, modify, when, ret, tell, throw.

Ltac split_cases :=
  repeat (cbn [fst snd lastCaptureHash andb];
          match goal with
          | |- context [match ?x with _ => _ end] =>
              lazymatch x with
              | context [match _ with _ => _ end] => fail
              | _ => destruct x eqn:?
              end
          end).

(** *** The registry of capture sessions *)

(** X14. Starting the capture for an employee who is already registered
    changes nothing: the session id of the second call is ignored.
    Whatever the registry was, the entry found after a start is a
    disabled one or the one that was there, and stopping removes it
    and leaves the other employees registered. *)
Theorem start_capture_is_idempotent
  (e sid sid' : string) (sessions : JsMap.t CaptureSession) :
  startCapture e sid' (startCapture e sid sessions)
    = startCapture e sid sessions /\
  JsMap.has e (startCapture e sid sessions) = true /\
  (JsMap.get e sessions = None ->
   JsMap.get e (startCapture e sid sessions) =
     Some {| cs_employeeId := e;
             cs_sessionId := sid;
             cs_intervalId := None;
             cs_lastCaptureHash := None;
             cs_captureCount := 0;
             cs_disabled := true |}) /\
  JsMap.get e (stopCapture e (startCapture e sid sessions)) = None /\
  (forall e', e' <> e ->
     JsMap.get e' (stopCapture e (startCapture e sid sessions))
     = JsMap.get e' sessions).
Proof.
  assert (Has : JsMap.has e (startCapture e sid sessions) = true).
  { unfold startCapture. destruct (JsMap.has e sessions) eqn:B; [exact B|].
    unfold JsMap.has. now rewrite JsMapFacts.get_set_eq. }
  split; [|split; [exact Has|split; [|split]]].
  - unfold startCapture at 1. now rewrite Has.
  - intros G. unfold startCapture, JsMap.has. rewrite G.
    apply JsMapFacts.get_set_eq.
  - unfold stopCapture. unfold JsMap.has in Has.
    destruct (JsMap.get e (startCapture e sid sessions)); [|discriminate Has].
    apply JsMapFacts.get_delete_eq.
  - intros e' N. unfold stopCapture. unfold JsMap.has in Has.
    destruct (JsMap.get e (startCapture e sid sessions)); [|discriminate Has].
    rewrite JsMapFacts.get_delete_ne by assumption.
    unfold startCapture. destruct (JsMap.has e sessions); [reflexivity|].
    now apply JsMapFacts.get_set_ne.
Qed.

Section WithDigest.

Variable md5_hex : string -> string.

(** *** [triggerCapture] and [captureScreen] *)

(** X15. A capture asked through [triggerCapture] is never skipped as
    unchanged, not even with the trigger 'scheduled': it starts from a
    [captureConfig] without a last hash, so it returns a document or
    throws. *)
Theorem triggerCapture_never_skips
  (svc : Service) (env : Env) (e sid trigger : string)
  (metadata : CaptureMetadata) :
  let r := triggerCapture md5_hex svc env e sid trigger metadata in
  (exists doc, completion_of r = Normal (Some doc)) \/
  (exists message, completion_of r = Throw message).
Proof using.
  cbv zeta. open_capture. split_cases; rewrite completion_of_is; eauto.
Qed.


Lemma capture_success_inv svc env trigger metadata cfg doc :
  completion_of (captureScreen md5_hex svc env trigger metadata cfg)
    = Normal (Some doc) ->
  let r := captureScreen md5_hex svc env trigger metadata cfg in
  exists buffer isPlaceholder,
    completion_of (take_screenshot env cfg) = Normal (buffer, isPlaceholder) /\
    sc_file_hash doc = md5_hex buffer /\
    state_of r = after_capture (md5_hex buffer) cfg /\
    captures_of (trace_of r) = [doc] /\
    sc_capture_trigger doc = trigger /\
    alerts_of (trace_of r) =
      if maxFileSize svc <? sc_file_size doc
      then [large_screenshot_file (employeeId cfg) (sessionId cfg)
                                  (sc_id doc) (sc_file_size doc)]
      else [].
Proof using.
  intros T r. set (r0 := captureScreen md5_hex svc env trigger metadata cfg) in *.
  subst r. assert (E : r0 = captureScreen md5_hex svc env trigger metadata cfg)
    by reflexivity.
  clearbody r0. revert r0 E T.
  open_capture.
  split_cases; intros r0 ->;
    rewrite ?completion_of_is, ?state_of_is, ?trace_of_is;
    intros T; try discriminate T; injection T as <-;
    eexists; eexists; repeat split;
    cbn [sc_file_size] in *; congruence.
Qed.

(** X17. A capture that returns a document has written exactly that
    document, with the digest of the screenshot as its [file_hash],
    and has recorded that digest and one more capture in
    [captureConfig]; it raised the "Large Screenshot File" alert when
    the uploaded size is above [maxFileSize], and no alert otherwise. *)
Theorem successful_capture_updates_config
  (svc : Service) (env : Env) (trigger : string) (metadata : CaptureMetadata)
  (cfg : CaptureConfig) (doc : ScreenCapture) :
  completion_of (captureScreen md5_hex svc env trigger metadata cfg)
    = Normal (Some doc) ->
  let r := captureScreen md5_hex svc env trigger metadata cfg in
  captures_of (trace_of r) = [doc] /\
  lastCaptureHash (state_of r) = Some (sc_file_hash doc) /\
  captureCount (state_of r) = captureCount cfg + 1 /\
  sc_capture_trigger doc = trigger /\
  alerts_of (trace_of r) =
    if maxFileSize svc <? sc_file_size doc
    then [large_screenshot_file (employeeId cfg) (sessionId cfg)
                                (sc_id doc) (sc_file_size doc)]
    else [].
Proof using.
  intros T r.
  destruct (capture_success_inv svc env trigger metadata cfg doc T)
    as [buffer [p [_ [Hh [St [Cp [Tr Al]]]]]]].
  subst r. rewrite St, Hh. auto.
Qed.

(** Taking the screenshot does not look at [captureConfig]. *)
Lemma take_screenshot_any_config env cfg cfg' :
  take_screenshot env cfg' =
    (completion_of (take_screenshot env cfg), cfg',
     trace_of (take_screenshot env cfg)).
Proof using.
  unfold take_screenshot, createPlaceholderScreenshot, of_option.
  unfold try_catch, bind, ret, throw, tell.
  destruct (isHeadless env), (screenshot env), (placeholder env);
    reflexivity.
Qed.

(** X18. After a capture that returned a document, a scheduled capture of
    the same screen with the same session object is skipped: it
    returns [null].  The delta detection compares with the last
    capture that was written. *)
Theorem repeated_scheduled_capture_is_skipped
  (svc svc' : Service) (env : Env) (trigger : string)
  (metadata metadata' : CaptureMetadata) (cfg : CaptureConfig)
  (doc : ScreenCapture) :
  completion_of (captureScreen md5_hex svc env trigger metadata cfg)
    = Normal (Some doc) ->
  let first := captureScreen md5_hex svc env trigger metadata cfg in
  let second :=
    captureScreen md5_hex svc' env "scheduled" metadata' (state_of first) in
  completion_of second = Normal None /\
  state_of second = state_of first /\
  captures_of (trace_of second) = [].
Proof using.
  intros T first second.
  destruct (capture_success_inv svc env trigger metadata cfg doc T)
    as [buffer [p [Tk [_ [St _]]]]].
  subst second first. rewrite St.
  pose proof (take_screenshot_any_config env cfg
                (after_capture (md5_hex buffer) cfg)) as E.
  rewrite Tk in E.
  assert (Eq : captureScreen md5_hex svc' env "scheduled" metadata'
                 (after_capture (md5_hex buffer) cfg) =
               (Normal None, after_capture (md5_hex buffer) cfg,
                trace_of (take_screenshot env cfg))).
  { unfold captureScreen.
    unfold try_catch, bind, get_state. rewrite E.
    unfold no_screen_change. cbn [fst lastCaptureHash after_capture].
    rewrite !String.eqb_refl. cbn [andb].
    unfold ret. cbn [app]. now rewrite app_nil_r. }
  rewrite Eq, completion_of_is, state_of_is, trace_of_is.
  split; [reflexivity|]. split; [reflexivity|].
  destruct (CaptureFacts.take_screenshot_frame env cfg) as [_ [_ C]].
  exact C.
Qed.

End WithDigest.

End CaptureMoreFacts.

(** ** The environment detector *)

Module EnvironmentFacts.
Import EnvironmentConfig.

Lemma headless_without_display env :
  given env "DISPLAY" = false ->
  given env "WAYLAND_DISPLAY" = false ->
  detectHeadlessEnvironment env = true.
Proof.
  intros D W. unfold detectHeadlessEnvironment, JS.some.
  rewrite D, W. reflexivity.
Qed.

Lemma display_when_not_headless env :
  detectHeadlessEnvironment env = false ->
  given env "DISPLAY" || given env "WAYLAND_DISPLAY" = true.
Proof.
  intros H.
  destruct (given env "DISPLAY") eqn:D; [reflexivity|].
  destruct (given env "WAYLAND_DISPLAY") eqn:W; [reflexivity|].
  rewrite (headless_without_display env D W) in H. discriminate H.
Qed.

Lemma known_platform_cases platform :
  In platform ["linux"; "win32"; "darwin"] ->
  String.eqb platform "linux" = true \/
  (String.eqb platform "linux" = false /\
   String.eqb platform "win32" = true) \/
  (String.eqb platform "linux" = false /\
   String.eqb platform "win32" = false /\
   String.eqb platform "darwin" = true).
Proof.
  simpl. intros [<-|[<-|[<-|[]]]]; auto.
Qed.

Lemma unknown_platform_cases platform :
  ~ In platform ["linux"; "win32"; "darwin"] ->
  String.eqb platform "linux" = false /\
  String.eqb platform "win32" = false /\
  String.eqb platform "darwin" = false.
Proof.
  simpl. intros N.
  repeat split; apply String.eqb_neq; intros ->; apply N; auto.
Qed.

(** X19. The object the constructor builds is in simulation mode exactly
    when the host is headless, and then it has no real capability.
    On a host that is not headless, Linux, Windows and macOS get
    screenshots, browser detection and display access (on Linux
    because a display variable is necessarily set), and any other
    platform gets nothing.  [hasX11Tools] is never set. *)
Theorem capabilities_of_the_host (env : ProcessEnv) (platform : string) :
  let this := new_EnvironmentConfig env platform in
  let c := capabilities this in
  simulationMode c = isHeadless this /\
  hasX11Tools c = false /\
  (isHeadless this = true ->
     canTakeScreenshots c = false /\ canDetectBrowsers c = false /\
     canAccessDisplay c = false) /\
  (isHeadless this = false ->
     In platform ["linux"; "win32"; "darwin"] ->
     canTakeScreenshots c = true /\ canDetectBrowsers c = true /\
     canAccessDisplay c = true) /\
  (isHeadless this = false ->
     ~ In platform ["linux"; "win32"; "darwin"] ->
     canTakeScreenshots c = false /\ canDetectBrowsers c = false /\
     canAccessDisplay c = false).
Proof.
  cbv zeta. unfold new_EnvironmentConfig. cbn [capabilities isHeadless].
  unfold detectCapabilities.
  destruct (detectHeadlessEnvironment env) eqn:H.
  - repeat split; intros; discriminate.
  - pose proof (display_when_not_headless env H) as D.
    split; [|split; [|split; [|split]]].
    + now destruct (String.eqb platform "linux"),
        (String.eqb platform "win32"), (String.eqb platform "darwin").
    + now destruct (String.eqb platform "linux"),
        (String.eqb platform "win32"), (String.eqb platform "darwin").
    + intros E. discriminate E.
    + intros _ K.
      destruct (known_platform_cases platform K) as [L|[[L W]|[L [W M]]]].
      * rewrite L. cbn. rewrite D. auto.
      * rewrite L, W. cbn. auto.
      * rewrite L, W, M. cbn. auto.
    + intros _ U.
      destruct (unknown_platform_cases platform U) as [L [W M]].
      rewrite L, W, M. cbn. auto.
Qed.

(** X20. Real screenshots need a display variable on every platform: a
    host with neither [DISPLAY] nor [WAYLAND_DISPLAY] set, Windows
    and macOS included, is taken as headless and gets placeholders. *)
Theorem real_capture_needs_a_display_variable
  (env : ProcessEnv) (platform : string) :
  canTakeScreenshots (capabilities (new_EnvironmentConfig env platform))
    = true ->
  given env "DISPLAY" || given env "WAYLAND_DISPLAY" = true.
Proof.
  unfold new_EnvironmentConfig. cbn [capabilities].
  unfold detectCapabilities.
  destruct (detectHeadlessEnvironment env) eqn:H.
  - cbn. discriminate.
  - intros _. now apply display_when_not_headless.
Qed.

(** X21. The detection method of a constructed object is never "x11".  It
    is "simulation" exactly on a headless host or an unknown platform,
    and otherwise "process" on Linux, "tasklist" on Windows and
    "applescript" on macOS. *)
Theorem detection_method_of_the_host (env : ProcessEnv) (platform : string) :
  let this := new_EnvironmentConfig env platform in
  let method := getBrowserDetectionMethod this in
  method <> "x11" /\
  (isHeadless this = true -> method = "simulation") /\
  (isHeadless this = false ->
     (platform = "linux" -> method = "process") /\
     (platform = "win32" -> method = "tasklist") /\
     (platform = "darwin" -> method = "applescript") /\
     (~ In platform ["linux"; "win32"; "darwin"] -> method = "simulation")).
Proof.
  cbv zeta. unfold getBrowserDetectionMethod, new_EnvironmentConfig.
  cbn [capabilities isHeadless EnvironmentConfig.platform]. unfold detectCapabilities.
  destruct (detectHeadlessEnvironment env) eqn:H.
  - cbn. repeat split; try discriminate.
  - split; [|split; [intros E; discriminate E|intros _]].
    + destruct (String.eqb platform "linux") eqn:L,
        (String.eqb platform "win32") eqn:W,
        (String.eqb platform "darwin") eqn:M;
        cbn [simulationMode hasX11Tools]; discriminate.
    + repeat split.
      * intros ->. reflexivity.
      * intros ->. reflexivity.
      * intros ->. reflexivity.
      * intros U.
        destruct (unknown_platform_cases platform U) as [L [W M]].
        rewrite L, W, M. reflexivity.
Qed.

(** X22. Whenever [captureScreen] takes the host for headless by its own
    test, the environment object does too: screenshots are then
    reported as available, and are simulated. *)
Theorem capture_headless_implies_simulation
  (env : ProcessEnv) (platform : string) :
  capture_isHeadless env platform = true ->
  let this := new_EnvironmentConfig env platform in
  isHeadless this = true /\
  simulationMode (capabilities this) = true /\
  canTakeScreenshots (capabilities this) = false /\
  isFeatureAvailable this "screenshots" = true.
Proof.
  unfold capture_isHeadless. intros C.
  apply andb_true_iff in C. destruct C as [C _].
  apply andb_true_iff in C. destruct C as [D W].
  apply negb_true_iff in D. apply negb_true_iff in W.
  cbv zeta. unfold isFeatureAvailable, new_EnvironmentConfig.
  cbn [capabilities isHeadless]. unfold detectCapabilities.
  rewrite (headless_without_display env D W). cbn. auto.
Qed.

(** X23. A host that [getCloudPlatform] names "render", "heroku" or
    "vercel" is always taken as headless, whatever display variables
    are set. *)
Theorem named_cloud_host_is_headless (env : ProcessEnv) :
  In (getCloudPlatform env) ["render"; "heroku"; "vercel"] ->
  detectHeadlessEnvironment env = true.
Proof.
  unfold getCloudPlatform, detectHeadlessEnvironment, JS.some.
  destruct (given env "RENDER");
    [intros _; cbn; now rewrite !orb_true_r|].
  destruct (given env "HEROKU");
    [intros _; cbn; now rewrite !orb_true_r|].
  destruct (given env "VERCEL");
    [intros _; cbn; now rewrite !orb_true_r|].
  intros I. exfalso.
  destruct (given env "NETLIFY"), (given env "AWS_LAMBDA_FUNCTION_NAME"),
    (given env "GOOGLE_CLOUD_PROJECT"), (given env "DOCKER_CONTAINER");
    simpl in I; intuition discriminate.
Qed.

Section WithParseInt.

Variable parseInt : string -> option Z.

Lemma int_or_not_zero value fallback :
  fallback <> 0 -> int_or parseInt value fallback <> 0.
Proof using.
  intros F. unfold int_or.
  destruct value as [s|]; [|exact F].
  destruct (parseInt s) as [n|]; [|exact F].
  destruct (n =? 0) eqn:E; [exact F|].
  now apply Z.eqb_neq.
Qed.

(** X24. The monitoring configuration of a constructed object.  No interval
    is ever 0: a variable that is unset, is not a number or is 0 gives
    the default.  Violation detection and alerts are enabled in every
    mode, and the configured detection method is the one
    [getBrowserDetectionMethod] gives.  On a headless host the
    configuration is in simulation mode, with the browser check at
    least every 10 s and the website check at least every 15 s apart,
    and screenshots stay enabled whatever SCREENSHOT_ENABLED says. *)
Theorem monitoring_config_of_the_host (env : ProcessEnv) (platform : string) :
  let this := new_EnvironmentConfig env platform in
  let cfg := getMonitoringConfig parseInt env this in
  browserCheckInterval cfg <> 0 /\
  websiteMonitoringInterval cfg <> 0 /\
  activityFlushInterval cfg <> 0 /\
  violationDetectionEnabled cfg = true /\
  alertsEnabled cfg = true /\
  mc_simulationMode cfg = isHeadless this /\
  browserDetectionMethod cfg = getBrowserDetectionMethod this /\
  (isHeadless this = true ->
     10000 <= browserCheckInterval cfg /\
     15000 <= websiteMonitoringInterval cfg /\
     screenshotEnabled cfg = true).
Proof using.
  cbv zeta.
  pose proof (int_or_not_zero (env "BROWSER_CHECK_INTERVAL") 7000) as B.
  pose proof (int_or_not_zero (env "WEBSITE_MONITORING_INTERVAL") 10000) as W.
  pose proof (int_or_not_zero (env "ACTIVITY_FLUSH_INTERVAL") 45000) as A.
  unfold getMonitoringConfig, getBrowserDetectionMethod, new_EnvironmentConfig.
  cbn [capabilities isHeadless EnvironmentConfig.platform]. unfold detectCapabilities.
  destruct (detectHeadlessEnvironment env) eqn:H.
  - cbn. repeat split; lia.
  - assert (S : simulationMode
                  (if String.eqb platform "linux" then
                     {| canTakeScreenshots := true;
                        canDetectBrowsers := true;
                        canAccessDisplay :=
                          given env "DISPLAY" || given env "WAYLAND_DISPLAY";
                        hasX11Tools := false;
                        simulationMode := false |}
                   else if String.eqb platform "win32" then
                     {| canTakeScreenshots := true;
                        canDetectBrowsers := true;
                        canAccessDisplay := true;
                        hasX11Tools := false;
                        simulationMode := false |}
                   else if String.eqb platform "darwin" then
                     {| canTakeScreenshots := true;
                        canDetectBrowsers := true;
                        canAccessDisplay := true;
                        hasX11Tools := false;
                        simulationMode := false |}
                   else
                     {| canTakeScreenshots := false;
                        canDetectBrowsers := false;
                        canAccessDisplay := false;
                        hasX11Tools := false;
                        simulationMode := false |}) = false).
    { now destruct (String.eqb platform "linux"),
        (String.eqb platform "win32"), (String.eqb platform "darwin"). }
    rewrite S. cbn.
    repeat split; try lia; intros E; discriminate E.
Qed.

End WithParseInt.

End EnvironmentFacts.

(** ** The agent in the browser, alone and with the handler *)

Module ClientFacts.
Import ClientMonitoringService.

Local Abbreviation Handler := ClientMonitoringHandler.Handler.
Local Abbreviation Env := ClientMonitoringHandler.Env.

Lemma track_unfold b s :
  trackCurrentActivity b s =
    if hasChanged b (lastActivity s) then
      (Normal tt, set_lastActivity (currentActivity b) s,
       if connected s
       then [Send (ClientMonitoringHandler.client_activity_update
                     (employeeId s) (sessionId s) (currentActivity b))]
       else [])
    else (Normal tt, s, []).
Proof.
  unfold trackCurrentActivity, emit, bind, get_state, when, tell, modify, ret.
  destruct (hasChanged b (lastActivity s)); [|reflexivity].
  destruct (connected s); reflexivity.
Qed.

Lemma same_page_not_changed b b' :
  href b' = href b -> document_title b' = document_title b ->
  hidden b' = hidden b ->
  hasChanged b' (tracked (currentActivity b)) = false.
Proof.
  intros U T V. unfold hasChanged, currentActivity.
  cbn [ClientMonitoringHandler.act_url ClientMonitoringHandler.act_title
       ClientMonitoringHandler.act_isActive].
  rewrite U, T, V, !String.eqb_refl, Bool.eqb_reflx. reflexivity.
Qed.

Lemma same_page_same_change b b' last :
  href b' = href b -> document_title b' = document_title b ->
  hidden b' = hidden b ->
  hasChanged b' last = hasChanged b last.
Proof.
  intros U T V. unfold hasChanged. now rewrite U, T, V.
Qed.

(** X25. A page is reported at most once.  After a tracking tick, a tick
    on a page with the same URL, title and visibility sends nothing
    and changes nothing.  This holds whether or not the first tick
    could send: without a socket the first tick sends nothing and
    still remembers the page, so that page is never reported. *)
Theorem unchanged_page_is_not_sent_again (b b' : Browser) (s s' : Service) :
  href b' = href b -> document_title b' = document_title b ->
  hidden b' = hidden b ->
  lastActivity s' = lastActivity (state_of (trackCurrentActivity b s)) ->
  trackCurrentActivity b' s' = (Normal tt, s', []) /\
  (length (sent (trace_of (trackCurrentActivity b s))) <= 1)%nat /\
  (connected s = false -> trace_of (trackCurrentActivity b s) = []).
Proof.
  intros U T V L. rewrite (track_unfold b s) in L.
  rewrite (track_unfold b s), (track_unfold b' s').
  destruct (hasChanged b (lastActivity s)) eqn:C.
  - rewrite state_of_is in L. cbn [lastActivity set_lastActivity] in L.
    rewrite L, (same_page_not_changed b b' U T V).
    split; [reflexivity|]. rewrite trace_of_is.
    split; [destruct (connected s); simpl; lia|].
    intros ->. reflexivity.
  - rewrite state_of_is in L.
    rewrite L, (same_page_same_change b b' _ U T V), C.
    split; [reflexivity|]. rewrite trace_of_is.
    split; [simpl; lia|reflexivity].
Qed.

Lemma start_inactive_unfold b s :
  isActive s = false ->
  startMonitoring b s =
    let s1 :=
      state_of (trackCurrentActivity b
                  (set_activityInterval true (set_isActive true s))) in
    (Normal tt,
     if mediaStream s then set_screenshotInterval true s1 else s1,
     trace_of (trackCurrentActivity b
                 (set_activityInterval true (set_isActive true s))) ++
     if connected s
     then [Send (ClientMonitoringHandler.client_monitoring_started
                   (Some (ClientMonitoringHandler.started_data
                            (employeeId s) (sessionId s)
                            {| ClientMonitoringHandler.screenCapture :=
                                 mediaStream s;
                               ClientMonitoringHandler.activityTracking :=
                                 true |})))]
     else []).
Proof.
  intros A. destruct s as [act con e sid ai si ms la].
  cbn [isActive] in A. subst act.
  unfold startMonitoring, startActivityTracking, startScreenshotCapture.
  rewrite !track_unfold.
  unfold try_catch, bind, get_state, modify, when, emit, tell, ret.
  cbn [isActive lastActivity set_activityInterval set_isActive connected].
  rewrite !track_unfold.
  cbn [lastActivity set_activityInterval set_isActive connected].
  destruct (hasChanged b la), ms, con; reflexivity.
Qed.

Lemma start_unfold b e sid granted :
  href b <> "" ->
  startMonitoring b (initialized e sid granted) =
    (Normal tt,
     {| isActive := true;
        connected := true;
        employeeId := e;
        sessionId := sid;
        activityInterval := true;
        screenshotInterval := granted;
        mediaStream := granted;
        lastActivity := tracked (currentActivity b) |},
     [Send (ClientMonitoringHandler.client_activity_update
              e sid (currentActivity b));
      Send (ClientMonitoringHandler.client_monitoring_started
              (Some (ClientMonitoringHandler.started_data e sid
                       {| ClientMonitoringHandler.screenCapture := granted;
                          ClientMonitoringHandler.activityTracking :=
                            true |})))]).
Proof.
  intros N. apply String.eqb_neq in N.
  unfold startMonitoring, initialized, startActivityTracking,
    startScreenshotCapture.
  unfold try_catch, bind, get_state, modify, when.
  cbn [isActive set_isActive set_activityInterval connected employeeId
       sessionId activityInterval screenshotInterval mediaStream
       lastActivity].
  rewrite track_unfold.
  cbn [lastActivity connected employeeId sessionId hasChanged
       set_isActive set_activityInterval].
  rewrite N. cbn [negb orb set_lastActivity set_screenshotInterval isActive connected employeeId
                  sessionId activityInterval screenshotInterval mediaStream
                  lastActivity].
  destruct granted; reflexivity.
Qed.

Lemma announce_unfold env socket e sid caps (h : Handler) :
  ClientMonitoringHandler.handleMonitoringStarted env socket
    (Some (ClientMonitoringHandler.started_data e sid caps)) h =
    (Normal tt,
     let h1 :=
       ClientMonitoringHandler.with_sessions h
         (JsMap.set e
            {| ClientMonitoringHandler.employeeId := e;
               ClientMonitoringHandler.sessionId := sid;
               ClientMonitoringHandler.socketId := socket;
               ClientMonitoringHandler.startTime :=
                 ClientMonitoringHandler.now env;
               ClientMonitoringHandler.capabilities := caps;
               ClientMonitoringHandler.lastActivity := None;
               ClientMonitoringHandler.violationCount := 0;
               ClientMonitoringHandler.lastViolationTime := None |}
            (ClientMonitoringHandler.activeSessions h)) in
     if JsMap.has e (ClientMonitoringHandler.activityBuffer h) then h1
     else ClientMonitoringHandler.with_buffer h1
            (JsMap.set e [] (ClientMonitoringHandler.activityBuffer h)),
     [ClientMonitoringHandler.Join socket ("employee:" ++ e);
      ClientMonitoringHandler.Emit (ClientMonitoringHandler.to_socket socket)
        (ClientMonitoringHandler.monitoring_started_ack true sid)]).
Proof.
  unfold ClientMonitoringHandler.handleMonitoringStarted,
    ClientMonitoringHandler.room_of.
  cbn [ClientMonitoringHandler.started_employeeId
       ClientMonitoringHandler.started_sessionId
       ClientMonitoringHandler.started_capabilities].
  unfold try_catch, bind, modify, get_state, when, ret, tell.
  cbn [ClientMonitoringHandler.activityBuffer
       ClientMonitoringHandler.with_sessions].
  destruct (JsMap.has e (ClientMonitoringHandler.activityBuffer h));
    reflexivity.
Qed.

Section WithBuiltins.

Variable RegExp_i : string -> option (string -> bool).
Variable Date_parse : string -> option Z.
Variable Buffer_from_base64 : string -> string.

Local Abbreviation run :=
  (ClientMonitoringHandler.run RegExp_i Date_parse Buffer_from_base64).
Local Abbreviation ingest :=
  (ClientMonitoringHandler.handleScreenshotCaptured
     Date_parse Buffer_from_base64).

(** X26. The page on which monitoring starts is never recorded.
    [startMonitoring] sends the first activity update before it
    announces the session, so the handler, which has no session for
    the subject yet, drops the update with a warning: nothing is
    buffered or checked, and the new session has no last activity.
    The client remembers the page as sent, so it is not sent again
    while URL, title and visibility stay the same. *)
Theorem first_page_is_never_recorded
  (env : Env) (socket e sid : string) (granted : bool) (b b' : Browser)
  (h : Handler) :
  href b <> "" ->
  JsMap.get e (ClientMonitoringHandler.activeSessions h) = None ->
  href b' = href b -> document_title b' = document_title b ->
  hidden b' = hidden b ->
  let client := startMonitoring b (initialized e sid granted) in
  let server :=
    run (map (fun event => (env, socket, event)) (sent (trace_of client))) h in
  sent (trace_of client) =
    [ClientMonitoringHandler.client_activity_update e sid (currentActivity b);
     ClientMonitoringHandler.client_monitoring_started
       (Some (ClientMonitoringHandler.started_data e sid
                {| ClientMonitoringHandler.screenCapture := granted;
                   ClientMonitoringHandler.activityTracking := true |}))] /\
  trace_of server =
    [ClientMonitoringHandler.Console ClientMonitoringHandler.warn
       "No active session for employee";
     ClientMonitoringHandler.Join socket ("employee:" ++ e);
     ClientMonitoringHandler.Emit (ClientMonitoringHandler.to_socket socket)
       (ClientMonitoringHandler.monitoring_started_ack true sid)] /\
  option_map ClientMonitoringHandler.lastActivity
    (JsMap.get e (ClientMonitoringHandler.activeSessions (state_of server)))
    = Some None /\
  JsMap.get e (ClientMonitoringHandler.activityBuffer (state_of server)) =
    Some match JsMap.get e (ClientMonitoringHandler.activityBuffer h) with
         | Some buffered => buffered
         | None => []
         end /\
  trackCurrentActivity b' (state_of client) = (Normal tt, state_of client, []).
Proof using RegExp_i Date_parse Buffer_from_base64.
  intros N G U T V client server. subst server client.
  rewrite (start_unfold b e sid granted N).
  rewrite trace_of_is, state_of_is.
  split; [reflexivity|].
  cbn [sent flat_map app map ClientMonitoringHandler.run
       ClientMonitoringHandler.on].
  match goal with
  | |- trace_of ?server = _ /\ _ =>
      assert (E : server =
                  (Normal tt,
                   state_of (ClientMonitoringHandler.handleMonitoringStarted
                               env socket
                               (Some (ClientMonitoringHandler.started_data
                                        e sid
                                        {| ClientMonitoringHandler.screenCapture :=
                                             granted;
                                           ClientMonitoringHandler.activityTracking :=
                                             true |})) h),
                   [ClientMonitoringHandler.Console
                      ClientMonitoringHandler.warn
                      "No active session for employee";
                    ClientMonitoringHandler.Join socket ("employee:" ++ e);
                    ClientMonitoringHandler.Emit
                      (ClientMonitoringHandler.to_socket socket)
                      (ClientMonitoringHandler.monitoring_started_ack
                         true sid)]));
      [|rewrite E; clear E]
  end.
  { unfold bind, ret.
    rewrite (IngestFacts.activity_without_session RegExp_i env socket e sid
               (currentActivity b) h G).
    rewrite announce_unfold. reflexivity. }
  rewrite trace_of_is, state_of_is, announce_unfold, state_of_is.
  split; [reflexivity|]. split; [|split].
  - destruct (JsMap.has e (ClientMonitoringHandler.activityBuffer h));
      cbn [ClientMonitoringHandler.activeSessions
           ClientMonitoringHandler.with_sessions
           ClientMonitoringHandler.with_buffer];
      rewrite JsMapFacts.get_set_eq; reflexivity.
  - unfold JsMap.has.
    destruct (JsMap.get e (ClientMonitoringHandler.activityBuffer h))
      as [buffered|] eqn:B;
      cbn [ClientMonitoringHandler.activityBuffer
           ClientMonitoringHandler.with_sessions
           ClientMonitoringHandler.with_buffer].
    + exact B.
    + apply JsMapFacts.get_set_eq.
  - rewrite track_unfold. cbn [lastActivity].
    now rewrite (same_page_not_changed b b' U T V).
Qed.

Lemma capture_unfold frame b trigger metadata s :
  captureScreenshot frame b trigger metadata s =
    if negb (mediaStream s) then
      (Normal None, s,
       [Warn "Cannot capture screenshot - no media stream"])
    else
      match frame with
      | None => (Normal None, s, [Error "Screenshot capture failed"])
      | Some f =>
          (Normal (Some (screenshotData s b f trigger metadata)), s,
           if connected s
           then [Send (ClientMonitoringHandler.client_screenshot_captured
                         (Some (screenshotData s b f trigger metadata)))]
           else [])
      end.
Proof using.
  unfold captureScreenshot, emit, try_catch, bind, get_state, when, tell,
    throw, ret.
  destruct (mediaStream s); cbn [negb]; [|reflexivity].
  destruct frame as [f|]; [|reflexivity].
  destruct (connected s); reflexivity.
Qed.

Lemma capture_sends frame b trigger metadata s event :
  In event (sent (trace_of (captureScreenshot frame b trigger metadata s))) ->
  exists f,
    event = ClientMonitoringHandler.client_screenshot_captured
              (Some (screenshotData s b f trigger metadata)).
Proof using.
  rewrite capture_unfold.
  destruct (mediaStream s), frame as [f|], (connected s); cbn;
    intros I; try contradiction.
  destruct I as [<-|[]]. now exists f.
Qed.

Lemma url_change_trace frame b s :
  trace_of (url_change_timeout frame b s) =
    if isActive s
    then trace_of (captureScreenshot frame b "url_change"
                     {| cm_keys := ["previousUrl"; "newUrl"];
                        cm_timestamp := ClientMonitoringHandler.ts_absent |}
                     s)
    else [].
Proof using.
  unfold url_change_timeout, bind, get_state, ret.
  destruct (isActive s); [|reflexivity].
  rewrite capture_unfold.
  destruct (mediaStream s), frame as [f|], (connected s); reflexivity.
Qed.

(** X27. Every screenshot the client sends is stamped by the server.  None
    of the client's callers of [captureScreenshot] puts a timestamp in
    the metadata (the capture time is a top-level field, which the
    handler does not read), so every document the handler writes for
    such a screenshot carries the handler's own clock, not the time of
    the capture. *)
Theorem client_captures_are_stamped_by_server
  (env : Env) (socket : string) (frame : option Frame) (b : Browser)
  (s : Service) (h : Handler) (sends : list Effect)
  (d : ClientMonitoringHandler.ScreenshotData)
  (c : ClientMonitoringHandler.ScreenCapture) :
  In sends [trace_of (scheduled_screenshot frame b s);
            trace_of (triggerViolationScreenshot frame b s);
            trace_of (url_change_timeout frame b s)] ->
  In (ClientMonitoringHandler.client_screenshot_captured (Some d))
     (sent sends) ->
  In c (ClientMonitoringHandler.captures_of
          (trace_of (ingest env socket (Some d) h))) ->
  ClientMonitoringHandler.sc_timestamp c = ClientMonitoringHandler.now env.
Proof using Date_parse Buffer_from_base64.
  intros I D C.
  assert (K : exists f trigger metadata,
             d = screenshotData s b f trigger metadata /\
             cm_timestamp metadata = ClientMonitoringHandler.ts_absent).
  { unfold scheduled_screenshot, triggerViolationScreenshot in I.
    rewrite url_change_trace in I.
    destruct I as [<-|[<-|[<-|[]]]].
    - destruct (capture_sends _ _ _ _ _ _ D) as [f K].
      injection K as ->. eauto.
    - destruct (capture_sends _ _ _ _ _ _ D) as [f K].
      injection K as ->. eauto.
    - destruct (isActive s); [|destruct D].
      destruct (capture_sends _ _ _ _ _ _ D) as [f K].
      injection K as ->. eauto. }
  destruct K as [f [trigger [metadata [-> Ts]]]].
  rewrite (IngestFacts.ingest_capture_timestamps Date_parse Buffer_from_base64
             env socket (screenshotData s b f trigger metadata)
             _ h c eq_refl C).
  unfold ClientMonitoringHandler.validTimestamp.
  cbn [ClientMonitoringHandler.md_timestamp]. rewrite Ts. reflexivity.
Qed.

End WithBuiltins.

(** X28. A stop ends screen capture for good.  [stopMonitoring] drops the
    media stream and nothing but [initialize] asks for it again, so a
    restart announces a session without screen capture, schedules no
    screenshots, and every later capture request returns nothing and
    sends nothing. *)
Theorem restart_loses_screen_capture (b : Browser) (s : Service) :
  isActive s = true ->
  connected s = true ->
  let restarted := startMonitoring b (state_of (stopMonitoring s)) in
  completion_of restarted = Normal tt /\
  isActive (state_of restarted) = true /\
  screenshotInterval (state_of restarted) = false /\
  In (Send (ClientMonitoringHandler.client_monitoring_started
              (Some (ClientMonitoringHandler.started_data
                       (employeeId s) (sessionId s)
                       {| ClientMonitoringHandler.screenCapture := false;
                          ClientMonitoringHandler.activityTracking :=
                            true |}))))
     (trace_of restarted) /\
  forall frame b' trigger metadata,
    let capture :=
      captureScreenshot frame b' trigger metadata (state_of restarted) in
    completion_of capture = Normal None /\ sent (trace_of capture) = [].
Proof.
  intros A C restarted. subst restarted.
  destruct s as [act con e sid ai si ms la]. cbn in A, C. subst act con.
  assert (St : state_of (stopMonitoring
                 {| isActive := true; connected := true; employeeId := e;
                    sessionId := sid; activityInterval := ai;
                    screenshotInterval := si; mediaStream := ms;
                    lastActivity := la |}) =
               {| isActive := false; connected := true; employeeId := e;
                  sessionId := sid; activityInterval := false;
                  screenshotInterval := false; mediaStream := false;
                  lastActivity := la |}).
  { destruct ms; reflexivity. }
  rewrite St. cbn [employeeId sessionId].
  rewrite start_inactive_unfold by reflexivity. cbv zeta.
  rewrite track_unfold.
  cbn [lastActivity connected employeeId sessionId mediaStream
       set_activityInterval set_isActive].
  rewrite completion_of_is, state_of_is, trace_of_is.
  split; [reflexivity|].
  destruct (hasChanged b la);
    rewrite state_of_is, trace_of_is;
    (split; [reflexivity|]); (split; [reflexivity|]);
    (split; [simpl; auto|]);
    intros frame b' trigger metadata;
    rewrite capture_unfold;
    cbn [mediaStream set_lastActivity set_activityInterval set_isActive negb];
    rewrite completion_of_is, trace_of_is; split; reflexivity.
Qed.

End ClientFacts.

(** ** The further properties on concrete events *)

Module MoreScenarios.
Import ClientMonitoringHandler Examples MoreExamples.

Lemma non_explicit_alert_is_generic_witness :
  isExplicitViolation intranet_page = false /\
  getAlertConfig "work_policy_violation" intranet_page =
    {| type := "unauthorized_website";
       title := "Unauthorized Website Access";
       description := "Employee accessed unauthorized website: "
                      ++ act_url intranet_page;
       severity := "medium" |}.
Proof.
  split; [reflexivity|].
  apply (ComplianceFacts.non_explicit_alert_is_generic
           "work_policy_violation" intranet_page).
  reflexivity.
Defined.

Lemma failed_alert_write_consumes_cooldown_witness :
  let env1 := alert_write_fails calm in
  let env2 := at_time (now calm + 30000) calm in
  let v := "explicit_violation" in
  let r1 := handlePotentialViolation env1 "emp1" facebook_feed v started in
  let r2 := handlePotentialViolation env2 "emp1" facebook_feed v (state_of r1) in
  completion_of r1 = Normal tt /\
  alerts_of (trace_of r1 ++ trace_of r2) = [] /\
  emitted (trace_of r1 ++ trace_of r2)
    = [(to_room ("employee:" ++ "emp1"), capture_request env1 facebook_feed v)] /\
  JsMap.get "emp1" (activeSessions (state_of r2))
    = Some {| employeeId := "emp1";
              sessionId := "sess1";
              socketId := "sock1";
              startTime := 1753785045123;
              capabilities := both;
              lastActivity := None;
              violationCount := 1;
              lastViolationTime := Some (now env1) |}.
Proof.
  apply (ComplianceFacts.failed_alert_write_consumes_cooldown
           started "emp1" session1 (alert_write_fails calm)
           (at_time (now calm + 30000) calm) facebook_feed facebook_feed
           "explicit_violation" "explicit_violation");
    try reflexivity; simpl; lia.
Defined.

Lemma start_replaces_session_keeps_buffer_witness :
  let r := handleMonitoringStarted calm "sock2"
             (Some (started_data "emp1" "sess2" both)) visited in
  let r0 := handleMonitoringStarted calm "sock2" None visited in
  completion_of r = Normal tt /\
  JsMap.get "emp1" (activeSessions (state_of r)) =
    Some {| employeeId := "emp1";
            sessionId := "sess2";
            socketId := "sock2";
            startTime := now calm;
            capabilities := both;
            lastActivity := None;
            violationCount := 0;
            lastViolationTime := None |} /\
  JsMap.get "emp1" (activityBuffer (state_of r)) =
    Some match JsMap.get "emp1" (activityBuffer visited) with
         | Some buffered => buffered
         | None => []
         end /\
  (forall e', e' <> "emp1" ->
     JsMap.get e' (activeSessions (state_of r))
       = JsMap.get e' (activeSessions visited) /\
     JsMap.get e' (activityBuffer (state_of r))
       = JsMap.get e' (activityBuffer visited)) /\
  trace_of r =
    [Join "sock2" ("employee:" ++ "emp1");
     Emit (to_socket "sock2") (monitoring_started_ack true "sess2")] /\
  completion_of r0 = Normal tt /\
  state_of r0 = visited /\
  exists message,
    trace_of r0 =
      [Console error "Error handling monitoring started";
       Emit (to_socket "sock2") (monitoring_error message "start")].
Proof.
  apply (LifecycleFacts.start_replaces_session_keeps_buffer
           calm "sock2" "emp1" "sess2" both visited).
Defined.

Lemma stop_removes_session_and_buffer_witness :
  let r := handleMonitoringStopped calm "sock1"
             (Some (stopped_data "emp1" "sess1")) visited in
  let r0 := handleMonitoringStopped calm "sock1" None visited in
  completion_of r = Normal tt /\
  JsMap.get "emp1" (activeSessions (state_of r)) = None /\
  JsMap.get "emp1" (activityBuffer (state_of r)) = None /\
  (forall e', e' <> "emp1" ->
     JsMap.get e' (activeSessions (state_of r))
       = JsMap.get e' (activeSessions visited) /\
     JsMap.get e' (activityBuffer (state_of r))
       = JsMap.get e' (activityBuffer visited)) /\
  emitted (trace_of r)
    = [(to_socket "sock1", monitoring_stopped_ack true "sess1")] /\
  r0 = (Normal tt, visited,
        [Console error "Error handling monitoring stopped"]).
Proof.
  apply (LifecycleFacts.stop_removes_session_and_buffer
           calm "sock1" "emp1" "sess1" visited).
Defined.

Lemma failed_final_flush_loses_records_witness :
  let record :=
    browser_activity "emp1" "sess1" (act_timestamp intranet_page)
                     intranet_page in
  let r := handleMonitoringStopped (database_down calm) "sock1"
             (Some (stopped_data "emp1" "sess1")) visited in
  JsMap.get "emp1" (activityBuffer visited) = Some [record] /\
  batches_of (trace_of r) = [] /\
  JsMap.get "emp1" (activityBuffer (state_of r)) = None /\
  trace_of r =
    [Console error "Error flushing activities";
     Leave "sock1" ("employee:" ++ "emp1");
     Emit (to_socket "sock1") (monitoring_stopped_ack true "sess1")].
Proof.
  split; [reflexivity|].
  apply (LifecycleFacts.failed_final_flush_loses_records
           (database_down calm) "sock1" "emp1" "sess1" visited
           [browser_activity "emp1" "sess1" (act_timestamp intranet_page)
                             intranet_page]).
  - reflexivity.
  - discriminate.
  - reflexivity.
Defined.

Lemma visibility_and_focus_only_enqueue_witness :
  let timestamp := "2025-07-29T10:31:00.000Z" in
  let rv := handleVisibilityChange "sock1" "emp1" false timestamp started in
  let rf := handleFocusChange "sock1" "emp1" false timestamp started in
  let sid := session_id_or_unknown started "emp1" in
  trace_of rv = [] /\
  trace_of rf = [] /\
  activeSessions (state_of rv) = activeSessions started /\
  activeSessions (state_of rf) = activeSessions started /\
  (JsMap.get "emp1" (activityBuffer started) = None ->
     state_of rv = started /\ state_of rf = started) /\
  (forall buffered,
     JsMap.get "emp1" (activityBuffer started) = Some buffered ->
     JsMap.get "emp1" (activityBuffer (state_of rv))
       = Some (buffered ++ [visibility_change "emp1" sid timestamp false]) /\
     JsMap.get "emp1" (activityBuffer (state_of rf))
       = Some (buffered ++ [focus_change "emp1" sid timestamp false])) /\
  (JsMap.get "emp1" (activeSessions started) = None -> sid = "unknown").
Proof.
  apply (LifecycleFacts.visibility_and_focus_only_enqueue
           "sock1" "emp1" "2025-07-29T10:31:00.000Z" false started).
Defined.

Lemma periodic_flush_isolates_subjects_witness :
  let record1 :=
    browser_activity "emp1" "sess1" (act_timestamp intranet_page)
                     intranet_page in
  let record2 :=
    browser_activity "emp2" "sess2" (act_timestamp intranet_page)
                     intranet_page in
  let r := flushAll down_for_emp1 two_subjects in
  (JsMap.get "emp1" (activityBuffer two_subjects) = Some [record1] /\
   JsMap.get "emp2" (activityBuffer two_subjects) = Some [record2]) /\
  (insertMany_ok (down_for_emp1 "emp1") = false /\
   insertMany_ok (down_for_emp1 "emp2") = true) /\
  completion_of r = Normal tt /\
  activeSessions (state_of r) = activeSessions two_subjects /\
  JsMap.get "emp1" (activityBuffer (state_of r)) = Some [record1] /\
  JsMap.get "emp2" (activityBuffer (state_of r)) = Some [] /\
  In [record2] (batches_of (trace_of r)).
Proof.
  cbv zeta.
  assert (B1 : JsMap.get "emp1" (activityBuffer two_subjects)
               = Some [browser_activity "emp1" "sess1"
                         (act_timestamp intranet_page) intranet_page])
    by reflexivity.
  assert (B2 : JsMap.get "emp2" (activityBuffer two_subjects)
               = Some [browser_activity "emp2" "sess2"
                         (act_timestamp intranet_page) intranet_page])
    by reflexivity.
  destruct (FlushAllFacts.periodic_flush_isolates_subjects
              down_for_emp1 two_subjects) as [C [A [K _]]].
  split; [split; [exact B1|exact B2]|].
  split; [split; reflexivity|].
  split; [exact C|]. split; [exact A|].
  destruct (K "emp1" _ B1) as [_ Kept].
  destruct (K "emp2" _ B2) as [Written _].
  destruct (Written eq_refl) as [Emptied Batch].
  split; [apply Kept; reflexivity|].
  split; [exact Emptied|].
  apply Batch. discriminate.
Defined.




Lemma regular_screenshot_is_stored_as_manual_witness :
  let md := shot_metadata ts_absent in
  let imageBuffer := Builtins.Buffer_from_base64 "iVBORw0KGgo=" in
  let capture :=
    new_ScreenCapture Builtins.Date_parse calm "emp1" "sess1"
      (Some "scheduled") imageBuffer md uploaded in
  trace_of (ingest_ calm "sock1" (Some scheduled_shot) started) =
    [Upload false "emp1" imageBuffer "Flash Sale" "https://example-shop.com/";
     SaveCapture capture;
     Emit (to_socket "sock1")
          (screenshot_processed true (sc_id capture)
             (cloudinary_public_id uploaded) (Some "scheduled"))] /\
  sc_capture_trigger capture = "manual" /\
  sc_ai_analysis capture = None /\
  sc_ocr_analysis capture = None.
Proof.
  apply (IngestFacts.regular_screenshot_is_stored_as_manual
           Builtins.Date_parse Builtins.Buffer_from_base64 calm "sock1"
           scheduled_shot (shot_metadata ts_absent) uploaded started);
    reflexivity.
Defined.

Lemma failed_write_leaves_upload_witness :
  let r := ingest_ (capture_write_fails calm) "sock1" (Some violation_shot)
                   started in
  length (uploads_of (trace_of r)) = 1%nat /\
  captures_of (trace_of r) = [] /\
  emitted (trace_of r) =
    [(to_socket "sock1",
      screenshot_error "ScreenCapture validation failed"
        (JS.str_or (sd_trigger violation_shot) "unknown")
        (error_details (Some violation_shot)))].
Proof.
  apply (IngestFacts.failed_write_leaves_upload
           Builtins.Date_parse Builtins.Buffer_from_base64
           (capture_write_fails calm) "sock1" violation_shot
           (shot_metadata ts_absent) uploaded started); reflexivity.
Defined.

End MoreScenarios.

Module MoreCaptureScenarios.
Import ScreenCaptureService CaptureExamples MoreCaptureExamples.

Lemma start_capture_is_idempotent_witness :
  let sessions := JsMap.empty in
  startCapture "emp1" "sess2" (startCapture "emp1" "sess1" sessions)
    = startCapture "emp1" "sess1" sessions /\
  JsMap.has "emp1" (startCapture "emp1" "sess1" sessions) = true /\
  (JsMap.get "emp1" sessions = None ->
   JsMap.get "emp1" (startCapture "emp1" "sess1" sessions) =
     Some {| cs_employeeId := "emp1";
             cs_sessionId := "sess1";
             cs_intervalId := None;
             cs_lastCaptureHash := None;
             cs_captureCount := 0;
             cs_disabled := true |}) /\
  JsMap.get "emp1" (stopCapture "emp1" (startCapture "emp1" "sess1" sessions))
    = None /\
  (forall e', e' <> "emp1" ->
     JsMap.get e' (stopCapture "emp1" (startCapture "emp1" "sess1" sessions))
     = JsMap.get e' sessions).
Proof.
  apply (CaptureMoreFacts.start_capture_is_idempotent
           "emp1" "sess1" "sess2" JsMap.empty).
Defined.


Lemma successful_capture_updates_config_witness :
  let r := captureScreen Builtins.md5_hex default_service desktop "manual"
                         no_metadata fresh in
  captures_of (trace_of r) = [first_document] /\
  lastCaptureHash (state_of r) = Some (sc_file_hash first_document) /\
  captureCount (state_of r) = captureCount fresh + 1 /\
  sc_capture_trigger first_document = "manual" /\
  alerts_of (trace_of r) =
    if maxFileSize default_service <? sc_file_size first_document
    then [large_screenshot_file (employeeId fresh) (sessionId fresh)
                                (sc_id first_document)
                                (sc_file_size first_document)]
    else [].
Proof.
  apply (CaptureMoreFacts.successful_capture_updates_config
           Builtins.md5_hex default_service desktop "manual" no_metadata
           fresh first_document).
  reflexivity.
Defined.

Lemma repeated_scheduled_capture_is_skipped_witness :
  let first := captureScreen Builtins.md5_hex default_service desktop "manual"
                             no_metadata fresh in
  let second :=
    captureScreen Builtins.md5_hex default_service desktop "scheduled"
                  no_metadata (state_of first) in
  completion_of first = Normal (Some first_document) /\
  completion_of second = Normal None /\
  state_of second = state_of first /\
  captures_of (trace_of second) = [].
Proof.
  split; [reflexivity|].
  apply (CaptureMoreFacts.repeated_scheduled_capture_is_skipped
           Builtins.md5_hex default_service default_service desktop "manual"
           no_metadata no_metadata fresh first_document).
  reflexivity.
Defined.

End MoreCaptureScenarios.

Module HostScenarios.
Import EnvironmentConfig HostExamples.

Lemma capabilities_of_the_host_witness :
  let this := new_EnvironmentConfig workstation "linux" in
  let c := capabilities this in
  isHeadless this = false /\
  canTakeScreenshots c = true /\ canDetectBrowsers c = true /\
  canAccessDisplay c = true.
Proof.
  split; [reflexivity|].
  apply (EnvironmentFacts.capabilities_of_the_host workstation "linux").
  - reflexivity.
  - left. reflexivity.
Defined.

Lemma real_capture_needs_a_display_variable_witness :
  canTakeScreenshots (capabilities (new_EnvironmentConfig workstation "win32"))
    = true /\
  given workstation "DISPLAY" || given workstation "WAYLAND_DISPLAY" = true.
Proof.
  split; [reflexivity|].
  apply (EnvironmentFacts.real_capture_needs_a_display_variable
           workstation "win32").
  reflexivity.
Defined.

Lemma detection_method_of_the_host_witness :
  let this := new_EnvironmentConfig workstation "darwin" in
  isHeadless this = false /\
  getBrowserDetectionMethod this = "applescript".
Proof.
  split; [reflexivity|].
  apply (EnvironmentFacts.detection_method_of_the_host workstation "darwin");
    reflexivity.
Defined.

Lemma capture_headless_implies_simulation_witness :
  let this := new_EnvironmentConfig bare "linux" in
  capture_isHeadless bare "linux" = true /\
  isHeadless this = true /\
  simulationMode (capabilities this) = true /\
  canTakeScreenshots (capabilities this) = false /\
  isFeatureAvailable this "screenshots" = true.
Proof.
  split; [reflexivity|].
  apply (EnvironmentFacts.capture_headless_implies_simulation bare "linux").
  reflexivity.
Defined.

Lemma named_cloud_host_is_headless_witness :
  getCloudPlatform render = "render" /\
  detectHeadlessEnvironment render = true.
Proof.
  split; [reflexivity|].
  apply (EnvironmentFacts.named_cloud_host_is_headless render).
  left. reflexivity.
Defined.

Lemma monitoring_config_of_the_host_witness :
  let this := new_EnvironmentConfig render "linux" in
  let cfg := getMonitoringConfig Builtins.parseInt render this in
  isHeadless this = true /\
  10000 <= browserCheckInterval cfg /\
  15000 <= websiteMonitoringInterval cfg /\
  screenshotEnabled cfg = true.
Proof.
  split; [reflexivity|].
  apply (EnvironmentFacts.monitoring_config_of_the_host
           Builtins.parseInt render "linux").
  reflexivity.
Defined.

End HostScenarios.

Module ClientScenarios.
Import ClientMonitoringService ClientExamples.

Lemma unchanged_page_is_not_sent_again_witness :
  trackCurrentActivity shop_tab_later running = (Normal tt, running, []) /\
  (length (sent (trace_of (trackCurrentActivity shop_tab agent))) <= 1)%nat /\
  (connected agent = false ->
   trace_of (trackCurrentActivity shop_tab agent) = []).
Proof.
  apply (ClientFacts.unchanged_page_is_not_sent_again
           shop_tab shop_tab_later agent running); reflexivity.
Defined.

Lemma first_page_is_never_recorded_witness :
  let client := startMonitoring shop_tab agent in
  let server :=
    Examples.run_
      (map (fun event => (Examples.calm, "sock1", event))
           (sent (trace_of client)))
      ClientMonitoringHandler.new_handler in
  sent (trace_of client) =
    [ClientMonitoringHandler.client_activity_update
       "emp1" "client_session_emp1_1" (currentActivity shop_tab);
     ClientMonitoringHandler.client_monitoring_started
       (Some (ClientMonitoringHandler.started_data
                "emp1" "client_session_emp1_1"
                {| ClientMonitoringHandler.screenCapture := true;
                   ClientMonitoringHandler.activityTracking := true |}))] /\
  trace_of server =
    [ClientMonitoringHandler.Console ClientMonitoringHandler.warn
       "No active session for employee";
     ClientMonitoringHandler.Join "sock1" ("employee:" ++ "emp1");
     ClientMonitoringHandler.Emit (ClientMonitoringHandler.to_socket "sock1")
       (ClientMonitoringHandler.monitoring_started_ack
          true "client_session_emp1_1")] /\
  option_map ClientMonitoringHandler.lastActivity
    (JsMap.get "emp1"
       (ClientMonitoringHandler.activeSessions (state_of server)))
    = Some None /\
  JsMap.get "emp1" (ClientMonitoringHandler.activityBuffer (state_of server)) =
    Some match JsMap.get "emp1"
                 (ClientMonitoringHandler.activityBuffer
                    ClientMonitoringHandler.new_handler) with
         | Some buffered => buffered
         | None => []
         end /\
  trackCurrentActivity shop_tab_later (state_of client)
    = (Normal tt, state_of client, []).
Proof.
  apply (ClientFacts.first_page_is_never_recorded
           Builtins.RegExp_i Builtins.Date_parse Builtins.Buffer_from_base64
           Examples.calm "sock1" "emp1" "client_session_emp1_1" true
           shop_tab shop_tab_later ClientMonitoringHandler.new_handler);
    try reflexivity.
  discriminate.
Defined.

Lemma client_captures_are_stamped_by_server_witness :
  In (ClientMonitoringHandler.client_screenshot_captured (Some scheduled_data))
     (sent (trace_of (scheduled_screenshot (Some frame1) shop_tab running))) /\
  In stored_data
     (ClientMonitoringHandler.captures_of
        (trace_of (Examples.ingest_ Examples.calm "sock1"
                     (Some scheduled_data) Examples.started))) /\
  ClientMonitoringHandler.sc_timestamp stored_data
    = ClientMonitoringHandler.now Examples.calm.
Proof.
  assert (D : In (ClientMonitoringHandler.client_screenshot_captured
                    (Some scheduled_data))
                 (sent (trace_of (scheduled_screenshot (Some frame1) shop_tab
                                                       running))))
    by (left; reflexivity).
  assert (C : In stored_data
                 (ClientMonitoringHandler.captures_of
                    (trace_of (Examples.ingest_ Examples.calm "sock1"
                                 (Some scheduled_data) Examples.started))))
    by (left; reflexivity).
  split; [exact D|]. split; [exact C|].
  apply (ClientFacts.client_captures_are_stamped_by_server
           Builtins.Date_parse Builtins.Buffer_from_base64
           Examples.calm "sock1" (Some frame1) shop_tab running
           Examples.started
           (trace_of (scheduled_screenshot (Some frame1) shop_tab running))
           scheduled_data stored_data).
  - left. reflexivity.
  - exact D.
  - exact C.
Defined.

Lemma restart_loses_screen_capture_witness :
  let restarted := startMonitoring shop_tab (state_of (stopMonitoring running)) in
  completion_of restarted = Normal tt /\
  isActive (state_of restarted) = true /\
  screenshotInterval (state_of restarted) = false /\
  In (Send (ClientMonitoringHandler.client_monitoring_started
              (Some (ClientMonitoringHandler.started_data
                       (employeeId running) (sessionId running)
                       {| ClientMonitoringHandler.screenCapture := false;
                          ClientMonitoringHandler.activityTracking :=
                            true |}))))
     (trace_of restarted) /\
  forall frame b' trigger metadata,
    let capture :=
      captureScreenshot frame b' trigger metadata (state_of restarted) in
    completion_of capture = Normal None /\ sent (trace_of capture) = [].
Proof.
  apply (ClientFacts.restart_loses_screen_capture shop_tab running);
    reflexivity.
Defined.

End ClientScenarios.
